(** * firecracker-python: a shallow embedding of the microVM orchestrator

    The development follows the layout of the package:
    - [Py]        the fragment of Python the package relies on (dynamic values,
                  exceptions, string helpers, JSON-like containers), as
                  CPython 3.11 behaves;
    - [Config]    [firecracker/config.py], the [MicroVMConfig] dataclass;
    - [IpAddress] the parts of the standard [ipaddress] module that
                  [get_gateway_ip] calls (CPython 3.9 - 3.12 behaviour);
    - [Host]      the interface to everything outside the package (kernel links,
                  the nftables engine, the file system, the hypervisor process,
                  the control socket, the registry kept by [VMMManager]);
    - [Network]   [firecracker/network.py];
    - [MicroVM]   [firecracker/microvm.py];
    - [Sim]       a small recording host used to run the code on examples.

    Logger calls are guarded by [verbose] and only write to the logging sink;
    the sink is not part of the modelled world and those calls are left out. *)

From Stdlib Require Import ZArith String Ascii List Bool Lia QArith.
From stdpp Require Import base gmap strings list pretty.

Local Open Scope string_scope.
Local Open Scope list_scope.
Local Open Scope Z_scope.

(* ===================================================================== *)
(** * Python values, exceptions and results *)
(* ===================================================================== *)

Module Py.

(** Scalars that configuration options and call arguments range over. *)
Inductive pyval : Type :=
  | PNone
  | PBool (b : bool)
  | PInt (z : Z)
  | PStr (s : string).

(** Truth value of an object in a condition ([if x], [x if x else y]). *)
Definition truthy (v : pyval) : bool :=
  match v with
  | PNone => false
  | PBool b => b
  | PInt z => negb (z =? 0)%Z
  | PStr s => negb (String.eqb s "")
  end.

(** [str(v)], which is also what an f-string substitutes. *)
Definition str (v : pyval) : string :=
  match v with
  | PNone => "None"
  | PBool true => "True"
  | PBool false => "False"
  | PInt z => pretty z
  | PStr s => s
  end.

(** A string is a sequence of code points below 256, one [ascii] each. *)
Definition code (c : ascii) : Z := Z.of_nat (nat_of_ascii c).

Definition quote : ascii := "'".
Definition double_quote : ascii := ascii_of_nat 34.
Definition backslash : ascii := ascii_of_nat 92.

Fixpoint has_char (c : ascii) (s : string) : bool :=
  match s with
  | EmptyString => false
  | String d s' => Ascii.eqb c d || has_char c s'
  end.

(** [c.isprintable()]: the controls, the no-break space and the soft hyphen
    are not; of the spaces only U+0020 is. *)
Definition is_printable (c : ascii) : bool :=
  ((32 <=? code c) && (code c <=? 126)) || ((161 <=? code c) && negb (code c =? 173)).

Definition hex_digit (n : Z) : ascii :=
  match String.get (Z.to_nat n) "0123456789abcdef" with
  | Some c => c
  | None => "0"
  end.

(** One character of [repr(s)] between quotes [q]. *)
Definition repr_char (q c : ascii) : string :=
  if Ascii.eqb c q || Ascii.eqb c backslash then String backslash (String c "")
  else if code c =? 9 then String backslash "t"
  else if code c =? 10 then String backslash "n"
  else if code c =? 13 then String backslash "r"
  else if is_printable c then String c ""
  else String backslash
         (String "x" (String (hex_digit (code c / 16)) (String (hex_digit (code c mod 16)) ""))).

Fixpoint repr_chars (q : ascii) (s : string) : string :=
  match s with
  | EmptyString => ""
  | String c s' => repr_char q c +:+ repr_chars q s'
  end.

(** [repr(s)] of a string: double quotes when it holds a single quote and no
    double quote, single quotes otherwise. *)
Definition repr (s : string) : string :=
  let q := if has_char quote s && negb (has_char double_quote s) then double_quote else quote in
  String q (repr_chars q s) +:+ String q "".

(** [type(v).__name__] *)
Definition type_name (v : pyval) : string :=
  match v with
  | PNone => "NoneType"
  | PBool _ => "bool"
  | PInt _ => "int"
  | PStr _ => "str"
  end.

(** [a == b]; [bool] is a subclass of [int], so [True == 1]. *)
Definition int_of_bool (b : bool) : Z := if b then 1 else 0.

Definition eqb (a b : pyval) : bool :=
  match a, b with
  | PNone, PNone => true
  | PStr s, PStr t => String.eqb s t
  | PInt x, PInt y => (x =? y)%Z
  | PBool x, PBool y => Bool.eqb x y
  | PBool x, PInt y | PInt y, PBool x => (int_of_bool x =? y)%Z
  | _, _ => false
  end.

(** Exception classes met in the package. [AddressValueError] derives from
    [ValueError]; [firecracker.exceptions] is not part of the sources at hand
    and its classes are taken to derive from [Exception], as every
    [except Exception] handler of the package presumes. [PlainException] is
    an instance of [Exception] itself. *)
Inductive exn_class : Type :=
  | AttributeError | TypeError | ValueError | KeyError | IndexError
  | RuntimeError | OSError | RequestException | AddressValueError
  | NetworkError | ConfigurationError | ProcessError | APIError | VMMError
  | PlainException.

Record exn : Type := Exn { exn_cls : exn_class; exn_msg : string }.

Definition exn_class_eqb (a b : exn_class) : bool :=
  match a, b with
  | AttributeError, AttributeError | TypeError, TypeError
  | ValueError, ValueError | KeyError, KeyError | IndexError, IndexError
  | RuntimeError, RuntimeError | OSError, OSError
  | RequestException, RequestException
  | AddressValueError, AddressValueError | NetworkError, NetworkError
  | ConfigurationError, ConfigurationError | ProcessError, ProcessError
  | APIError, APIError | VMMError, VMMError | PlainException, PlainException => true
  | _, _ => false
  end.

(** [isinstance(e, c)] for the classes above. *)
Definition isinstance (e : exn) (c : exn_class) : bool :=
  exn_class_eqb (exn_cls e) c
  || (exn_class_eqb (exn_cls e) AddressValueError && exn_class_eqb c ValueError).

(** Outcome of a computation that may raise. *)
Inductive result (A : Type) : Type :=
  | Ok (a : A)
  | Raise (e : exn).
Arguments Ok {A} a.
Arguments Raise {A} e.

Definition rbind {A B} (r : result A) (k : A -> result B) : result B :=
  match r with
  | Ok a => k a
  | Raise e => Raise e
  end.

Definition raise {A} (c : exn_class) (m : string) : result A := Raise (Exn c m).

(** [try: r except c as e: h e] *)
Definition rcatch {A} (r : result A) (c : exn_class) (h : exn -> result A) : result A :=
  match r with
  | Ok a => Ok a
  | Raise e => if isinstance e c then h e else Raise e
  end.

(** [try: r except Exception as e: h e] *)
Definition rcatch_all {A} (r : result A) (h : exn -> result A) : result A :=
  match r with
  | Ok a => Ok a
  | Raise e => h e
  end.

(** Computations over a world [W]: a raised exception keeps the effects
    performed before it. *)
Definition M (W A : Type) : Type := W -> result A * W.

Definition ret {W A} (a : A) : M W A := fun w => (Ok a, w).
Definition throw {W A} (c : exn_class) (m : string) : M W A := fun w => (raise c m, w).
Definition rethrow {W A} (e : exn) : M W A := fun w => (Raise e, w).
Definition lift {W A} (r : result A) : M W A := fun w => (r, w).

Definition bind {W A B} (m : M W A) (k : A -> M W B) : M W B :=
  fun w => match m w with
           | (Ok a, w') => k a w'
           | (Raise e, w') => (Raise e, w')
           end.

(** [try: m except Exception as e: h e] *)
Definition try_except {W A} (m : M W A) (h : exn -> M W A) : M W A :=
  fun w => match m w with
           | (Ok a, w') => (Ok a, w')
           | (Raise e, w') => h e w'
           end.

(** [try: m finally: f]; an exception raised by [f] replaces the outcome. *)
Definition try_finally {W A} (m : M W A) (f : M W unit) : M W A :=
  fun w => match m w with
           | (r, w') => match f w' with
                        | (Ok _, w'') => (r, w'')
                        | (Raise e, w'') => (Raise e, w'')
                        end
           end.

(** An observation of the world. *)
Definition read {W A} (f : W -> A) : M W A := fun w => (Ok (f w), w).

(** [len(v)] *)
Definition len (v : pyval) : result Z :=
  match v with
  | PStr s => Ok (Z.of_nat (String.length s))
  | _ => raise TypeError ("object of type '" +:+ type_name v +:+ "' has no len()")
  end.

(** [int(s)] of a string, base 10 (CPython 3.11): white space around the
    literal is skipped, a sign may come first, the digits may be grouped by
    single underscores, and a literal of more than 4300 digits (the default of
    [sys.set_int_max_str_digits]) is refused. The white space is the ASCII
    one and, of the other code points, U+0085 and U+00A0. *)
Definition is_int_space (c : ascii) : bool :=
  (code c =? 32) || ((9 <=? code c) && (code c <=? 13)) || (code c =? 133) || (code c =? 160).

Fixpoint skip_int_space (s : string) : string :=
  match s with
  | EmptyString => ""
  | String c s' => if is_int_space c then skip_int_space s' else s
  end.

Definition is_digit (c : ascii) : bool := (48 <=? code c) && (code c <=? 57).

(** The digits and underscores at the start of [s]: the value on top of
    [acc], the number of digits on top of [digits], and what follows. [prev]
    tells whether the character before was an underscore; two in a row, or one
    at the end, are refused. *)
Fixpoint scan_digits (acc digits : Z) (prev : bool) (s : string) : option (Z * Z * string) :=
  match s with
  | EmptyString => if prev then None else Some (acc, digits, "")
  | String c s' =>
      if is_digit c then scan_digits (10 * acc + (code c - 48)) (digits + 1) false s'
      else if Ascii.eqb c "_" then
        if prev then None else scan_digits acc digits true s'
      else if prev then None else Some (acc, digits, s)
  end.

Definition int_max_str_digits : Z := 4300.

(** The first 200 characters of [repr(s)], as [%.200R] prints them. *)
Definition repr200 (s : string) : string := String.substring 0 200 (repr s).

Definition invalid_literal {A} (s : string) : result A :=
  raise ValueError ("invalid literal for int() with base 10: " +:+ repr200 s).

(** The literal [t] of [s] once the white space in front and the sign are
    gone. *)
Definition int_literal (s t : string) (sign : Z) : result Z :=
  if String.prefix "_" t then invalid_literal s
  else
    match scan_digits 0 0 false t with
    | Some (z, digits, rest) =>
        if digits =? 0 then invalid_literal s
        else if int_max_str_digits <? digits then
          raise ValueError
            ("Exceeds the limit (" +:+ pretty int_max_str_digits
               +:+ " digits) for integer string conversion: value has " +:+ pretty digits
               +:+ " digits; use sys.set_int_max_str_digits() to increase the limit")
        else
          match skip_int_space rest with
          | EmptyString => Ok (sign * z)
          | _ => invalid_literal s
          end
    | None => invalid_literal s
    end.

Definition int_of_str (s : string) : result Z :=
  match skip_int_space s with
  | String c t =>
      if Ascii.eqb c "-" then int_literal s t (-1)
      else if Ascii.eqb c "+" then int_literal s t 1
      else int_literal s (String c t) 1
  | EmptyString => int_literal s "" 1
  end.

Definition int_ (v : pyval) : result Z :=
  match v with
  | PInt z => Ok z
  | PBool b => Ok (int_of_bool b)
  | PStr s => int_of_str s
  | PNone => raise TypeError "int() argument must be a string, a bytes-like object or a real number, not 'NoneType'"
  end.

(** The integer an [int] (or [bool]) object stands for. *)
Definition as_int (v : pyval) : Z :=
  match v with
  | PInt z => z
  | PBool b => int_of_bool b
  | _ => 0
  end.

(** [isinstance(v, int)] *)
Definition is_int (v : pyval) : bool :=
  match v with PInt _ | PBool _ => true | _ => false end.

(** [a and b], [a or b] on conditions whose evaluation may raise. *)
Definition and_then (a b : result bool) : result bool :=
  rbind a (fun x => if x then b else Ok false).

Definition or_else (a b : result bool) : result bool :=
  rbind a (fun x => if x then Ok true else b).

(** Loops over a list inside [result]: a fold, and a search that stops at
    the first hit (a [return] inside a [for]). *)
Fixpoint rfold {A S} (f : S -> A -> result S) (l : list A) (s : S) : result S :=
  match l with
  | [] => Ok s
  | x :: l' => rbind (f s x) (fun s' => rfold f l' s')
  end.

Fixpoint rfind {A B} (f : A -> result (option B)) (l : list A) : result (option B) :=
  match l with
  | [] => Ok None
  | x :: l' => rbind (f x) (fun o => match o with
                                     | Some b => Ok (Some b)
                                     | None => rfind f l'
                                     end)
  end.

(** [for x in l: body x] *)
Fixpoint for_each {W A} (l : list A) (body : A -> M W unit) : M W unit :=
  match l with
  | [] => ret tt
  | x :: l' => bind (body x) (fun _ => for_each l' body)
  end.

End Py.

Export Py.

Declare Scope py_scope.
Delimit Scope py_scope with py.
Notation "'let?' x ':=' r 'in' k" := (rbind r (fun x => k))
  (at level 10, x name, r at level 100, k at level 200) : py_scope.
Notation "'let!' x ':=' m 'in' k" := (bind m (fun x => k))
  (at level 10, x name, m at level 100, k at level 200) : py_scope.
Notation "'let?' ' p ':=' r 'in' k" := (rbind r (fun x => match x with p => k end))
  (at level 10, p pattern, r at level 100, k at level 200) : py_scope.
Notation "'let!' ' p ':=' m 'in' k" := (bind m (fun x => match x with p => k end))
  (at level 10, p pattern, m at level 100, k at level 200) : py_scope.
Notation "'do!' m 'in' k" := (bind m (fun _ => k))
  (at level 10, m at level 100, k at level 200) : py_scope.
Notation "'do?' r 'in' k" := (rbind r (fun _ => k))
  (at level 10, r at level 100, k at level 200) : py_scope.
Local Open Scope py_scope.


(* ===================================================================== *)
(** * Strings: the [str] methods and [os.path] helpers that are used *)
(* ===================================================================== *)

Module PyStr.

(** [s.split(sep)] for a one-character separator. *)
Fixpoint split (sep : ascii) (s : string) : list string :=
  match s with
  | EmptyString => [""]
  | String c s' =>
      if Ascii.eqb c sep then "" :: split sep s'
      else match split sep s' with
           | [] => [String c ""]
           | hd :: tl => String c hd :: tl
           end
  end.

(** [sep.join(l)] *)
Fixpoint join (sep : string) (l : list string) : string :=
  match l with
  | [] => ""
  | x :: l' =>
      match l' with
      | [] => x
      | _ :: _ => x +:+ sep +:+ join sep l'
      end
  end.

(** [sub in s] *)
Fixpoint contains (sub s : string) : bool :=
  String.prefix sub s
  || match s with
     | EmptyString => false
     | String _ s' => contains sub s'
     end.

(** [c in s] for a character. *)
Fixpoint mem_char (c : ascii) (s : string) : bool :=
  match s with
  | EmptyString => false
  | String d s' => Ascii.eqb c d || mem_char c s'
  end.

Fixpoint all_chars (p : ascii -> bool) (s : string) : bool :=
  match s with
  | EmptyString => true
  | String c s' => p c && all_chars p s'
  end.

(** [s.partition(sep)] for a one-character separator: the text before the
    first [sep] and, when there is one, the text after it. *)
Fixpoint partition (sep : ascii) (s : string) : string * option string :=
  match s with
  | EmptyString => ("", None)
  | String c s' =>
      if Ascii.eqb c sep then ("", Some s')
      else let '(a, b) := partition sep s' in (String c a, b)
  end.

(** [s.replace('./', '')] *)
Fixpoint remove_dot_slash (s : string) : string :=
  match s with
  | EmptyString => ""
  | String c s' =>
      match s' with
      | String d r =>
          if Ascii.eqb c "." && Ascii.eqb d "/" then remove_dot_slash r
          else String c (remove_dot_slash s')
      | EmptyString => s
      end
  end.

(** [c.isspace()], the white space [str.strip()] removes: the ASCII one with
    the separators U+001C to U+001F, and U+0085 and U+00A0. *)
Definition is_space (c : ascii) : bool :=
  (Py.code c =? 32) || ((9 <=? Py.code c) && (Py.code c <=? 13))
  || ((28 <=? Py.code c) && (Py.code c <=? 31))
  || (Py.code c =? 133) || (Py.code c =? 160).

Fixpoint lstrip (s : string) : string :=
  match s with
  | EmptyString => ""
  | String c s' => if is_space c then lstrip s' else s
  end.

Fixpoint rstrip (s : string) : string :=
  match s with
  | EmptyString => ""
  | String c s' =>
      match rstrip s' with
      | EmptyString => if is_space c then "" else String c ""
      | r => String c r
      end
  end.

Definition strip (s : string) : string := rstrip (lstrip s).

Definition endswith_char (c : ascii) (s : string) : bool :=
  match String.length s with
  | O => false
  | S n => match String.get n s with
           | Some d => Ascii.eqb c d
           | None => false
           end
  end.

(** [os.path.basename(p)] *)
Definition basename (p : string) : string := List.last (split "/" p) "".

(** [os.path.join(a, b)] (POSIX) *)
Definition path_join (a b : string) : string :=
  if String.prefix "/" b then b
  else if String.eqb a "" || endswith_char "/" a then a +:+ b
  else a +:+ "/" +:+ b.

End PyStr.

(* ===================================================================== *)
(** * JSON-like containers: what the rule engine takes and returns *)
(* ===================================================================== *)

Module Json.

#[local] Unset Elimination Schemes.
Inductive json : Type :=
  | JVal (v : pyval)
  | JList (l : list json)
  | JDict (d : list (string * json)).
#[local] Set Elimination Schemes.

Definition JS (s : string) : json := JVal (PStr s).
Definition JI (z : Z) : json := JVal (PInt z).
Definition JNone : json := JVal PNone.

Definition type_name (j : json) : string :=
  match j with
  | JVal v => Py.type_name v
  | JList _ => "list"
  | JDict _ => "dict"
  end.

Fixpoint assoc (k : string) (d : list (string * json)) : option json :=
  match d with
  | [] => None
  | (k', v) :: d' => if String.eqb k k' then Some v else assoc k d'
  end.

(** [j == v] against a scalar: a list or a dict never equals one. *)
Definition eq_val (j : json) (v : pyval) : bool :=
  match j with
  | JVal u => Py.eqb u v
  | _ => false
  end.

(** [j[k]] with a string key. *)
Definition getitem (j : json) (k : string) : result json :=
  match j with
  | JDict d =>
      match assoc k d with
      | Some v => Ok v
      | None => raise KeyError (Py.repr k)
      end
  | JList _ => raise TypeError "list indices must be integers or slices, not str"
  | JVal (PStr _) => raise TypeError "string indices must be integers, not 'str'"
  | JVal v => raise TypeError ("'" +:+ Py.type_name v +:+ "' object is not subscriptable")
  end.

(** [k in j] with a string [k]. *)
Definition has (k : string) (j : json) : result bool :=
  match j with
  | JDict d => Ok (bool_decide (is_Some (assoc k d)))
  | JList l => Ok (existsb (fun x => eq_val x (PStr k)) l)
  | JVal (PStr s) => Ok (PyStr.contains k s)
  | JVal v => raise TypeError ("argument of type '" +:+ Py.type_name v +:+ "' is not iterable")
  end.

(** [j.get(k, default)] *)
Definition get (j : json) (k : string) (default : json) : result json :=
  match j with
  | JDict d =>
      match assoc k d with
      | Some v => Ok v
      | None => Ok default
      end
  | _ => raise AttributeError ("'" +:+ type_name j +:+ "' object has no attribute 'get'")
  end.

(** [for x in j]; iterating a string yields its characters, a dict its keys. *)
Definition iter (j : json) : result (list json) :=
  match j with
  | JList l => Ok l
  | JDict d => Ok (map (fun kv => JS (fst kv)) d)
  | JVal (PStr s) => Ok (map (fun c => JS (String c "")) (list_ascii_of_string s))
  | JVal v => raise TypeError ("'" +:+ Py.type_name v +:+ "' object is not iterable")
  end.

Definition is_str (j : json) : bool :=
  match j with JVal (PStr _) => true | _ => false end.

Definition is_dict (j : json) : bool :=
  match j with JDict _ => true | _ => false end.

(** Truth value: empty containers are false. *)
Definition truthy (j : json) : bool :=
  match j with
  | JVal v => Py.truthy v
  | JList l => negb (bool_decide (l = []))
  | JDict d => negb (bool_decide (d = []))
  end.

(** [repr(j)] and [str(j)] *)
Fixpoint repr (j : json) : string :=
  match j with
  | JVal (PStr s) => Py.repr s
  | JVal v => Py.str v
  | JList l => "[" +:+ PyStr.join ", " (map repr l) +:+ "]"
  | JDict d =>
      "{" +:+ PyStr.join ", " (map (fun kv => Py.repr (fst kv) +:+ ": " +:+ repr (snd kv)) d)
        +:+ "}"
  end.

Definition to_str (j : json) : string :=
  match j with
  | JVal v => Py.str v
  | _ => repr j
  end.

(** [j[k1][k2]...] *)
Fixpoint getpath (j : json) (ks : list string) : result json :=
  match ks with
  | [] => Ok j
  | k :: ks' => rbind (getitem j k) (fun j' => getpath j' ks')
  end.

(** [a, b = j]: the two items of a list, the two keys of a dict, the two
    characters of a string. *)
Definition unpack2 (j : json) : result (json * json) :=
  match j with
  | JVal (PStr _) | JList _ | JDict _ =>
      let? items := iter j in
      match items with
      | [a; b] => Ok (a, b)
      | [] | [_] =>
          raise ValueError ("not enough values to unpack (expected 2, got "
                              +:+ pretty (Z.of_nat (length items)) +:+ ")")
      | _ => raise ValueError "too many values to unpack (expected 2)"
      end
  | _ => raise TypeError ("cannot unpack non-iterable " +:+ type_name j +:+ " object")
  end.

End Json.

Export Json.

(* ===================================================================== *)
(** * firecracker/config.py *)
(* ===================================================================== *)

Module Config.

Definition data_path : string := "/var/lib/firecracker".

(** The fields of the dataclass with their defaults. The decorator leaves each
    default in place as an attribute of the class. *)
Definition fields : list (string * pyval) :=
  [ ("data_path", PStr data_path);
    ("binary_path", PStr "/usr/local/bin/firecracker");
    ("kernel_file", PStr (PyStr.path_join data_path "vmlinux"));
    ("initrd_file", PNone);
    ("init_file", PStr "/sbin/init");
    ("base_rootfs", PNone);
    ("overlayfs", PBool false);
    ("overlayfs_file", PNone);
    ("ip_addr", PStr "172.16.0.2");
    ("bridge", PBool false);
    ("bridge_name", PStr "docker0");
    ("mmds_enabled", PBool false);
    ("mmds_ip", PStr "169.254.169.254");
    ("user_data", PNone);
    ("vcpu", PInt 1);
    ("memory", PInt 512);
    ("hostname", PStr "fc-vm");
    ("verbose", PBool false);
    ("level", PStr "INFO");
    ("ssh_user", PStr "root");
    ("expose_ports", PBool false);
    ("host_port", PNone);
    ("dest_port", PNone) ].

(** An instance of the dataclass, as its attribute dictionary ([__dict__]).
    [MicroVMConfig] is the instance [MicroVMConfig()] builds: the generated
    [__init__] stores every field, here at its default. *)
Definition MicroVMConfig : gmap string pyval := list_to_map fields.

(** The attributes every instance has from the class and from [object], the
    fields apart (CPython 3.11): what the decorator generates, what the class
    statement leaves, and the methods and slots of [object]. *)
Definition class_attributes : list string :=
  [ "__annotations__"; "__class__"; "__dataclass_fields__"; "__dataclass_params__";
    "__delattr__"; "__dict__"; "__dir__"; "__doc__"; "__eq__"; "__format__"; "__ge__";
    "__getattribute__"; "__getstate__"; "__gt__"; "__hash__"; "__init__";
    "__init_subclass__"; "__le__"; "__lt__"; "__match_args__"; "__module__"; "__ne__";
    "__new__"; "__reduce__"; "__reduce_ex__"; "__repr__"; "__setattr__"; "__sizeof__";
    "__str__"; "__subclasshook__"; "__weakref__" ].

Definition in_class (k : string) : bool :=
  existsb (String.eqb k) (map fst fields ++ class_attributes).

(** [hasattr(c, k)]: [k] is in the dictionary of the instance or an attribute
    of its class. *)
Definition hasattr (c : gmap string pyval) (k : string) : bool :=
  bool_decide (is_Some (c !! k)) || in_class k.

(** [setattr(c, k, v)] with a scalar [v]. [__class__], [__dict__] and
    [__weakref__] are descriptors of the class that take the assignment
    themselves: the first wants a class, the second a dictionary, the third
    cannot be written. Any other name goes into the dictionary of the
    instance. *)
Definition setattr (c : gmap string pyval) (k : string) (v : pyval)
  : result (gmap string pyval) :=
  if String.eqb k "__class__" then
    raise TypeError ("__class__ must be set to a class, not '" +:+ Py.type_name v +:+ "' object")
  else if String.eqb k "__dict__" then
    raise TypeError ("__dict__ must be set to a dictionary, not a '" +:+ Py.type_name v +:+ "'")
  else if String.eqb k "__weakref__" then
    raise AttributeError "attribute '__weakref__' of 'MicroVMConfig' objects is not writable"
  else Ok (<[k := v]> c).

(** The names [setattr] stores a scalar under: all but those three. *)
Definition assignable (k : string) : bool :=
  negb (String.eqb k "__class__" || String.eqb k "__dict__" || String.eqb k "__weakref__").

(** [c.k] for a name [k] that is a field or no attribute of the class at all
    (the package reads no other): the dictionary of the instance first, then
    the class, where a field has its default. *)
Definition getattr (c : gmap string pyval) (k : string) : result pyval :=
  match c !! k with
  | Some v => Ok v
  | None =>
      match MicroVMConfig !! k with
      | Some v => Ok v
      | None => raise AttributeError ("'MicroVMConfig' object has no attribute '" +:+ k +:+ "'")
      end
  end.

End Config.

Arguments Config.MicroVMConfig : simpl never.

(* ===================================================================== *)
(** * The standard [ipaddress] module, as far as [get_gateway_ip] uses it *)
(* ===================================================================== *)

Module IpAddress.

(** An address object: [_ip], and [_scope_id] for IPv6. *)
Inductive address : Type :=
  | IPv4Address (ip : Z)
  | IPv6Address (ip : Z) (scope_id : option string).

(** [int(a)] *)
Definition to_int (a : address) : Z :=
  match a with
  | IPv4Address ip => ip
  | IPv6Address ip _ => ip
  end.

Definition ALL_ONES4 : Z := 2 ^ 32 - 1.
Definition ALL_ONES6 : Z := 2 ^ 128 - 1.
Definition HEXTET_COUNT : nat := 8.

Definition is_digit (c : ascii) : bool :=
  let n := Z.of_nat (nat_of_ascii c) in (48 <=? n) && (n <=? 57).

Definition digit_value (c : ascii) : Z := Z.of_nat (nat_of_ascii c) - 48.

Definition hex_value (c : ascii) : option Z :=
  let n := Z.of_nat (nat_of_ascii c) in
  if (48 <=? n) && (n <=? 57) then Some (n - 48)
  else if (97 <=? n) && (n <=? 102) then Some (n - 87)
  else if (65 <=? n) && (n <=? 70) then Some (n - 55)
  else None.

(** Membership in [_HEX_DIGITS]. *)
Definition is_hex (c : ascii) : bool :=
  match hex_value c with Some _ => true | None => false end.

(** [int(s, 10)] and [int(s, 16)] on a non-empty string of such digits. *)
Fixpoint int10 (acc : Z) (s : string) : Z :=
  match s with
  | EmptyString => acc
  | String c s' => int10 (10 * acc + digit_value c) s'
  end.

Fixpoint int16 (acc : Z) (s : string) : Z :=
  match s with
  | EmptyString => acc
  | String c s' => int16 (16 * acc + default 0 (hex_value c)) s'
  end.

Definition hex_digit (d : Z) : ascii :=
  ascii_of_nat (Z.to_nat (if d <? 10 then 48 + d else 87 + d)).

(** The [k] low-order hexadecimal digits of [n], most significant first. *)
Fixpoint hex_fixed (k : nat) (n : Z) : string :=
  match k with
  | O => ""
  | S k' => hex_fixed k' (n / 16) +:+ String (hex_digit (n mod 16)) ""
  end.

(** Number of hexadecimal digits of [n >= 0]. *)
Definition hex_len (n : Z) : nat :=
  if n <=? 0 then 1%nat else S (Z.to_nat (Z.log2 n / 4)).

(** ['%x' % n] and ['%032x' % n] for [n >= 0]. *)
Definition format_x (n : Z) : string := hex_fixed (hex_len n) n.
Definition format_032x (n : Z) : string := hex_fixed (Nat.max 32 (hex_len n)) n.

(** [range(0, 32, 4)] *)
Definition hextet_offsets : list nat := map (fun i => 4 * i)%nat (seq 0 8).

(** ** IPv4 *)

Definition _parse_octet (octet_str : string) : result Z :=
  if String.eqb octet_str "" then raise ValueError "Empty octet not permitted"
  else if negb (PyStr.all_chars is_digit octet_str) then
    raise ValueError ("Only decimal digits permitted in " +:+ Py.repr octet_str)
  else if (3 <? String.length octet_str)%nat then
    raise ValueError ("At most 3 characters permitted in " +:+ Py.repr octet_str)
  else if negb (String.eqb octet_str "0") && String.prefix "0" octet_str then
    raise ValueError ("Leading zeros are not permitted in " +:+ Py.repr octet_str)
  else
    let octet_int := int10 0 octet_str in
    if 255 <? octet_int then
      raise ValueError ("Octet " +:+ pretty octet_int +:+ " (> 255) not permitted")
    else Ok octet_int.

(** [int.from_bytes(map(f, l), 'big')], stopping at the first [ValueError]. *)
Fixpoint from_bytes_map (f : string -> result Z) (acc : Z) (l : list string) : result Z :=
  match l with
  | [] => Ok acc
  | x :: l' => let? b := f x in from_bytes_map f (256 * acc + b) l'
  end.

Definition v4_ip_int_from_string (ip_str : string) : result Z :=
  if String.eqb ip_str "" then raise AddressValueError "Address cannot be empty"
  else
    let octets := PyStr.split "." ip_str in
    if negb (length octets =? 4)%nat then
      raise AddressValueError ("Expected 4 octets in " +:+ Py.repr ip_str)
    else
      rcatch (from_bytes_map _parse_octet 0 octets) ValueError
        (fun exc => raise AddressValueError (exn_msg exc +:+ " in " +:+ Py.repr ip_str)).

(** [ip_int.to_bytes(4, 'big')] *)
Definition to_bytes4 (n : Z) : list Z :=
  [ (n / 2 ^ 24) mod 256; (n / 2 ^ 16) mod 256; (n / 2 ^ 8) mod 256; n mod 256 ].

Definition v4_string_from_ip_int (ip_int : Z) : string :=
  PyStr.join "." (map (fun b => pretty b) (to_bytes4 ip_int)).

(** [IPv4Address(address)] from an integer and from a string. *)
Definition IPv4Address_of_int (n : Z) : result address :=
  if n <? 0 then
    raise AddressValueError (pretty n +:+ " (< 0) is not permitted as an IPv4 address")
  else if ALL_ONES4 <? n then
    raise AddressValueError (pretty n +:+ " (>= 2**32) is not permitted as an IPv4 address")
  else Ok (IPv4Address n).

Definition IPv4Address_of_str (addr_str : string) : result address :=
  if PyStr.mem_char "/" addr_str then
    raise AddressValueError ("Unexpected '/' in " +:+ Py.repr addr_str)
  else
    let? ip := v4_ip_int_from_string addr_str in
    Ok (IPv4Address ip).

(** ** IPv6 *)

Definition _parse_hextet (hextet_str : string) : result Z :=
  if negb (PyStr.all_chars is_hex hextet_str) then
    raise ValueError ("Only hex digits permitted in " +:+ Py.repr hextet_str)
  else if (4 <? String.length hextet_str)%nat then
    raise ValueError ("At most 4 characters permitted in " +:+ Py.repr hextet_str)
  else if String.eqb hextet_str "" then
    raise ValueError "invalid literal for int() with base 16: ''"
  else Ok (int16 0 hextet_str).

(** The loop over [range(1, len(parts) - 1)] that looks for the one empty
    part a ["::"] leaves. *)
Fixpoint find_skip_index (idxs : list nat) (parts : list string) (ip_str : string)
    (skip_index : option nat) : result (option nat) :=
  match idxs with
  | [] => Ok skip_index
  | i :: idxs' =>
      if String.eqb (nth i parts "") "" then
        match skip_index with
        | Some _ => raise AddressValueError ("At most one '::' permitted in " +:+ Py.repr ip_str)
        | None => find_skip_index idxs' parts ip_str (Some i)
        end
      else find_skip_index idxs' parts ip_str skip_index
  end.

(** [for p in l: ip_int <<= 16; ip_int |= _parse_hextet(p)] *)
Fixpoint parse_hextets (ip_int : Z) (l : list string) : result Z :=
  match l with
  | [] => Ok ip_int
  | p :: l' =>
      let? h := _parse_hextet p in
      parse_hextets (Z.lor (Z.shiftl ip_int 16) h) l'
  end.

(** [_ip_int_from_string] once the text is split at the colons. *)
Definition v6_parts_to_int (parts : list string) (ip_str : string) : result Z :=
  if (length parts <? 3)%nat then
    raise AddressValueError ("At least 3 parts expected in " +:+ Py.repr ip_str)
  else
    let? parts :=
      if PyStr.mem_char "." (List.last parts "") then
        let? ipv4_int :=
          rcatch (let? a := IPv4Address_of_str (List.last parts "") in Ok (to_int a))
            AddressValueError
            (fun exc => raise AddressValueError (exn_msg exc +:+ " in " +:+ Py.repr ip_str)) in
        Ok (removelast parts
              ++ [format_x (Z.land (Z.shiftr ipv4_int 16) 65535);
                  format_x (Z.land ipv4_int 65535)])
      else Ok parts in
    if (HEXTET_COUNT + 1 <? length parts)%nat then
      raise AddressValueError ("At most 8 colons permitted in " +:+ Py.repr ip_str)
    else
      let? skip_index := find_skip_index (seq 1 (length parts - 2)) parts ip_str None in
      let first_empty := String.eqb (nth 0 parts "") "" in
      let last_empty := String.eqb (List.last parts "") "" in
      let? '(parts_hi, parts_lo, parts_skipped) :=
        match skip_index with
        | Some skip_index =>
            let parts_hi := skip_index in
            let parts_lo := (length parts - skip_index - 1)%nat in
            let? parts_hi :=
              if first_empty then
                if (0 <? parts_hi - 1)%nat then
                  raise AddressValueError
                    ("Leading ':' only permitted as part of '::' in " +:+ Py.repr ip_str)
                else Ok (parts_hi - 1)%nat
              else Ok parts_hi in
            let? parts_lo :=
              if last_empty then
                if (0 <? parts_lo - 1)%nat then
                  raise AddressValueError
                    ("Trailing ':' only permitted as part of '::' in " +:+ Py.repr ip_str)
                else Ok (parts_lo - 1)%nat
              else Ok parts_lo in
            if (HEXTET_COUNT <? parts_hi + parts_lo + 1)%nat then
              raise AddressValueError
                ("Expected at most 7 other parts with '::' in " +:+ Py.repr ip_str)
            else Ok (parts_hi, parts_lo, (HEXTET_COUNT - (parts_hi + parts_lo))%nat)
        | None =>
            if negb (length parts =? HEXTET_COUNT)%nat then
              raise AddressValueError
                ("Exactly 8 parts expected without '::' in " +:+ Py.repr ip_str)
            else if first_empty then
              raise AddressValueError
                ("Leading ':' only permitted as part of '::' in " +:+ Py.repr ip_str)
            else if last_empty then
              raise AddressValueError
                ("Trailing ':' only permitted as part of '::' in " +:+ Py.repr ip_str)
            else Ok (length parts, 0%nat, 0%nat)
        end in
      rcatch
        (let? ip_int := parse_hextets 0 (firstn parts_hi parts) in
         let ip_int := Z.shiftl ip_int (16 * Z.of_nat parts_skipped) in
         parse_hextets ip_int (skipn (length parts - parts_lo) parts))
        ValueError
        (fun exc => raise AddressValueError (exn_msg exc +:+ " in " +:+ Py.repr ip_str)).

Definition v6_ip_int_from_string (ip_str : string) : result Z :=
  if String.eqb ip_str "" then raise AddressValueError "Address cannot be empty"
  else v6_parts_to_int (PyStr.split ":" ip_str) ip_str.

Definition _split_scope_id (ip_str : string) : result (string * option string) :=
  match PyStr.partition "%" ip_str with
  | (addr, None) => Ok (addr, None)
  | (addr, Some scope_id) =>
      if String.eqb scope_id "" || PyStr.mem_char "%" scope_id then
        raise AddressValueError ("Invalid IPv6 address: " +:+ Py.repr ip_str)
      else Ok (addr, Some scope_id)
  end.

Definition IPv6Address_of_int (n : Z) : result address :=
  if n <? 0 then
    raise AddressValueError (pretty n +:+ " (< 0) is not permitted as an IPv6 address")
  else if ALL_ONES6 <? n then
    raise AddressValueError (pretty n +:+ " (>= 2**128) is not permitted as an IPv6 address")
  else Ok (IPv6Address n None).

Definition IPv6Address_of_str (addr_str : string) : result address :=
  if PyStr.mem_char "/" addr_str then
    raise AddressValueError ("Unexpected '/' in " +:+ Py.repr addr_str)
  else
    let? '(addr_str, scope_id) := _split_scope_id addr_str in
    let? ip := v6_ip_int_from_string addr_str in
    Ok (IPv6Address ip scope_id).

(** State of the scan in [_compress_hextets]. *)
Record zero_run : Type := ZeroRun {
  best_doublecolon_start : Z;
  best_doublecolon_len : Z;
  doublecolon_start : Z;
  doublecolon_len : Z
}.

Definition compress_step (st : zero_run) (ih : Z * string) : zero_run :=
  let '(index, hextet) := ih in
  if String.eqb hextet "0" then
    let len := doublecolon_len st + 1 in
    let start := if doublecolon_start st =? -1 then index else doublecolon_start st in
    if best_doublecolon_len st <? len then ZeroRun start len start len
    else ZeroRun (best_doublecolon_start st) (best_doublecolon_len st) start len
  else ZeroRun (best_doublecolon_start st) (best_doublecolon_len st) (-1) 0.

(** [enumerate(l)] *)
Fixpoint enumerate_from (i : Z) (l : list string) : list (Z * string) :=
  match l with
  | [] => []
  | x :: l' => (i, x) :: enumerate_from (i + 1) l'
  end.

Definition _compress_hextets (hextets : list string) : list string :=
  let st := fold_left compress_step (enumerate_from 0 hextets) (ZeroRun (-1) 0 (-1) 0) in
  if 1 <? best_doublecolon_len st then
    let best_doublecolon_end := best_doublecolon_start st + best_doublecolon_len st in
    let hextets :=
      if best_doublecolon_end =? Z.of_nat (length hextets) then hextets ++ [""] else hextets in
    let hextets :=
      firstn (Z.to_nat (best_doublecolon_start st)) hextets
        ++ [""] ++ skipn (Z.to_nat best_doublecolon_end) hextets in
    if best_doublecolon_start st =? 0 then "" :: hextets else hextets
  else hextets.

Definition v6_string_from_ip_int (ip_int : Z) : result string :=
  if ALL_ONES6 <? ip_int then raise ValueError "IPv6 address is too large"
  else
    let hex_str := format_032x ip_int in
    let hextets :=
      map (fun x => format_x (int16 0 (String.substring x 4 hex_str))) hextet_offsets in
    Ok (PyStr.join ":" (_compress_hextets hextets)).

(** [str(a)] *)
Definition to_str (a : address) : result string :=
  match a with
  | IPv4Address ip => Ok (v4_string_from_ip_int ip)
  | IPv6Address ip scope_id =>
      let? ip_str := v6_string_from_ip_int ip in
      match scope_id with
      | Some sc => if String.eqb sc "" then Ok ip_str else Ok (ip_str +:+ "%" +:+ sc)
      | None => Ok ip_str
      end
  end.

(** [a.exploded]: for IPv6 the text [str(a)] is parsed again, zone included. *)
Definition exploded (a : address) : result string :=
  match a with
  | IPv4Address _ => to_str a
  | IPv6Address _ _ =>
      let? ip_str := to_str a in
      let? ip_int := v6_ip_int_from_string ip_str in
      let hex_str := format_032x ip_int in
      let parts := map (fun x => String.substring x 4 hex_str) hextet_offsets in
      Ok (PyStr.join ":" parts)
  end.

(** [IPv4Address(v)] and [IPv6Address(v)]: integers (and booleans, which are
    integers) take the integer constructor, anything else goes through [str]. *)
Definition IPv4Address_new (v : pyval) : result address :=
  match v with
  | PInt n => IPv4Address_of_int n
  | PBool b => IPv4Address_of_int (Py.int_of_bool b)
  | _ => IPv4Address_of_str (Py.str v)
  end.

Definition IPv6Address_new (v : pyval) : result address :=
  match v with
  | PInt n => IPv6Address_of_int n
  | PBool b => IPv6Address_of_int (Py.int_of_bool b)
  | _ => IPv6Address_of_str (Py.str v)
  end.

(** [ipaddress.ip_address(v)] *)
Definition ip_address (v : pyval) : result address :=
  rcatch (IPv4Address_new v) AddressValueError (fun _ =>
  rcatch (IPv6Address_new v) AddressValueError (fun _ =>
  raise ValueError
    ((match v with PStr s => Py.repr s | _ => Py.str v end)
       +:+ " does not appear to be an IPv4 or IPv6 address"))).

End IpAddress.

(* ===================================================================== *)
(** * The host: everything outside the package *)
(* ===================================================================== *)

(** Observations are functions of the world; requests that may change it,
    or fail, are computations. The methods of [firecracker.process],
    [firecracker.vmm] and [firecracker.api] are part of the interface: those
    modules are not among the sources at hand. *)
Class Host (W : Type) : Type := {
  (* pyroute2.IPRoute *)
  link_lookup : pyval -> W -> list Z;
  get_links : Z -> W -> list json;
  link_add_tuntap : pyval -> M W unit;
  link_set_up : Z -> M W unit;
  link_set_master : Z -> Z -> M W unit;
  link_del : Z -> M W unit;
  addr_add : Z -> pyval -> Z -> M W unit;
  (* nftables.Nftables: both calls answer (rc, output, error) *)
  Nftables_new : M W unit;
  nft_json_cmd : json -> M W (Z * json * string);
  nft_cmd : string -> M W (Z * string * string);
  (* subprocess.run through utils.run: (returncode, stdout) *)
  run : string -> M W (Z * string);
  (* requests.get(url).raise_for_status(), then .text *)
  requests_get : string -> M W string;
  (* os.path.exists, psutil.pid_exists, time.sleep, random.choice *)
  path_exists : pyval -> W -> bool;
  pid_exists : Z -> W -> bool;
  sleep : Q -> W -> W;
  random_choice : string -> M W ascii;
  (* socket.inet_aton: does the C library accept the text? *)
  inet_aton : string -> W -> bool;
  (* firecracker.process.ProcessManager *)
  ProcessManager_new : M W unit;
  start_screen_process : string -> string -> pyval -> list string -> M W pyval;
  (* firecracker.vmm.VMMManager *)
  VMMManager_new : M W unit;
  vmm_get_api : string -> M W unit;
  vmm_list_vmms : M W (list json);
  vmm_get_vmm_config : string -> M W pyval;
  vmm_get_vmm_state : string -> M W pyval;
  vmm_get_vmm_ip_addr : string -> M W pyval;
  vmm_update_vmm_state : string -> string -> M W pyval;
  vmm_delete_vmms : option string -> M W unit;
  vmm_ensure_socket_file : string -> M W unit;
  vmm_create_vmm_dir : string -> M W unit;
  vmm_create_log_file : string -> string -> M W unit;
  vmm_cleanup_resources : string -> M W unit;
  (* firecracker.api.Api *)
  Api_new : string -> M W unit;
  api_put : string -> list (string * json) -> M W json;
  api_close : M W unit
}.

(* ===================================================================== *)
(** * firecracker/network.py *)
(* ===================================================================== *)

Module Network.

(** A [NetworkManager]: its private [MicroVMConfig], of which only [verbose]
    is ever set. *)
Record NetworkManager : Type := { nm_config : gmap string pyval }.

(** The commands that list a table of the [ip] family. *)
Definition list_table_cmd (name : string) : json :=
  JDict [("nftables",
          JList [JDict [("list",
                         JDict [("table", JDict [("family", JS "ip"); ("name", JS name)])])]])].

(** [get_gateway_ip]: pure, the address arithmetic of the module. *)
Definition set_last (l : list string) (x : string) : result (list string) :=
  match l with
  | [] => raise IndexError "list assignment index out of range"
  | _ :: _ => Ok (removelast l ++ [x])
  end.

Definition get_gateway_ip (ip : pyval) : result string :=
  let body :=
    let? ip_obj := IpAddress.ip_address ip in
    let? gateway_ip :=
      match ip_obj with
      | IpAddress.IPv4Address _ =>
          IpAddress.IPv4Address_of_int
            (Z.lor (Z.land (IpAddress.to_int ip_obj) 4294967040) 1)
      | IpAddress.IPv6Address _ _ =>
          let? ex := IpAddress.exploded ip_obj in
          let segments := PyStr.split ":" ex in
          let? segments := set_last segments "1" in
          IpAddress.IPv6Address_of_str (PyStr.join ":" segments)
      end in
    IpAddress.to_str gateway_ip in
  match body with
  | Ok r => Ok r
  | Raise e =>
      if isinstance e AddressValueError then
        raise NetworkError ("Invalid IP address format: " +:+ Py.str ip)
      else raise NetworkError ("Failed to derive gateway IP: " +:+ exn_msg e)
  end.

(** [find_tap_interface_rules] *)
Definition find_tap_interface_rules (rules : json) (tap_name : pyval) : result (list json) :=
  let? items := Json.iter rules in
  rfold (fun tap_rules item =>
    let? has_rule := Json.has "rule" item in
    if negb has_rule then Ok tap_rules else
    let? rule := Json.getitem item "rule" in
    let? has_expr := Json.has "expr" rule in
    if negb has_expr then Ok tap_rules else
    let? exprs := rbind (Json.getitem rule "expr") Json.iter in
    rfold (fun tap_rules expr =>
      let? hit :=
        and_then (Json.has "match" expr)
       (and_then (rbind (Json.getitem expr "match") (Json.has "right"))
       (and_then (rbind (Json.getpath expr ["match"; "right"]) (fun r => Ok (Json.is_str r)))
                 (let? r := Json.getpath expr ["match"; "right"] in
                  match tap_name with
                  | PStr t => Json.has t r
                  | _ => raise TypeError
                           ("'in <string>' requires string as left operand, not "
                              +:+ Py.type_name tap_name)
                  end))) in
      if hit then
        let? handle := Json.getitem rule "handle" in
        let? chain := Json.getitem rule "chain" in
        let? iface := Json.getpath expr ["match"; "right"] in
        Ok (tap_rules ++ [JDict [("handle", handle); ("chain", chain); ("interface", iface)]])
      else Ok tap_rules) exprs tap_rules) items [].

Section WithHost.
Context {W : Type} {host : Host W}.

(** [NetworkManager(verbose=...)] *)
Definition NetworkManager_new (verbose : pyval) : M W NetworkManager :=
  let! config := lift (Config.setattr Config.MicroVMConfig "verbose" verbose) in
  do! Nftables_new in
  ret {| nm_config := config |}.

Definition get_interface_name : M W string :=
  let! '(returncode, stdout) := run "ip route | grep default | awk '{print $5}'" in
  if returncode =? 0 then ret (PyStr.strip stdout)
  else throw RuntimeError "Unable to determine the interface name".

Definition check_bridge_device (bridge_name : pyval) : M W bool :=
  try_except
    (let! links := read (link_lookup bridge_name) in
     match links with
     | [] => ret false
     | l0 :: _ =>
         let! infos := read (get_links l0) in
         match infos with
         | [] => throw IndexError "list index out of range"
         | link_info :: _ =>
             lift (
               let? attrs := rbind (Json.get link_info "attrs" (JList [])) Json.iter in
               let? found :=
                 rfind (fun attr =>
                   let? '(attr_name, attr_value) := Json.unpack2 attr in
                   if Json.eq_val attr_name (PStr "IFLA_LINKINFO") then
                     let? infos := rbind (Json.get attr_value "attrs" (JList [])) Json.iter in
                     rfind (fun info =>
                       let? '(info_attr_name, info_attr_value) := Json.unpack2 info in
                       if Json.eq_val info_attr_name (PStr "IFLA_INFO_KIND")
                          && Json.eq_val info_attr_value (PStr "bridge")
                       then Ok (Some tt) else Ok None) infos
                   else Ok None) attrs in
               Ok (bool_decide (is_Some found)))
         end
     end)
    (fun e => throw NetworkError
       ("Failed to check bridge device " +:+ Py.str bridge_name +:+ ": " +:+ exn_msg e)).

Definition check_tap_device (tap_device_name : pyval) : M W bool :=
  try_except
    (let! links := read (link_lookup tap_device_name) in
     match links with
     | [] => ret false
     | _ :: _ => ret true
     end)
    (fun e => throw NetworkError
       ("Failed to check tap device " +:+ Py.str tap_device_name +:+ ": " +:+ exn_msg e)).

Definition nat_rules_cmd (tap_name iface_name : pyval) : json :=
  JDict [("nftables", JList [
    JDict [("add", JDict [("table", JDict [("family", JS "ip"); ("name", JS "nat")])])];
    JDict [("add", JDict [("chain", JDict [
      ("family", JS "ip"); ("table", JS "nat"); ("name", JS "POSTROUTING");
      ("type", JS "nat"); ("hook", JS "postrouting"); ("priority", JI 100);
      ("policy", JS "accept")])])];
    JDict [("add", JDict [("table", JDict [("family", JS "ip"); ("name", JS "filter")])])];
    JDict [("add", JDict [("chain", JDict [
      ("family", JS "ip"); ("table", JS "filter"); ("name", JS "FORWARD");
      ("type", JS "filter"); ("hook", JS "forward"); ("priority", JI 0);
      ("policy", JS "accept")])])];
    JDict [("add", JDict [("rule", JDict [
      ("family", JS "ip"); ("table", JS "filter"); ("chain", JS "FORWARD");
      ("expr", JList [
        JDict [("match", JDict [("left", JDict [("meta", JDict [("key", JS "iifname")])]);
                                ("op", JS "=="); ("right", JVal tap_name)])];
        JDict [("match", JDict [("left", JDict [("meta", JDict [("key", JS "oifname")])]);
                                ("op", JS "=="); ("right", JVal iface_name)])];
        JDict [("counter", JDict [("packets", JI 0); ("bytes", JI 0)])];
        JDict [("accept", JNone)]])])])]])].

Definition add_nat_rules (tap_name iface_name : pyval) : M W unit :=
  let rules := [nat_rules_cmd tap_name iface_name] in
  for_each rules (fun rule =>
    let! '(rc, output, error) := nft_json_cmd rule in
    if negb (rc =? 0) && negb (PyStr.contains "File exists" error) then
      throw NetworkError ("Failed to add NAT forwarding rule: " +:+ error)
    else ret tt).

Definition get_nat_rules : M W json :=
  let! '(rc, output, error) := nft_json_cmd (list_table_cmd "filter") in
  lift (rcatch_all (Json.getitem output "nftables")
          (fun e => raise NetworkError ("Failed to get NAT forwarding rules: " +:+ exn_msg e))).

(** The body of the loop of [get_masquerade_handle] on one listed item:
    [Some h] when the function returns [h] at this item. *)
Definition masquerade_handle_of (iface_name : pyval) (item : json) : result (option json) :=
  let? has_rule := Json.has "rule" item in
  if negb has_rule then Ok None else
  let? rule := Json.getitem item "rule" in
  let? chain := Json.get rule "chain" JNone in
  if negb (Json.eq_val chain (PStr "POSTROUTING")) then Ok None else
  let? exprs := rbind (Json.get rule "expr" (JList [])) Json.iter in
  let? '(has_interface_match, has_masquerade) :=
    rfold (fun '(im, mq) expr =>
      let? c1 :=
        and_then (Json.has "match" expr)
       (and_then (let? m := Json.getitem expr "match" in
                  let? op := Json.get m "op" JNone in Ok (Json.eq_val op (PStr "==")))
       (and_then (let? m := Json.getitem expr "match" in
                  let? l := Json.get m "left" (JDict []) in
                  let? me := Json.get l "meta" (JDict []) in
                  let? k := Json.get me "key" JNone in Ok (Json.eq_val k (PStr "oifname")))
                 (let? m := Json.getitem expr "match" in
                  let? r := Json.get m "right" JNone in Ok (Json.eq_val r iface_name)))) in
      let? c2 := Json.has "masquerade" expr in
      Ok (im || c1, mq || c2)) exprs (false, false) in
  if has_interface_match && has_masquerade then
    let? h := Json.get rule "handle" JNone in Ok (Some h)
  else Ok None.

Definition get_masquerade_handle (iface_name : pyval) : M W json :=
  let! '(rc, output, error) := nft_json_cmd (list_table_cmd "nat") in
  if rc =? 0 then
    lift (let? result := rbind (Json.getitem output "nftables") Json.iter in
          let? found := rfind (masquerade_handle_of iface_name) result in
          Ok (default JNone found))
  else ret JNone.

Definition masquerade_cmd (iface_name : pyval) : json :=
  JDict [("nftables", JList [
    JDict [("add", JDict [("rule", JDict [
      ("family", JS "ip"); ("table", JS "nat"); ("chain", JS "POSTROUTING");
      ("expr", JList [
        JDict [("match", JDict [("op", JS "==");
                                ("left", JDict [("meta", JDict [("key", JS "oifname")])]);
                                ("right", JVal iface_name)])];
        JDict [("counter", JDict [("packets", JI 0); ("bytes", JI 0)])];
        JDict [("masquerade", JNone)]])])])]])].

Definition ensure_masquerade (iface_name : pyval) : M W json :=
  let! handle := get_masquerade_handle iface_name in
  if negb (Json.eq_val handle PNone) then ret handle
  else
    let! '(rc, output, error) := nft_json_cmd (masquerade_cmd iface_name) in
    if rc =? 0 then get_masquerade_handle iface_name
    else ret JNone.

(** One expression of a listed rule: does it match [field == value] on the
    packet payload? *)
Definition payload_match (e : json) (field : string) (value : pyval) : result bool :=
  and_then (Json.has "match" e)
 (and_then (let? op := Json.getpath e ["match"; "op"] in Ok (Json.eq_val op (PStr "==")))
 (and_then (rbind (Json.getpath e ["match"; "left"]) (Json.has "payload"))
 (and_then (let? f := Json.getpath e ["match"; "left"; "payload"; "field"] in
            Ok (Json.eq_val f (PStr field)))
           (let? r := Json.getpath e ["match"; "right"] in Ok (Json.eq_val r value))))).

(** The loop body of [get_port_forward_handles] on one listed item. *)
Definition port_forward_step (host_ip host_port dest_ip dest_port : pyval)
    (rules : gmap string json) (item : json) : result (gmap string json) :=
  let? has_rule := Json.has "rule" item in
  if negb has_rule then Ok rules else
  let? rule := Json.getitem item "rule" in
  let? family := Json.get rule "family" JNone in
  let? table := Json.get rule "table" JNone in
  let? chain := Json.get rule "chain" JNone in
  if Json.eq_val family (PStr "ip") && Json.eq_val table (PStr "nat")
     && Json.eq_val chain (PStr "prerouting") then
    let? expr := rbind (Json.get rule "expr" (JList [])) Json.iter in
    let? '(has_daddr_match, has_dport_match, has_correct_dnat) :=
      rfold (fun '(da, dp, dn) e =>
        let? c1 := payload_match e "daddr" host_ip in
        let? c2 := payload_match e "dport" host_port in
        let? c3 :=
          and_then (Json.has "dnat" e)
         (and_then (let? a := Json.getpath e ["dnat"; "addr"] in Ok (Json.eq_val a dest_ip))
                   (let? p := Json.getpath e ["dnat"; "port"] in Ok (Json.eq_val p dest_port))) in
        Ok (da || c1, dp || c2, dn || c3)) expr (false, false, false) in
    if has_daddr_match && has_dport_match && has_correct_dnat then
      let? h := Json.getitem rule "handle" in
      Ok (<["prerouting" := h]> rules)
    else Ok rules
  else if Json.eq_val family (PStr "ip") && Json.eq_val table (PStr "nat")
          && (Json.eq_val chain (PStr "postrouting") || Json.eq_val chain (PStr "POSTROUTING")) then
    let? expr := rbind (Json.get rule "expr" (JList [])) Json.iter in
    let? '(has_saddr_match, has_masquerade) :=
      rfold (fun '(sa, mq) e =>
        let? is_saddr :=
          and_then (Json.has "match" e)
         (and_then (let? op := Json.getpath e ["match"; "op"] in Ok (Json.eq_val op (PStr "==")))
         (and_then (rbind (Json.getpath e ["match"; "left"]) (Json.has "payload"))
                   (let? f := Json.getpath e ["match"; "left"; "payload"; "field"] in
                    Ok (Json.eq_val f (PStr "saddr"))))) in
        let? c1 :=
          if is_saddr then
            let? right := Json.getpath e ["match"; "right"] in
            or_else (Ok (Json.eq_val right dest_ip))
              (and_then (Ok (Json.is_dict right))
              (and_then (Json.has "prefix" right)
                        (let? a := Json.getpath right ["prefix"; "addr"] in
                         Ok (Json.eq_val a dest_ip))))
          else Ok false in
        let? c2 := Json.has "masquerade" e in
        Ok (sa || c1, mq || c2)) expr (false, false) in
    if has_saddr_match && has_masquerade then
      let? h := Json.getitem rule "handle" in
      Ok (<["postrouting" := h]> rules)
    else Ok rules
  else Ok rules.

Definition get_port_forward_handles (host_ip host_port dest_ip dest_port : pyval)
  : M W (gmap string json) :=
  try_except
    (let! '(rc, output, error) := nft_json_cmd (list_table_cmd "nat") in
     lift (let? result := rbind (Json.getitem output "nftables") Json.iter in
           rfold (port_forward_step host_ip host_port dest_ip dest_port) result ∅))
    (fun e => throw NetworkError ("Failed to get nftables rules: " +:+ exn_msg e)).

(** The ruleset [add_port_forward] submits. *)
Definition nat_chain (name : string) (handle : Z) (hook : string) (prio : Z) : json :=
  JDict [("chain", JDict [
    ("family", JS "ip"); ("table", JS "nat"); ("name", JS name); ("handle", JI handle);
    ("type", JS "nat"); ("hook", JS hook); ("prio", JI prio); ("policy", JS "accept")])].

Definition port_forward_postrouting_rule (dest_ip : pyval) : json :=
  JDict [("rule", JDict [
    ("family", JS "ip"); ("table", JS "nat"); ("chain", JS "postrouting"); ("handle", JI 14);
    ("expr", JList [
      JDict [("match", JDict [("op", JS "==");
                              ("left", JDict [("meta", JDict [("key", JS "oif")])]);
                              ("right", JS "eth0")])];
      JDict [("match", JDict [("op", JS "==");
                              ("left", JDict [("payload", JDict [("protocol", JS "ip");
                                                                 ("field", JS "saddr")])]);
                              ("right", JDict [("prefix", JDict [("addr", JVal dest_ip);
                                                                 ("len", JI 32)])])])];
      JDict [("masquerade", JNone)]])])].

Definition port_forward_prerouting_rule (host_ip host_port dest_ip dest_port protocol : pyval)
  : json :=
  JDict [("rule", JDict [
    ("family", JS "ip"); ("table", JS "nat"); ("chain", JS "prerouting"); ("handle", JI 13);
    ("expr", JList [
      JDict [("match", JDict [("op", JS "==");
                              ("left", JDict [("payload", JDict [("protocol", JS "ip");
                                                                 ("field", JS "daddr")])]);
                              ("right", JVal host_ip)])];
      JDict [("match", JDict [("op", JS "==");
                              ("left", JDict [("payload", JDict [("protocol", JVal protocol);
                                                                 ("field", JS "dport")])]);
                              ("right", JVal host_port)])];
      JDict [("dnat", JDict [("addr", JVal dest_ip); ("port", JVal dest_port)])]])])].

Definition port_forward_cmd (host_ip host_port dest_ip dest_port protocol : pyval) : json :=
  JDict [("nftables", JList [
    JDict [("table", JDict [("family", JS "ip"); ("name", JS "nat"); ("handle", JI 91)])];
    nat_chain "PREROUTING" 2 "prerouting" (-100);
    nat_chain "OUTPUT" 4 "output" (-100);
    nat_chain "POSTROUTING" 6 "postrouting" 100;
    nat_chain "postrouting" 11 "postrouting" 100;
    nat_chain "prerouting" 12 "prerouting" (-100);
    port_forward_postrouting_rule dest_ip;
    port_forward_prerouting_rule host_ip host_port dest_ip dest_port protocol])].

(** [add_port_forward(host_ip, host_port, dest_ip, dest_port, protocol="tcp")] *)
Definition add_port_forward (host_ip host_port dest_ip dest_port protocol : pyval) : M W unit :=
  let rules := port_forward_cmd host_ip host_port dest_ip dest_port protocol in
  do! nft_json_cmd rules in
  ret tt.

Definition delete_rule (rule : json) : M W bool :=
  let! chain := lift (Json.getitem rule "chain") in
  let! handle := lift (Json.getitem rule "handle") in
  let cmd := "delete rule filter " +:+ Json.to_str chain +:+ " handle " +:+ Json.to_str handle in
  let! '(rc, output, error) := nft_cmd cmd in
  ret (rc =? 0).

Definition delete_nat_rules (tap_name : pyval) : M W unit :=
  let! rules := get_nat_rules in
  let! tap_rules := lift (find_tap_interface_rules rules tap_name) in
  for_each tap_rules (fun rule => do! delete_rule rule in ret tt).

Definition delete_port_forward (host_ip host_port dest_ip dest_port : pyval) : M W unit :=
  let! rules := get_port_forward_handles host_ip host_port dest_ip dest_port in
  if bool_decide (rules = ∅) then ret tt
  else
    try_except
      (do! match rules !! "prerouting" with
           | Some handle =>
               let cmd := "delete rule nat prerouting handle " +:+ Json.to_str handle in
               do! nft_cmd cmd in ret tt
           | None => ret tt
           end in
       match rules !! "postrouting" with
       | Some handle =>
           let chain :=
             if Json.eq_val (default JNone (rules !! "postrouting_chain")) (PStr "POSTROUTING")
             then "POSTROUTING" else "postrouting" in
           let cmd := "delete rule nat " +:+ chain +:+ " handle " +:+ Json.to_str handle in
           do! nft_cmd cmd in ret tt
       | None => ret tt
       end)
      (fun e => throw NetworkError ("Failed to delete port forward rules: " +:+ exn_msg e)).

Definition attach_tap_to_bridge (iface_name bridge_name : pyval) : M W bool :=
  try_except
    (do! check_bridge_device bridge_name in
     let! bridge_links := read (link_lookup bridge_name) in
     match bridge_links with
     | [] => throw IndexError "list index out of range"
     | bridge_idx :: _ =>
         let! links := read (link_lookup iface_name) in
         match links with
         | [] => throw IndexError "list index out of range"
         | idx :: _ => do! link_set_master idx bridge_idx in ret true
         end
     end)
    (fun e => throw NetworkError
       ("Failed to attach tap device " +:+ Py.str iface_name +:+ " to bridge "
          +:+ Py.str bridge_name +:+ ": " +:+ exn_msg e)).

Definition delete_tap (name : pyval) : M W unit :=
  let! present := check_tap_device name in
  if present then
    let! links := read (link_lookup name) in
    match links with
    | [] => throw IndexError "list index out of range"
    | idx :: _ => link_del idx
    end
  else ret tt.

Definition cleanup (nm : NetworkManager) (tap_device : pyval) : M W unit :=
  let! bridge := lift (Config.getattr (nm_config nm) "bridge") in
  do! (if negb (Py.truthy bridge) then delete_nat_rules tap_device else ret tt) in
  delete_tap tap_device.

Definition create_tap (nm : NetworkManager) (name iface_name gateway_ip bridge : pyval)
  : M W unit :=
  let! cond :=
    lift (or_else (Ok (negb (Py.truthy name)))
            (if Py.truthy iface_name then
               let? n := Py.len iface_name in Ok (16 <? n)
             else Ok false)) in
  if cond then
    if negb (Py.truthy name) then throw ConfigurationError "Tap device name is required"
    else throw ValueError "iface_name must not exceed 16 characters"
  else
    try_except
      (let! present := check_tap_device name in
       if negb present then
         do! link_add_tuntap name in
         do! (if Py.truthy bridge then
                let! bridge_name := lift (Config.getattr (nm_config nm) "bridge_name") in
                do! attach_tap_to_bridge iface_name bridge_name in ret tt
              else ret tt) in
         let! links := read (link_lookup name) in
         match links with
         | [] => throw IndexError "list index out of range"
         | idx :: _ =>
             do! link_set_up idx in
             do! (if negb (Py.truthy bridge) then
                    do! add_nat_rules name iface_name in
                    do! ensure_masquerade iface_name in ret tt
                  else ret tt) in
             if Py.truthy gateway_ip then
               try_except (addr_add idx gateway_ip 24)
                 (fun e => throw NetworkError ("Failed to set gateway IP: " +:+ exn_msg e))
             else ret tt
         end
       else ret tt)
      (fun e =>
         do! cleanup nm name in
         throw NetworkError
           ("Failed to create tap device " +:+ Py.str name +:+ ": " +:+ exn_msg e)).

End WithHost.
End Network.

(* ===================================================================== *)
(** * firecracker/utils.py *)
(* ===================================================================== *)

Module Utils.

Definition is_alnum (c : ascii) : bool :=
  let n := Z.of_nat (nat_of_ascii c) in
  ((48 <=? n) && (n <=? 57)) || ((65 <=? n) && (n <=? 90)) || ((97 <=? n) && (n <=? 122)).

Definition is_alnum_or_dash (c : ascii) : bool := is_alnum c || Ascii.eqb c "-".

(** Does [s] match [[a-zA-Z0-9]([a-zA-Z0-9\-]{0,61}[a-zA-Z0-9])?] entirely? *)
Definition is_label (s : string) : bool :=
  match s with
  | EmptyString => false
  | String c rest =>
      is_alnum c
      && (String.eqb rest ""
          || ((String.length rest <=? 62)%nat
              && PyStr.all_chars is_alnum_or_dash rest
              && match String.get (String.length rest - 1) rest with
                 | Some d => is_alnum d
                 | None => false
                 end))
  end.

Definition newline : ascii := ascii_of_nat 10.

(** [re.match(r'^...$', s)]: [$] also matches just before a final newline. *)
Definition hostname_matches (s : string) : bool :=
  is_label s
  || (PyStr.endswith_char newline s && is_label (String.substring 0 (String.length s - 1) s)).

Definition validate_hostname (hostname : pyval) : result unit :=
  match hostname with
  | PStr s =>
      if hostname_matches s then Ok tt
      else raise ValueError ("Invalid hostname: " +:+ s)
  | _ => raise TypeError ("expected string or bytes-like object, got '"
                            +:+ Py.type_name hostname +:+ "'")
  end.

Section WithHost.
Context {W : Type} {host : Host W}.

Definition id_chars : string := "abcdefghijklmnopqrstuvwxyz0123456789".

Fixpoint random_chars (n : nat) : M W string :=
  match n with
  | O => ret ""
  | S n' =>
      let! c := random_choice id_chars in
      let! r := random_chars n' in
      ret (String c r)
  end.

Definition generate_id : M W string := random_chars 8.

Definition validate_ip_address (ip_addr : pyval) : M W bool :=
  if negb (Py.truthy ip_addr) then throw PlainException "IP address cannot be empty"
  else
    match ip_addr with
    | PStr s =>
        let! accepted := read (inet_aton s) in
        let body : result bool :=
          if Py.has_char (ascii_of_nat 0) s then raise ValueError "embedded null character"
          else if negb accepted then
            raise OSError "illegal IP address string passed to inet_aton"
          else
            let ip_parts := PyStr.split "." s in
            if negb (length ip_parts =? 4)%nat then
              raise PlainException ("Invalid IP address format: " +:+ s)
            else
              let? _ := rfold (fun _ part =>
                          let? n := Py.int_of_str part in
                          if (0 <=? n) && (n <=? 255) then Ok tt
                          else raise PlainException
                                 ("IP address contains invalid octet: " +:+ part))
                        ip_parts tt in
              if String.eqb (List.last ip_parts "") "0" then
                raise PlainException ("IP address with .0 suffix is reserved: " +:+ s)
              else Ok true in
        lift (match body with
              | Ok b => Ok b
              | Raise e =>
                  if isinstance e OSError || isinstance e ValueError then
                    raise PlainException ("Invalid IP address: " +:+ s)
                  else Raise e
              end)
    | _ => throw TypeError ("inet_aton() argument 1 must be str, not "
                              +:+ Py.type_name ip_addr)
    end.

Definition URLS : list string :=
  ["https://ifconfig.me"; "https://ipinfo.io/ip"; "https://api.ipify.org"].

Fixpoint get_public_ip_from (urls : list string) : M W string :=
  match urls with
  | [] => throw RuntimeError "Failed to get public IP"
  | url :: urls' =>
      fun w => match requests_get url w with
               | (Ok text, w') => (Ok (PyStr.strip text), w')
               | (Raise e, w') =>
                   if isinstance e RequestException then get_public_ip_from urls' w'
                   else (Raise e, w')
               end
  end.

Definition get_public_ip : M W string := get_public_ip_from URLS.

End WithHost.
End Utils.

(* ===================================================================== *)
(** * firecracker/microvm.py *)
(* ===================================================================== *)

Module MicroVM.

(** The attributes [__init__] sets on the instance. *)
Record MicroVM : Type := {
  _microvm_id : string;
  _config : gmap string pyval;
  _network : Network.NetworkManager;
  _socket_file : string;
  _hostname : pyval;
  _kernel_file : pyval;
  _base_rootfs : pyval;
  _vmm_dir : string;
  _log_dir : string;
  _rootfs_dir : string;
  _rootfs_file : string;
  _vcpu : pyval;
  _mem_size_mib : pyval;
  _mmds_enabled : pyval;
  _mmds_ip : pyval;
  _user_data : json;
  _iface_name : string;
  _host_dev_name : string;
  _ip_addr : pyval;
  _gateway_ip : string;
  _bridge : pyval;
  _bridge_name : pyval;
  _port_forwarding : pyval;
  _host_port : pyval;
  _dest_port : pyval
}.

(** [for key, value in kwargs.items(): if hasattr(config, key): setattr(...)] *)
Definition apply_kwargs (config : gmap string pyval) (kwargs : list (string * pyval))
  : result (gmap string pyval) :=
  rfold (fun c kv => if Config.hasattr c (fst kv) then Config.setattr c (fst kv) (snd kv)
                     else Ok c) kwargs config.

(** [f"Got an unexpected keyword argument '{next(iter(kwargs))}'"] *)
Definition unexpected_kwarg (unexpected_arg : string) : pyval :=
  PStr ("Got an unexpected keyword argument '" +:+ unexpected_arg +:+ "'").

(** The boot command line ([_boot_args]). *)
Definition _boot_args (self : MicroVM) : string :=
  if Py.truthy (_mmds_enabled self) then
    "console=ttyS0 reboot=k panic=1 pci=off "
    +:+ ("ds=nocloud-net;s=http://" +:+ Py.str (_mmds_ip self) +:+ "/latest/ ")
    +:+ ("ip=" +:+ Py.str (_ip_addr self) +:+ "::" +:+ _gateway_ip self +:+ ":255.255.255.0:"
         +:+ Py.str (_hostname self) +:+ ":" +:+ _iface_name self +:+ ":off ")
  else
    "console=ttyS0 reboot=k panic=1 pci=off "
    +:+ ("ip=" +:+ Py.str (_ip_addr self) +:+ "::" +:+ _gateway_ip self +:+ ":255.255.255.0:"
         +:+ Py.str (_hostname self) +:+ ":" +:+ _iface_name self +:+ ":off ").

Section WithHost.
Context {W : Type} {host : Host W}.

(** [os.path.exists(v)] *)
Definition os_path_exists (v : pyval) : M W bool :=
  match v with
  | PNone => throw TypeError "stat: path should be string, bytes, os.PathLike or integer, not NoneType"
  | _ => read (path_exists v)
  end.

(** Lines 52-61 of [__init__]: the collaborators are built and the API
    handle is fetched. *)
Definition init_managers (microvm_id : string) (config : gmap string pyval)
  : M W Network.NetworkManager :=
  let! verbose := lift (Config.getattr config "verbose") in
  let! network := Network.NetworkManager_new verbose in
  do! ProcessManager_new in
  do! VMMManager_new in
  do! vmm_get_api microvm_id in
  ret network.

(** [id if id else generate_id()] *)
Definition new_id (id : option string) : M W string :=
  match id with
  | Some i => if Py.truthy (PStr i) then ret i else Utils.generate_id
  | None => Utils.generate_id
  end.

(** [kwargs] is the dictionary bound to [**kwargs], in the order of the call;
    [id] is a parameter of its own and never among its keys. *)
Definition __init__ (id : option string) (kwargs : list (string * pyval)) : M W MicroVM :=
  let! microvm_id := new_id id in
  let! config := lift (apply_kwargs Config.MicroVMConfig kwargs) in
  let! network := init_managers microvm_id config in
  let! data_path := lift (Config.getattr config "data_path") in
  let socket_file := Py.str data_path +:+ "/" +:+ microvm_id +:+ "/firecracker.socket" in
  let! hostname_opt := lift (Config.getattr config "hostname") in
  let hostname := if Py.truthy hostname_opt then hostname_opt else PStr microvm_id in
  let! kernel_file := lift (Config.getattr config "kernel_file") in
  let! base_rootfs := lift (Config.getattr config "base_rootfs") in
  let! base_rootfs_name :=
    match base_rootfs with
    | PStr p => ret (PyStr.basename (PyStr.remove_dot_slash p))
    | v => throw AttributeError
             ("'" +:+ Py.type_name v +:+ "' object has no attribute 'replace'")
    end in
  let vmm_dir := Py.str data_path +:+ "/" +:+ microvm_id in
  let log_dir := vmm_dir +:+ "/logs" in
  let rootfs_dir := vmm_dir +:+ "/rootfs" in
  let rootfs_file := PyStr.path_join rootfs_dir base_rootfs_name in
  let! vcpu := lift (Config.getattr config "vcpu_count") in
  let! mem_size_mib := lift (Config.getattr config "mem_size_mib") in
  let! mmds_enabled := lift (Config.getattr config "mmds_enabled") in
  let! mmds_ip := lift (Config.getattr config "mmds_ip") in
  let user_data := JDict [("meta-data", JDict [("instance-id", JS microvm_id)])] in
  let! iface_name := Network.get_interface_name in
  let host_dev_name := "tap_" +:+ microvm_id in
  let! ip_addr := lift (Config.getattr config "ip_addr") in
  let! gateway_ip := lift (Network.get_gateway_ip ip_addr) in
  let! bridge := lift (Config.getattr config "bridge") in
  let! bridge_name := lift (Config.getattr config "bridge_name") in
  let! port_forwarding := lift (Config.getattr config "port_forwarding") in
  let! host_port := lift (Config.getattr config "host_port") in
  let! dest_port := lift (Config.getattr config "dest_port") in
  (* Validation *)
  do! (if negb (Py.is_int vcpu) || (Py.as_int vcpu <=? 0)
       then throw ValueError "vcpu must be a positive integer" else ret tt) in
  do! (if negb (Py.is_int mem_size_mib) || (Py.as_int mem_size_mib <? 128)
       then throw ValueError "mem_size_mib must be valid" else ret tt) in
  do! (if Py.truthy hostname then lift (Utils.validate_hostname hostname) else ret tt) in
  do! (if Py.truthy ip_addr then do! Utils.validate_ip_address ip_addr in ret tt else ret tt) in
  let! kernel_found := os_path_exists kernel_file in
  if negb kernel_found then
    throw ConfigurationError ("Kernel file not found at: " +:+ Py.str kernel_file)
  else
  let! rootfs_found := os_path_exists base_rootfs in
  if negb rootfs_found then
    throw ConfigurationError ("Base root filesystem not found at: " +:+ Py.str base_rootfs)
  else
  ret {| _microvm_id := microvm_id; _config := config; _network := network;
         _socket_file := socket_file; _hostname := hostname; _kernel_file := kernel_file;
         _base_rootfs := base_rootfs; _vmm_dir := vmm_dir; _log_dir := log_dir;
         _rootfs_dir := rootfs_dir; _rootfs_file := rootfs_file; _vcpu := vcpu;
         _mem_size_mib := mem_size_mib; _mmds_enabled := mmds_enabled; _mmds_ip := mmds_ip;
         _user_data := user_data; _iface_name := iface_name; _host_dev_name := host_dev_name;
         _ip_addr := ip_addr; _gateway_ip := gateway_ip; _bridge := bridge;
         _bridge_name := bridge_name; _port_forwarding := port_forwarding;
         _host_port := host_port; _dest_port := dest_port |}.

(** [[vmm['id'] for vmm in vmms]] *)
Definition vmm_ids (vmms : list json) : result (list json) :=
  rfold (fun acc vmm => let? i := Json.getitem vmm "id" in Ok (acc ++ [i])) vmms [].

(** [x in l] for a string [x]. *)
Definition id_in (x : string) (l : list json) : bool :=
  existsb (fun j => Json.eq_val j (PStr x)) l.

(** [id if id else self._microvm_id] *)
Definition id_or_own (self : MicroVM) (id : option string) : string :=
  match id with
  | Some i => if Py.truthy (PStr i) then i else _microvm_id self
  | None => _microvm_id self
  end.

Definition wrap_VMMError {A} (m : M W A) : M W A :=
  try_except m (fun e => throw VMMError (exn_msg e)).

(** The static method [list] ([list] names the list type here). *)
Definition list_ : M W (list json) :=
  wrap_VMMError (do! VMMManager_new in vmm_list_vmms).

Definition config (self : MicroVM) (id : option string) (kwargs : list (string * pyval))
  : M W pyval :=
  match kwargs with
  | (unexpected_arg, _) :: _ => ret (unexpected_kwarg unexpected_arg)
  | [] =>
      wrap_VMMError
        (let id := id_or_own self id in
         if negb (Py.truthy (PStr id)) then
           ret (PStr "No VMM ID specified for checking configuration")
         else vmm_get_vmm_config id)
  end.

Definition status (self : MicroVM) (id : option string) (kwargs : list (string * pyval))
  : M W pyval :=
  match kwargs with
  | (unexpected_arg, _) :: _ => ret (unexpected_kwarg unexpected_arg)
  | [] =>
      wrap_VMMError
        (let id := id_or_own self id in
         if negb (Py.truthy (PStr id)) then
           ret (PStr "No VMM ID specified for checking status")
         else vmm_get_vmm_state id)
  end.

Definition pause (self : MicroVM) (id : option string) (kwargs : list (string * pyval))
  : M W pyval :=
  match kwargs with
  | (unexpected_arg, _) :: _ => ret (unexpected_kwarg unexpected_arg)
  | [] => wrap_VMMError (vmm_update_vmm_state (id_or_own self id) "Paused")
  end.

Definition resume (self : MicroVM) (id : option string) (kwargs : list (string * pyval))
  : M W pyval :=
  match kwargs with
  | (unexpected_arg, _) :: _ => ret (unexpected_kwarg unexpected_arg)
  | [] => wrap_VMMError (vmm_update_vmm_state (id_or_own self id) "Resumed")
  end.

Definition delete (self : MicroVM) (id : option string) (all : pyval)
    (kwargs : list (string * pyval)) : M W pyval :=
  match kwargs with
  | (unexpected_arg, _) :: _ => ret (unexpected_kwarg unexpected_arg)
  | [] =>
      wrap_VMMError
        (let id := id_or_own self id in
         if negb (Py.truthy (PStr id)) && negb (Py.truthy all) then
           ret (PStr "No VMM ID specified for deletion")
         else
           let! vmms := vmm_list_vmms in
           match vmms with
           | [] => ret (PStr "No VMMs available to delete")
           | _ :: _ =>
               if Py.truthy all then
                 do! vmm_delete_vmms None in
                 ret (PStr "All VMMs deleted successfully")
               else
                 do! vmm_delete_vmms (Some id) in
                 ret (PStr ("VMM " +:+ id +:+ " deleted successfully"))
           end)
  end.

Definition port_forward (self : MicroVM) (id : option string) (host_port dest_port remove : pyval)
    (kwargs : list (string * pyval)) : M W pyval :=
  match kwargs with
  | (unexpected_arg, _) :: _ => ret (unexpected_kwarg unexpected_arg)
  | [] =>
      wrap_VMMError
        (let! vmms := vmm_list_vmms in
         match vmms with
         | [] => ret (PStr "No VMMs available to forward ports")
         | _ :: _ =>
             let id := id_or_own self id in
             let! vmms := vmm_list_vmms in
             let! available_vmm_ids := lift (vmm_ids vmms) in
             if negb (id_in id available_vmm_ids) then
               ret (PStr ("VMM with ID " +:+ id +:+ " does not exist"))
             else
               let! host_ip := Utils.get_public_ip in
               let! dest_ip := vmm_get_vmm_ip_addr id in
               if Py.truthy remove then
                 do! Network.delete_port_forward (PStr host_ip) host_port dest_ip dest_port in
                 ret (PStr ("Port forwarding rule removed: " +:+ host_ip +:+ ":"
                              +:+ Py.str host_port +:+ " -> " +:+ Py.str dest_ip +:+ ":"
                              +:+ Py.str dest_port))
               else
                 do! Network.add_port_forward (PStr id) (PStr host_ip) host_port dest_ip
                       dest_port in
                 ret (PStr ("Port forwarding active: " +:+ host_ip +:+ ":"
                              +:+ Py.str host_port +:+ " -> " +:+ Py.str dest_ip +:+ ":"
                              +:+ Py.str dest_port))
         end)
  end.

Definition _configure_vmm_boot_source (self : MicroVM) : M W unit :=
  try_except
    (do! api_put "boot" [("kernel_image_path", JVal (_kernel_file self));
                         ("boot_args", JS (_boot_args self))] in
     ret tt)
    (fun e => throw ConfigurationError ("Failed to configure boot source: " +:+ exn_msg e)).

Definition _configure_vmm_root_drive (self : MicroVM) : M W unit :=
  try_except
    (do! api_put "drive" [("drive_id", JS "rootfs");
                          ("path_on_host", JS (_rootfs_file self));
                          ("is_root_device", JVal (PBool true));
                          ("is_read_only", JVal (PBool false))] in
     ret tt)
    (fun e => throw ConfigurationError ("Failed to configure root drive: " +:+ exn_msg e)).

Definition _configure_vmm_resources (self : MicroVM) : M W unit :=
  try_except
    (do! api_put "machine_config" [("vcpu_count", JVal (_vcpu self));
                                   ("mem_size_mib", JVal (_mem_size_mib self))] in
     ret tt)
    (fun e => throw ConfigurationError ("Failed to configure VMM resources: " +:+ exn_msg e)).

Definition _configure_vmm_network (self : MicroVM) : M W unit :=
  try_except
    (do! Network.create_tap (_network self) (PStr (_host_dev_name self))
           (PStr (_iface_name self)) (PStr (_gateway_ip self)) (_bridge self) in
     do! api_put "network" [("iface_id", JS (_iface_name self));
                            ("host_dev_name", JS (_host_dev_name self))] in
     ret tt)
    (fun e => throw ConfigurationError ("Failed to configure network: " +:+ exn_msg e)).

Definition _configure_vmm_mmds (self : MicroVM) : M W unit :=
  try_except
    (do! api_put "mmds_config" [("version", JS "V2");
                                ("ipv4_address", JVal (_mmds_ip self));
                                ("network_interfaces", JList [JS (_iface_name self)])] in
     do! api_put "mmds" [("latest", _user_data self)] in
     ret tt)
    (fun e => throw ConfigurationError ("Failed to configure MMDS: " +:+ exn_msg e)).

Definition _basic_config (self : MicroVM) : M W unit :=
  try_except
    (do! _configure_vmm_boot_source self in
     do! _configure_vmm_root_drive self in
     do! _configure_vmm_resources self in
     do! _configure_vmm_network self in
     if Py.truthy (_mmds_enabled self) then _configure_vmm_mmds self else ret tt)
    (fun exc => throw ConfigurationError (exn_msg exc)).

Definition max_retries : Z := 3.

(** The readiness loop of [_spawn]:
    [retries = 0; while retries < max_retries: ...; retries += 1; time.sleep(0.5)]
    followed by [raise APIError(...)]. The counter is only ever incremented,
    so the body runs once for each retry that [remaining] counts. *)
Fixpoint wait_for_socket (remaining : nat) (screen_pid : pyval) (socket_file : string)
  : M W unit :=
  match remaining with
  | O => throw APIError
           ("Failed to connect to the API socket after " +:+ pretty max_retries +:+ " attempts")
  | S remaining' =>
      let! pid := lift (Py.int_ screen_pid) in
      let! alive := read (pid_exists pid) in
      if negb alive then throw ProcessError "Firecracker process is not running"
      else
        let! found := read (path_exists (PStr socket_file)) in
        if found then Api_new socket_file
        else
          do! (fun w => (Ok tt, sleep (1 # 2)%Q w)) in
          wait_for_socket remaining' screen_pid socket_file
  end.

(** The world [k] polling delays later. *)
Definition after_sleeps (k : nat) (w : W) : W := Nat.iter k (sleep (1 # 2)%Q) w.

(** What [_spawn] does before it starts to poll. *)
Definition launch (self : MicroVM) : M W pyval :=
  let id := _microvm_id self in
  do! vmm_ensure_socket_file id in
  do! for_each [_vmm_dir self; _vmm_dir self +:+ "/rootfs"; _vmm_dir self +:+ "/logs"]
        vmm_create_vmm_dir in
  do! run ("cp " +:+ Py.str (_base_rootfs self) +:+ " " +:+ _rootfs_file self) in
  do! for_each [id +:+ ".log"; id +:+ "_screen.log"] (vmm_create_log_file id) in
  let binary_params :=
    ["--api-sock " +:+ _socket_file self;
     "--id " +:+ id;
     "--log-path " +:+ _log_dir self +:+ "/" +:+ id +:+ ".log"] in
  let session_name := "fc_" +:+ id in
  let! binary_path := lift (Config.getattr (_config self) "binary_path") in
  start_screen_process (_log_dir self +:+ "/" +:+ id +:+ "_screen.log") session_name
    binary_path binary_params.

(** The handler of [_spawn]:
    [self._vmm.cleanup_resources(self._microvm_id); raise VMMError(str(exc))] *)
Definition spawn_failed (self : MicroVM) (exc : exn) : M W unit :=
  do! vmm_cleanup_resources (_microvm_id self) in
  throw VMMError (exn_msg exc).

Definition _spawn (self : MicroVM) : M W unit :=
  try_except
    (let! screen_pid := launch self in
     wait_for_socket (Z.to_nat (max_retries - 0)) screen_pid (_socket_file self))
    (spawn_failed self).

Definition create (self : MicroVM) (kwargs : list (string * pyval)) : M W pyval :=
  match kwargs with
  | (unexpected_arg, _) :: _ => ret (unexpected_kwarg unexpected_arg)
  | [] =>
      let id := _microvm_id self in
      let! socket_present := read (path_exists (PStr (_socket_file self))) in
      let! known :=
        if socket_present then ret true
        else
          let! vmms := vmm_list_vmms in
          let! ids := lift (vmm_ids vmms) in
          ret (id_in id ids) in
      if known then ret (PStr ("VMM with ID " +:+ id +:+ " already exists"))
      else
        try_finally
          (try_except
             (do! _spawn self in
              do! _basic_config self in
              do! api_put "actions" [("action_type", JS "InstanceStart")] in
              do! (if Py.truthy (_port_forwarding self) then
                     throw AttributeError "'MicroVM' object has no attribute '_port_forward'"
                   else ret tt) in
              ret (PStr ("VMM " +:+ id +:+ " is created successfully")))
             (fun e => throw VMMError
                ("Failed to create VMM " +:+ id +:+ ": " +:+ exn_msg e)))
          api_close
  end.

End WithHost.
End MicroVM.

(* ===================================================================== *)
(** * firecracker/cli.py *)
(* ===================================================================== *)

Module Cli.

(** The keyword arguments [create] passes to [MicroVM], in the order of the
    call: every option is passed, given on the command line or not. *)
Definition create_kwargs (name kernel_file base_rootfs rootfs_url vcpu mem_size_mib ip_addr
    bridge bridge_name mmds_enabled mmds_ip working_dir expose_ports host_port dest_port
    verbose : pyval) : list (string * pyval) :=
  [("name", name); ("kernel_file", kernel_file); ("base_rootfs", base_rootfs);
   ("rootfs_url", rootfs_url); ("vcpu", vcpu); ("mem_size_mib", mem_size_mib);
   ("ip_addr", ip_addr); ("bridge", bridge); ("bridge_name", bridge_name);
   ("mmds_enabled", mmds_enabled); ("mmds_ip", mmds_ip); ("working_dir", working_dir);
   ("expose_ports", expose_ports); ("host_port", host_port); ("dest_port", dest_port);
   ("verbose", verbose)].

(** The same with the defaults of the options: [vcpu] 2, [mem_size_mib]
    1024, the flags [False], everything else [None]. *)
Definition default_kwargs : list (string * pyval) :=
  create_kwargs PNone PNone PNone PNone (PInt 2) (PInt 1024) PNone (PBool false) PNone
    (PBool false) PNone PNone (PBool false) PNone PNone (PBool false).

Section WithHost.
Context {W : Type} {host : Host W}.

(** [MicroVM(...).create()] *)
Definition create (kwargs : list (string * pyval)) : M W unit :=
  let! vm := MicroVM.__init__ None kwargs in
  do! MicroVM.create vm [] in
  ret tt.

(** [MicroVM().delete(id=id)], [.resume(id=id)], [.pause(id=id)] *)
Definition rm (id : string) : M W unit :=
  let! vm := MicroVM.__init__ None [] in
  do! MicroVM.delete vm (Some id) (PBool false) [] in
  ret tt.

Definition resume (id : string) : M W unit :=
  let! vm := MicroVM.__init__ None [] in
  do! MicroVM.resume vm (Some id) [] in
  ret tt.

Definition pause (id : string) : M W unit :=
  let! vm := MicroVM.__init__ None [] in
  do! MicroVM.pause vm (Some id) [] in
  ret tt.

(** [print(MicroVM().inspect(id=id))]: the class has no method [inspect]. *)
Definition inspect (id : string) : M W unit :=
  do! MicroVM.__init__ None [] in
  throw AttributeError "'MicroVM' object has no attribute 'inspect'".

End WithHost.
End Cli.

(* ===================================================================== *)
(** * firecracker/vmm.py: the registry (not among the sources) *)
(* ===================================================================== *)

Module VMM.

(** Lifecycle state of a registry entry. *)
Inductive lifecycle : Type := Configuring | Running | Paused | Stopped.

(** A registry entry: lifecycle state, process id, control-socket path,
    assigned IP and display name; the identifier is the key. *)
Record entry : Type := {
  state : lifecycle;
  pid : Z;
  socket_path : string;
  ip_addr : string;
  name : string
}.

Definition with_state (e : entry) (s : lifecycle) : entry :=
  {| state := s; pid := pid e; socket_path := socket_path e; ip_addr := ip_addr e;
     name := name e |}.

Definition state_name (s : lifecycle) : string :=
  match s with
  | Configuring => "Configuring"
  | Running => "Running"
  | Paused => "Paused"
  | Stopped => "Stopped"
  end.

(** The state a control-plane lifecycle action asks for. [microvm.py] names
    the pause and the resume action ["Paused"] and ["Resumed"]. *)
Definition target_state (action : string) : option lifecycle :=
  if String.eqb action "Paused" then Some Paused
  else if String.eqb action "Resumed" then Some Running
  else None.

(** Modelled from the spec: the transitions of a registry entry, which
    [firecracker/vmm.py] (missing from the sources) implements. The spec gives
    the lifecycle as "Configuring -> Running <-> Paused -> Stopped, terminal
    Stopped": of its arrows the pause action takes the one from [Running] to
    [Paused] and the resume action the one from [Paused] to [Running]. An
    entry in another state has no arrow for the action; [Stopped] has none at
    all. *)
Definition transition (s : lifecycle) (action : string) : option lifecycle :=
  match s, target_state action with
  | Running, Some Paused => Some Paused
  | Paused, Some Running => Some Running
  | _, _ => None
  end.

(** Modelled from the spec: [VMMManager.update_vmm_state] of
    [firecracker/vmm.py], which is missing from the sources. The spec has
    pause and resume "transition the registry state to Paused/Running via the
    control-plane lifecycle action", with errors "surfaced, not silently
    dropped": the entry of a registered id follows the arrow of the action;
    an unknown id, an unknown action and an entry without an arrow for the
    action are errors that leave the registry as it is. The text of the
    messages is not specified. *)
Definition update_vmm_state (id : string) (action : string) : M (gmap string entry) pyval :=
  fun reg =>
    match reg !! id with
    | None => (raise VMMError ("VMM " +:+ id +:+ " does not exist"), reg)
    | Some e =>
        match target_state action with
        | None => (raise VMMError ("Unsupported state " +:+ action), reg)
        | Some _ =>
            match transition (state e) action with
            | Some s =>
                (Ok (PStr ("VMM " +:+ id +:+ " is " +:+ state_name s)),
                 <[id := with_state e s]> reg)
            | None =>
                (raise VMMError ("VMM " +:+ id +:+ " is " +:+ state_name (state e)), reg)
            end
        end
    end.

(** A host keeps its registry as modelled when its [update_vmm_state]
    acts on the registry it holds as [update_vmm_state] above does. *)
Definition tracks_registry {W : Type} {host : Host W}
    (registry_of : W -> gmap string entry) : Prop :=
  forall (id action : string) (w : W),
    (fst (vmm_update_vmm_state id action w),
     registry_of (snd (vmm_update_vmm_state id action w)))
    = update_vmm_state id action (registry_of w).

(** One line of the listing of §6: [{id, state, ip, pid, name}]. *)
Definition listing_entry (kv : string * entry) : json :=
  JDict [("id", JS (fst kv)); ("state", JS (state_name (state (snd kv))));
         ("ip_addr", JS (ip_addr (snd kv))); ("pid", JI (pid (snd kv)));
         ("name", JS (name (snd kv)))].

End VMM.

(* ===================================================================== *)
(** * A recording host, to run the code on examples *)
(* ===================================================================== *)

Module Sim.

(** Every request that changes the host, as it was issued. *)
Inductive event : Type :=
  | LinkAdd (ifname : pyval)
  | LinkSetUp (idx : Z)
  | LinkSetMaster (idx master : Z)
  | LinkDel (idx : Z)
  | AddrAdd (idx : Z) (address : pyval) (prefixlen : Z)
  | NftJson (cmd : json)
  | NftCmd (cmd : string)
  | Run (cmd : string)
  | Sleep (seconds : Q)
  | StartScreen (screen_log session_name : string) (binary_path : pyval)
      (binary_params : list string)
  | EnsureSocketFile (id : string)
  | CreateVmmDir (path : string)
  | CreateLogFile (id file : string)
  | CleanupResources (id : string)
  | DeleteVmms (id : option string)
  | ApiNew (socket_file : string)
  | ApiPut (endpoint : string) (fields : list (string * json))
  | ApiClose.

Record world : Type := {
  links : list (string * Z);            (* interfaces: name and index *)
  nat_table : option (list json);       (* listing of table ip nat, if it exists *)
  filter_table : option (list json);    (* listing of table ip filter *)
  nft_available : bool;                 (* did [import nftables] succeed? *)
  files : list string;                  (* paths that exist *)
  socket_appears : option (string * nat);  (* a path that exists after so many sleeps *)
  pid_lifetime : option nat;            (* the process is gone after so many sleeps *)
  screen_pid : pyval;                   (* what [start_screen_process] answers *)
  clock : nat;                          (* sleeps so far *)
  registry : gmap string VMM.entry;
  public_ip : string;
  default_iface : string;
  trace : list event                    (* oldest first *)
}.

Definition log (e : event) (w : world) : world :=
  {| links := links w; nat_table := nat_table w; filter_table := filter_table w;
     nft_available := nft_available w; files := files w;
     socket_appears := socket_appears w; pid_lifetime := pid_lifetime w;
     screen_pid := screen_pid w; clock := clock w; registry := registry w;
     public_ip := public_ip w; default_iface := default_iface w;
     trace := trace w ++ [e] |}.

Definition set_links (l : list (string * Z)) (w : world) : world :=
  {| links := l; nat_table := nat_table w; filter_table := filter_table w;
     nft_available := nft_available w; files := files w;
     socket_appears := socket_appears w; pid_lifetime := pid_lifetime w;
     screen_pid := screen_pid w; clock := clock w; registry := registry w;
     public_ip := public_ip w; default_iface := default_iface w; trace := trace w |}.

Definition set_registry (r : gmap string VMM.entry) (w : world) : world :=
  {| links := links w; nat_table := nat_table w; filter_table := filter_table w;
     nft_available := nft_available w; files := files w;
     socket_appears := socket_appears w; pid_lifetime := pid_lifetime w;
     screen_pid := screen_pid w; clock := clock w; registry := r;
     public_ip := public_ip w; default_iface := default_iface w; trace := trace w |}.

Definition tick (w : world) : world :=
  {| links := links w; nat_table := nat_table w; filter_table := filter_table w;
     nft_available := nft_available w; files := files w;
     socket_appears := socket_appears w; pid_lifetime := pid_lifetime w;
     screen_pid := screen_pid w; clock := S (clock w); registry := registry w;
     public_ip := public_ip w; default_iface := default_iface w; trace := trace w |}.

Definition done (e : event) : M world unit := fun w => (Ok tt, log e w).

Definition sim_link_lookup (ifname : pyval) (w : world) : list Z :=
  match ifname with
  | PStr n => map snd (filter (fun l => String.eqb (fst l) n) (links w))
  | _ => []
  end.

Definition fresh_index (w : world) : Z :=
  1 + fold_right Z.max 0 (map snd (links w)).

(** The kernel takes interface names of up to 15 characters. *)
Definition sim_link_add (ifname : pyval) : M world unit :=
  fun w =>
    match ifname with
    | PStr n =>
        if (15 <? String.length n)%nat then
          (raise OSError "Numerical result out of range", log (LinkAdd ifname) w)
        else
        match sim_link_lookup ifname w with
        | [] => (Ok tt, log (LinkAdd ifname) (set_links (links w ++ [(n, fresh_index w)]) w))
        | _ :: _ => (raise OSError "File exists", log (LinkAdd ifname) w)
        end
    | _ => (raise TypeError "ifname must be a string", log (LinkAdd ifname) w)
    end.

Definition sim_link_del (idx : Z) : M world unit :=
  fun w => (Ok tt, log (LinkDel idx)
                     (set_links (filter (fun l => negb (snd l =? idx)) (links w)) w)).

(** Is [cmd] the command that lists a table, and which one? *)
Definition listed_table (cmd : json) : option string :=
  match cmd with
  | JDict [("nftables",
            JList [JDict [("list", JDict [("table", JDict [(_, _); (_, JVal (PStr n))])])]])] =>
      Some n
  | _ => None
  end.

Definition list_reply (t : option (list json)) : Z * json * string :=
  match t with
  | Some items => (0, JDict [("nftables", JList items)], "")
  | None => (1, JS "", "Error: No such file or directory")
  end.

Definition sim_nft_json_cmd (cmd : json) : M world (Z * json * string) :=
  fun w =>
    match listed_table cmd with
    | Some n =>
        if String.eqb n "nat" then (Ok (list_reply (nat_table w)), w)
        else if String.eqb n "filter" then (Ok (list_reply (filter_table w)), w)
        else (Ok (list_reply None), w)
    | None => (Ok (0, JS "", ""), log (NftJson cmd) w)
    end.

Definition sim_nft_cmd (cmd : string) : M world (Z * string * string) :=
  fun w => (Ok (0, "", ""), log (NftCmd cmd) w).

Definition sim_run (cmd : string) : M world (Z * string) :=
  fun w =>
    if String.prefix "ip route" cmd
    then (Ok (0, default_iface w +:+ String (ascii_of_nat 10) ""), log (Run cmd) w)
    else (Ok (0, ""), log (Run cmd) w).

Definition sim_path_exists (p : pyval) (w : world) : bool :=
  match p with
  | PStr s =>
      existsb (String.eqb s) (files w)
      || match socket_appears w with
         | Some (path, after) => String.eqb s path && (after <=? clock w)%nat
         | None => false
         end
  | _ => false
  end.

Definition sim_pid_exists (pid : Z) (w : world) : bool :=
  match pid_lifetime w with
  | Some n => (clock w <? n)%nat
  | None => true
  end.

Definition sim_sleep (seconds : Q) (w : world) : world := log (Sleep seconds) (tick w).

Definition sim_Nftables_new : M world unit :=
  fun w => if nft_available w then (Ok tt, w)
           else (raise TypeError "'NoneType' object is not callable", w).

Definition sim_list_vmms : M world (list json) :=
  fun w => (Ok (map VMM.listing_entry (map_to_list (registry w))), w).

Definition sim_entry_field (f : VMM.entry -> pyval) (id : string) : M world pyval :=
  fun w => match registry w !! id with
           | Some e => (Ok (f e), w)
           | None => (raise VMMError ("VMM " +:+ id +:+ " does not exist"), w)
           end.

Definition sim_update_vmm_state (id action : string) : M world pyval :=
  fun w => let '(r, reg) := VMM.update_vmm_state id action (registry w) in
           (r, set_registry reg w).

Definition sim_delete_vmms (id : option string) : M world unit :=
  fun w => (Ok tt, log (DeleteVmms id)
                     (set_registry (match id with
                                    | Some i => base.delete i (registry w)
                                    | None => ∅
                                    end) w)).

#[global] Instance sim_host : Host world := {|
  link_lookup := sim_link_lookup;
  get_links := fun _ _ => [];
  link_add_tuntap := sim_link_add;
  link_set_up := fun idx => done (LinkSetUp idx);
  link_set_master := fun idx master => done (LinkSetMaster idx master);
  link_del := sim_link_del;
  addr_add := fun idx a len => done (AddrAdd idx a len);
  Nftables_new := sim_Nftables_new;
  nft_json_cmd := sim_nft_json_cmd;
  nft_cmd := sim_nft_cmd;
  run := sim_run;
  requests_get := fun _ w => (Ok (public_ip w), w);
  inet_aton := fun s _ =>
    match IpAddress.v4_ip_int_from_string s with Ok _ => true | Raise _ => false end;
  path_exists := sim_path_exists;
  pid_exists := sim_pid_exists;
  sleep := sim_sleep;
  random_choice := fun _ => ret "a"%char;
  ProcessManager_new := ret tt;
  start_screen_process := fun screen_log session_name binary_path binary_params w =>
    (Ok (screen_pid w), log (StartScreen screen_log session_name binary_path binary_params) w);
  VMMManager_new := ret tt;
  vmm_get_api := fun _ => ret tt;
  vmm_list_vmms := sim_list_vmms;
  vmm_get_vmm_config := sim_entry_field (fun e => PStr (VMM.name e));
  vmm_get_vmm_state := sim_entry_field (fun e => PStr (VMM.state_name (VMM.state e)));
  vmm_get_vmm_ip_addr := sim_entry_field (fun e => PStr (VMM.ip_addr e));
  vmm_update_vmm_state := sim_update_vmm_state;
  vmm_delete_vmms := sim_delete_vmms;
  vmm_ensure_socket_file := fun id => done (EnsureSocketFile id);
  vmm_create_vmm_dir := fun path => done (CreateVmmDir path);
  vmm_create_log_file := fun id file => done (CreateLogFile id file);
  vmm_cleanup_resources := fun id => done (CleanupResources id);
  Api_new := fun socket_file => done (ApiNew socket_file);
  api_put := fun endpoint fields w => (Ok JNone, log (ApiPut endpoint fields) w);
  api_close := done ApiClose
|}.

(** A host with one registered VM and nothing else. *)
Definition vm1 : VMM.entry :=
  {| VMM.state := VMM.Running; VMM.pid := 4242;
     VMM.socket_path := "/var/lib/firecracker/abc12345/firecracker.socket";
     VMM.ip_addr := "172.16.0.2"; VMM.name := "fc-vm" |}.

Definition w0 : world :=
  {| links := []; nat_table := None; filter_table := None; nft_available := true;
     files := []; socket_appears := None; pid_lifetime := None; screen_pid := PStr "4243";
     clock := 0; registry := {["abc12345" := vm1]}; public_ip := "203.0.113.5";
     default_iface := "eth0"; trace := [] |}.

(** The same host with both tables in place; the nat table holds its chains
    and the port forward of another VM. *)
Definition other_forward : list json :=
  [ JDict [("metainfo", JDict [("json_schema_version", JI 1)])];
    JDict [("table", JDict [("family", JS "ip"); ("name", JS "nat"); ("handle", JI 91)])];
    Network.nat_chain "prerouting" 12 "prerouting" (-100);
    Network.nat_chain "postrouting" 11 "postrouting" 100;
    Network.port_forward_postrouting_rule (PStr "172.16.9.2");
    Network.port_forward_prerouting_rule (PStr "203.0.113.5") (PInt 2222) (PStr "172.16.9.2")
      (PInt 22) (PStr "tcp") ].

Definition w1 : world :=
  {| links := []; nat_table := Some other_forward; filter_table := Some [];
     nft_available := true; files := []; socket_appears := None; pid_lifetime := None;
     screen_pid := PStr "4243"; clock := 0; registry := {["abc12345" := vm1]};
     public_ip := "203.0.113.5"; default_iface := "eth0"; trace := [] |}.

Definition set_nat_table (t : option (list json)) (w : world) : world :=
  {| links := links w; nat_table := t; filter_table := filter_table w;
     nft_available := nft_available w; files := files w;
     socket_appears := socket_appears w; pid_lifetime := pid_lifetime w;
     screen_pid := screen_pid w; clock := clock w; registry := registry w;
     public_ip := public_ip w; default_iface := default_iface w; trace := trace w |}.

Definition set_socket_appears (s : option (string * nat)) (w : world) : world :=
  {| links := links w; nat_table := nat_table w; filter_table := filter_table w;
     nft_available := nft_available w; files := files w;
     socket_appears := s; pid_lifetime := pid_lifetime w;
     screen_pid := screen_pid w; clock := clock w; registry := registry w;
     public_ip := public_ip w; default_iface := default_iface w; trace := trace w |}.

(** The nat table right after [add_port_forward]: what it submitted. *)
Definition forwarded (host_ip host_port dest_ip dest_port : pyval) : option (list json) :=
  match Network.port_forward_cmd host_ip host_port dest_ip dest_port (PStr "tcp") with
  | JDict [(_, JList items)] => Some items
  | _ => None
  end.

(** A host like the one above on which the network is down and the
    hypervisor refuses every request. *)
Definition offline_host : Host world := {|
  link_lookup := sim_link_lookup;
  get_links := fun _ _ => [];
  link_add_tuntap := sim_link_add;
  link_set_up := fun idx => done (LinkSetUp idx);
  link_set_master := fun idx master => done (LinkSetMaster idx master);
  link_del := sim_link_del;
  addr_add := fun idx a len => done (AddrAdd idx a len);
  Nftables_new := sim_Nftables_new;
  nft_json_cmd := sim_nft_json_cmd;
  nft_cmd := sim_nft_cmd;
  run := sim_run;
  requests_get := fun url w =>
    (raise RequestException ("Failed to establish a new connection to " +:+ url), w);
  inet_aton := fun s _ =>
    match IpAddress.v4_ip_int_from_string s with Ok _ => true | Raise _ => false end;
  path_exists := sim_path_exists;
  pid_exists := sim_pid_exists;
  sleep := sim_sleep;
  random_choice := fun _ => ret "a"%char;
  ProcessManager_new := ret tt;
  start_screen_process := fun screen_log session_name binary_path binary_params w =>
    (Ok (screen_pid w), log (StartScreen screen_log session_name binary_path binary_params) w);
  VMMManager_new := ret tt;
  vmm_get_api := fun _ => ret tt;
  vmm_list_vmms := sim_list_vmms;
  vmm_get_vmm_config := sim_entry_field (fun e => PStr (VMM.name e));
  vmm_get_vmm_state := sim_entry_field (fun e => PStr (VMM.state_name (VMM.state e)));
  vmm_get_vmm_ip_addr := sim_entry_field (fun e => PStr (VMM.ip_addr e));
  vmm_update_vmm_state := sim_update_vmm_state;
  vmm_delete_vmms := sim_delete_vmms;
  vmm_ensure_socket_file := fun id => done (EnsureSocketFile id);
  vmm_create_vmm_dir := fun path => done (CreateVmmDir path);
  vmm_create_log_file := fun id file => done (CreateLogFile id file);
  vmm_cleanup_resources := fun id => done (CleanupResources id);
  Api_new := fun socket_file => done (ApiNew socket_file);
  api_put := fun endpoint fields w =>
    (raise APIError ("Request to /" +:+ endpoint +:+ " failed"), log (ApiPut endpoint fields) w);
  api_close := done ApiClose
|}.

(** An instance as [__init__] would leave it if it completed, for VM id [id]. *)
Definition instance (id : string) (mmds : bool) : MicroVM.MicroVM :=
  {| MicroVM._microvm_id := id;
     MicroVM._config := Config.MicroVMConfig;
     MicroVM._network := {| Network.nm_config := Config.MicroVMConfig |};
     MicroVM._socket_file := "/var/lib/firecracker/" +:+ id +:+ "/firecracker.socket";
     MicroVM._hostname := PStr "fc-vm";
     MicroVM._kernel_file := PStr "/var/lib/firecracker/vmlinux";
     MicroVM._base_rootfs := PStr "/images/rootfs.img";
     MicroVM._vmm_dir := "/var/lib/firecracker/" +:+ id;
     MicroVM._log_dir := "/var/lib/firecracker/" +:+ id +:+ "/logs";
     MicroVM._rootfs_dir := "/var/lib/firecracker/" +:+ id +:+ "/rootfs";
     MicroVM._rootfs_file := "/var/lib/firecracker/" +:+ id +:+ "/rootfs/rootfs.img";
     MicroVM._vcpu := PInt 1;
     MicroVM._mem_size_mib := PInt 512;
     MicroVM._mmds_enabled := PBool mmds;
     MicroVM._mmds_ip := PStr "169.254.169.254";
     MicroVM._user_data := JDict [("meta-data", JDict [("instance-id", JS id)])];
     MicroVM._iface_name := "eth0";
     MicroVM._host_dev_name := "tap_" +:+ id;
     MicroVM._ip_addr := PStr "172.16.0.2";
     MicroVM._gateway_ip := "172.16.0.1";
     MicroVM._bridge := PBool false;
     MicroVM._bridge_name := PStr "docker0";
     MicroVM._port_forwarding := PBool false;
     MicroVM._host_port := PNone;
     MicroVM._dest_port := PNone |}.

(** The same instance with port forwarding requested. *)
Definition forwarding_instance (id : string) : MicroVM.MicroVM :=
  let vm := instance id false in
  {| MicroVM._microvm_id := MicroVM._microvm_id vm;
     MicroVM._config := MicroVM._config vm;
     MicroVM._network := MicroVM._network vm;
     MicroVM._socket_file := MicroVM._socket_file vm;
     MicroVM._hostname := MicroVM._hostname vm;
     MicroVM._kernel_file := MicroVM._kernel_file vm;
     MicroVM._base_rootfs := MicroVM._base_rootfs vm;
     MicroVM._vmm_dir := MicroVM._vmm_dir vm;
     MicroVM._log_dir := MicroVM._log_dir vm;
     MicroVM._rootfs_dir := MicroVM._rootfs_dir vm;
     MicroVM._rootfs_file := MicroVM._rootfs_file vm;
     MicroVM._vcpu := MicroVM._vcpu vm;
     MicroVM._mem_size_mib := MicroVM._mem_size_mib vm;
     MicroVM._mmds_enabled := MicroVM._mmds_enabled vm;
     MicroVM._mmds_ip := MicroVM._mmds_ip vm;
     MicroVM._user_data := MicroVM._user_data vm;
     MicroVM._iface_name := MicroVM._iface_name vm;
     MicroVM._host_dev_name := MicroVM._host_dev_name vm;
     MicroVM._ip_addr := MicroVM._ip_addr vm;
     MicroVM._gateway_ip := MicroVM._gateway_ip vm;
     MicroVM._bridge := MicroVM._bridge vm;
     MicroVM._bridge_name := MicroVM._bridge_name vm;
     MicroVM._port_forwarding := PBool true;
     MicroVM._host_port := PInt 8080;
     MicroVM._dest_port := PInt 80 |}.

End Sim.

(* ===================================================================== *)
(** * Templates the specification writes out *)
(* ===================================================================== *)

Module Spec.

(** [console=ttyS0 reboot=k panic=1 pci=off ip=<ip>::<gateway>:255.255.255.0:<hostname>:<iface>:off ],
    trailing space included. *)
Definition boot_args (ip gateway hostname iface : string) : string :=
  "console=ttyS0 reboot=k panic=1 pci=off ip=" +:+ ip +:+ "::" +:+ gateway
  +:+ ":255.255.255.0:" +:+ hostname +:+ ":" +:+ iface +:+ ":off ".

(** [ds=nocloud-net;s=http://<mmds-ip>/latest/ ] *)
Definition datasource (mmds_ip : string) : string :=
  "ds=nocloud-net;s=http://" +:+ mmds_ip +:+ "/latest/ ".

(** The two halves of [boot_args]: the console settings and the [ip=]
    directive. *)
Definition console : string := "console=ttyS0 reboot=k panic=1 pci=off ".

Definition ip_directive (ip gateway hostname iface : string) : string :=
  "ip=" +:+ ip +:+ "::" +:+ gateway +:+ ":255.255.255.0:" +:+ hostname +:+ ":" +:+ iface
  +:+ ":off ".

(** The keyword arguments that name an attribute of the configuration
    object. *)
Definition recognised (kv : string * pyval) : bool :=
  Config.hasattr Config.MicroVMConfig (fst kv).

(** What a pre-routing rule of a port forward says: the destination address
    and port it matches, and the address and port it rewrites them to. *)
Definition prerouting_summary (rule : json) : result (json * json * json * json) :=
  let? exprs := rbind (Json.getpath rule ["rule"; "expr"]) Json.iter in
  match exprs with
  | [e1; e2; e3] =>
      let? daddr := Json.getpath e1 ["match"; "right"] in
      let? dport := Json.getpath e2 ["match"; "right"] in
      let? addr := Json.getpath e3 ["dnat"; "addr"] in
      let? port := Json.getpath e3 ["dnat"; "port"] in
      Ok (daddr, dport, addr, port)
  | _ => raise ValueError "not a port-forward rule"
  end.

(** An error message names a key when the key occurs in it. *)
Definition names (e : exn) (key : string) : bool := PyStr.contains key (exn_msg e).

(** The eight hextets of a 128-bit integer, most significant first, and the
    integer a list of hextets stands for on top of [acc]. *)
Definition hextets_of (n : Z) : list Z :=
  map (fun i => (n / 65536 ^ Z.of_nat (7 - i)) mod 65536) (seq 0 8).

Definition hextets_value (G : list Z) (acc : Z) : Z :=
  fold_left (fun a g => a * 65536 + g) G acc.

(** A part [p] is a hextet worth [g]. *)
Definition hextet_of (p : string) (g : Z) : Prop :=
  IpAddress._parse_hextet p = Ok g /\ 0 <= g < 65536 /\ String.eqb p "" = false.

(** The parts of an address with one ["::"]: the hextets before it and the
    hextets after it, an empty part standing in for an empty side. *)
Definition with_skip (A B : list string) : list string :=
  match A with [] => [""] | _ :: _ => A end
  ++ "" :: match B with [] => [""] | _ :: _ => B end.

(** The strings of [k] decimal digits, and the check that an octet text the
    parser accepts is the decimal text of its value. *)
Fixpoint digit_strings (k : nat) : list string :=
  match k with
  | O => [""]
  | S k' =>
      flat_map (fun c => map (String c) (digit_strings k'))
        ["0"; "1"; "2"; "3"; "4"; "5"; "6"; "7"; "8"; "9"]%char
  end.

Definition octet_prints (o : string) : bool :=
  match IpAddress._parse_octet o with
  | Ok v => String.eqb (pretty v) o
  | Raise _ => true
  end.

(** A byte, printed, reads back as itself and holds no dot and no slash. *)
Definition octet_reads (v : Z) : bool :=
  match IpAddress._parse_octet (pretty v) with
  | Ok v' => (v' =? v) && negb (PyStr.mem_char "." (pretty v))
             && negb (PyStr.mem_char "/" (pretty v))
  | Raise _ => false
  end.

(** The rule an [add] command of one rule installs, as a listing shows it
    under handle [h]. *)
Definition listed_rule (cmd : json) (h : json) : option json :=
  match cmd with
  | JDict [("nftables", JList [JDict [("add", JDict [("rule", JDict fields)])]])] =>
      Some (JDict [("rule", JDict (fields ++ [("handle", h)]))])
  | _ => None
  end.

(** What the scan of [_compress_hextets] knows after [i] hextets of [H]: the
    best run and the current run lie within the hextets seen and consist of
    "0" only. *)
Definition run_of_zeros (H : list string) (start len : Z) : Prop :=
  forall j : nat, start <= Z.of_nat j < start + len -> nth j H "" = "0".

Definition scan_inv (H : list string) (i : Z) (st : IpAddress.zero_run) : Prop :=
  0 <= IpAddress.best_doublecolon_len st
  /\ (0 < IpAddress.best_doublecolon_len st ->
      0 <= IpAddress.best_doublecolon_start st
      /\ IpAddress.best_doublecolon_start st + IpAddress.best_doublecolon_len st <= i
      /\ run_of_zeros H (IpAddress.best_doublecolon_start st)
           (IpAddress.best_doublecolon_len st))
  /\ 0 <= IpAddress.doublecolon_len st
  /\ (IpAddress.doublecolon_len st = 0 -> IpAddress.doublecolon_start st = -1)
  /\ (0 < IpAddress.doublecolon_len st ->
      0 <= IpAddress.doublecolon_start st
      /\ IpAddress.doublecolon_start st + IpAddress.doublecolon_len st = i
      /\ run_of_zeros H (IpAddress.doublecolon_start st) (IpAddress.doublecolon_len st)).

End Spec.

Ltac split_scan :=
  repeat match goal with
         | |- _ /\ _ => split
         | |- _ = _ -> _ => intro
         | |- _ < _ -> _ => intro
         end.

(* ===================================================================== *)
(** * Properties *)
(* ===================================================================== *)

(** ** Construction: the configuration merge and the attribute reads *)

Section Construction.
Context {W : Type} {host : Host W}.

Lemma setattr_assignable (c : gmap string pyval) (k : string) (v : pyval) :
  Config.assignable k = true -> Config.setattr c k v = Ok (<[k := v]> c).
Proof.
  unfold Config.assignable, Config.setattr. intros H.
  destruct (String.eqb k "__class__"); [discriminate|].
  destruct (String.eqb k "__dict__"); [discriminate|].
  destruct (String.eqb k "__weakref__"); [discriminate|reflexivity].
Qed.

(** An assignment that goes through stores the value under the name. *)
Lemma setattr_ok (c c' : gmap string pyval) (k : string) (v : pyval) :
  Config.setattr c k v = Ok c' -> c' = <[k := v]> c.
Proof.
  unfold Config.setattr.
  destruct (String.eqb k "__class__"); [discriminate|].
  destruct (String.eqb k "__dict__"); [discriminate|].
  destruct (String.eqb k "__weakref__"); [discriminate|].
  intros H. injection H as <-. reflexivity.
Qed.

(** Assigning to an attribute the object has leaves [hasattr] as it was. *)
Lemma hasattr_insert (c : gmap string pyval) (k k' : string) (v : pyval) :
  Config.hasattr c k = true ->
  Config.hasattr (<[k := v]> c) k' = Config.hasattr c k'.
Proof.
  unfold Config.hasattr. intros Hk.
  destruct (decide (k = k')) as [->|Hne].
  - rewrite lookup_insert_eq, Hk.
    rewrite (bool_decide_eq_true_2 (is_Some (Some v))) by eauto. reflexivity.
  - rewrite lookup_insert_ne; auto.
Qed.

Lemma apply_kwargs_cons (c : gmap string pyval) (k : string) (v : pyval)
    (kwargs : list (string * pyval)) :
  MicroVM.apply_kwargs c ((k, v) :: kwargs)
  = let? c' := (if Config.hasattr c k then Config.setattr c k v else Ok c) in
    MicroVM.apply_kwargs c' kwargs.
Proof. reflexivity. Qed.

(** The merge never adds an attribute and never removes one: [hasattr]
    answers after it as before. *)
Lemma hasattr_apply_kwargs (kwargs : list (string * pyval)) (c c' : gmap string pyval) :
  MicroVM.apply_kwargs c kwargs = Ok c' ->
  forall k, Config.hasattr c' k = Config.hasattr c k.
Proof.
  revert c. induction kwargs as [|[k' v] kwargs IH]; intros c H k.
  - injection H as <-. reflexivity.
  - rewrite apply_kwargs_cons in H.
    destruct (Config.hasattr c k') eqn:Hk'.
    + destruct (Config.setattr c k' v) as [c1|e] eqn:Hset; [|discriminate].
      apply setattr_ok in Hset. subst c1. cbn [rbind] in H.
      rewrite (IH _ H). apply hasattr_insert, Hk'.
    + cbn [rbind] in H. apply (IH _ H).
Qed.

Lemma apply_kwargs_present (kwargs : list (string * pyval)) (c c' : gmap string pyval)
    (k : string) :
  MicroVM.apply_kwargs c kwargs = Ok c' -> is_Some (c !! k) -> is_Some (c' !! k).
Proof.
  revert c. induction kwargs as [|[k' v] kwargs IH]; intros c H Hc.
  - injection H as <-. exact Hc.
  - rewrite apply_kwargs_cons in H.
    destruct (Config.hasattr c k').
    + destruct (Config.setattr c k' v) as [c1|e] eqn:Hset; [|discriminate].
      apply setattr_ok in Hset. subst c1. cbn [rbind] in H.
      apply (IH _ H). destruct (decide (k' = k)) as [->|Hne].
      * rewrite lookup_insert_eq. eauto.
      * rewrite lookup_insert_ne; auto.
    + cbn [rbind] in H. apply (IH _ H), Hc.
Qed.

(** Without [__class__] and [__dict__] among the names, the merge goes
    through or stops at a name that cannot be written. *)
Lemma apply_kwargs_outcome (kwargs : list (string * pyval)) (c : gmap string pyval) :
  Forall (fun kv => fst kv <> "__class__" /\ fst kv <> "__dict__") kwargs ->
  (exists c', MicroVM.apply_kwargs c kwargs = Ok c')
  \/ (exists msg, MicroVM.apply_kwargs c kwargs = Raise (Exn AttributeError msg)).
Proof.
  intros H. revert c. induction H as [|[k v] kwargs [Hc Hd] _ IH]; intros c.
  - left. exists c. reflexivity.
  - rewrite apply_kwargs_cons. cbn [fst] in Hc, Hd.
    destruct (Config.hasattr c k); [|apply IH].
    unfold Config.setattr.
    destruct (String.eqb_spec k "__class__"); [contradiction|].
    destruct (String.eqb_spec k "__dict__"); [contradiction|].
    destruct (String.eqb k "__weakref__").
    + right. eexists. reflexivity.
    + apply IH.
Qed.

Lemma in_class_default (k : string) :
  Config.in_class k = false -> Config.MicroVMConfig !! k = None.
Proof.
  unfold Config.in_class, Config.MicroVMConfig. intros H.
  apply not_elem_of_list_to_map_1. intros Hin.
  apply list_elem_of_In in Hin.
  assert (Hex : existsb (String.eqb k) (map fst Config.fields ++ Config.class_attributes)
                = true).
  { apply existsb_exists. exists k. split; [|apply String.eqb_refl].
    apply in_or_app. left. exact Hin. }
  rewrite Hex in H. discriminate.
Qed.

Lemma getattr_absent (c : gmap string pyval) (k : string) :
  Config.hasattr c k = false ->
  Config.getattr c k
  = Raise (Exn AttributeError ("'MicroVMConfig' object has no attribute '" +:+ k +:+ "'")).
Proof.
  unfold Config.hasattr. intros H. apply orb_false_elim in H as [Hd Hc].
  unfold Config.getattr. rewrite (in_class_default k Hc).
  destruct (c !! k) eqn:E; [|reflexivity].
  rewrite bool_decide_eq_true_2 in Hd by eauto. discriminate.
Qed.

Lemma getattr_present (c : gmap string pyval) (k : string) :
  is_Some (c !! k) -> exists v, Config.getattr c k = Ok v.
Proof. intros [v H]. exists v. unfold Config.getattr. rewrite H. reflexivity. Qed.

Lemma defaults_lack (a : string) :
  In a ["vcpu_count"; "mem_size_mib"; "port_forwarding"] ->
  Config.hasattr Config.MicroVMConfig a = false.
Proof.
  simpl. intros H. repeat destruct H as [<-|H]; try (vm_compute; reflexivity); contradiction.
Qed.

Lemma defaults_have (k : string) :
  In k ["verbose"; "data_path"; "hostname"; "kernel_file"; "base_rootfs"] ->
  is_Some (Config.MicroVMConfig !! k).
Proof.
  simpl. intros H. repeat destruct H as [<-|H]; try (vm_compute; eauto); contradiction.
Qed.

(** Once the id is chosen, the keyword arguments are merged and the
    collaborators are built, [__init__] stops at an attribute that does not
    exist. *)
Lemma init_attribute_error (id : option string) (kwargs : list (string * pyval))
    (w w1 w2 : W) (microvm_id : string) (config : gmap string pyval)
    (network : Network.NetworkManager) :
  MicroVM.new_id id w = (Ok microvm_id, w1) ->
  MicroVM.apply_kwargs Config.MicroVMConfig kwargs = Ok config ->
  MicroVM.init_managers microvm_id config w1 = (Ok network, w2) ->
  exists msg, MicroVM.__init__ id kwargs w = (Raise (Exn AttributeError msg), w2).
Proof.
  intros Hid Hmerge Hmgr. unfold MicroVM.__init__.
  assert (Hget : forall k,
    In k ["verbose"; "data_path"; "hostname"; "kernel_file"; "base_rootfs"] ->
    exists v, Config.getattr config k = Ok v).
  { intros k Hk. apply getattr_present, (apply_kwargs_present _ _ _ _ Hmerge), defaults_have, Hk. }
  destruct (Hget "data_path") as [dp Hdp]; [simpl; tauto|].
  destruct (Hget "hostname") as [hn Hhn]; [simpl; tauto|].
  destruct (Hget "kernel_file") as [kf Hkf]; [simpl; tauto|].
  destruct (Hget "base_rootfs") as [br Hbr]; [simpl; tauto|].
  unfold bind at 1. rewrite Hid.
  unfold bind at 1. unfold lift at 1. rewrite Hmerge.
  unfold bind at 1. rewrite Hmgr.
  unfold bind at 1, lift. rewrite Hdp.
  unfold bind at 1. rewrite Hhn.
  unfold bind at 1. rewrite Hkf.
  unfold bind at 1. rewrite Hbr.
  destruct br as [|b|z|p].
  - eexists. reflexivity.
  - eexists. reflexivity.
  - eexists. reflexivity.
  - unfold bind at 1, ret. unfold bind at 1.
    rewrite (getattr_absent config "vcpu_count").
    + eexists. reflexivity.
    + rewrite (hasattr_apply_kwargs _ _ _ Hmerge). reflexivity.
Qed.

(** The constructor hands nothing back when the merge goes through: it ends
    in an exception, its own or one of the host. *)
Lemma init_stops (id : option string) (kwargs : list (string * pyval)) (w : W)
    (config : gmap string pyval) :
  MicroVM.apply_kwargs Config.MicroVMConfig kwargs = Ok config ->
  forall inst w', MicroVM.__init__ id kwargs w <> (Ok inst, w').
Proof.
  intros Hmerge inst w' Hret.
  destruct (MicroVM.new_id id w) as [[microvm_id|e] w1] eqn:Hid.
  - destruct (MicroVM.init_managers microvm_id config w1) as [[network|e] w2] eqn:Hmgr.
    + destruct (init_attribute_error id kwargs w w1 w2 microvm_id config network
                  Hid Hmerge Hmgr) as [msg Hmsg].
      rewrite Hmsg in Hret. discriminate.
    + unfold MicroVM.__init__ in Hret. unfold bind at 1 in Hret. rewrite Hid in Hret.
      unfold bind at 1 in Hret. unfold lift at 1 in Hret. rewrite Hmerge in Hret.
      unfold bind at 1 in Hret. rewrite Hmgr in Hret. discriminate.
  - unfold MicroVM.__init__ in Hret. unfold bind at 1 in Hret. rewrite Hid in Hret.
    discriminate.
Qed.

(** ... and neither when the merge fails. *)
Lemma init_merge_fails (id : option string) (kwargs : list (string * pyval)) (w : W)
    (e : exn) :
  MicroVM.apply_kwargs Config.MicroVMConfig kwargs = Raise e ->
  forall inst w', MicroVM.__init__ id kwargs w <> (Ok inst, w').
Proof.
  intros Hmerge inst w' Hret.
  unfold MicroVM.__init__ in Hret. unfold bind at 1 in Hret.
  destruct (MicroVM.new_id id w) as [[microvm_id|e'] w1]; [|discriminate].
  unfold bind at 1 in Hret. unfold lift at 1 in Hret. rewrite Hmerge in Hret. discriminate.
Qed.

End Construction.

(** C1, as stated, fails: a keyword argument named [__class__] or [__dict__]
    makes the merge itself raise, and the error is a [TypeError]. *)
Lemma init_class_keyword :
  MicroVM.__init__ (Some "abc12345") [("__class__", PInt 1)] Sim.w0
  = (Raise (Exn TypeError "__class__ must be set to a class, not 'int' object"), Sim.w0)
  /\ MicroVM.__init__ (Some "abc12345") [("__dict__", PNone)] Sim.w0
     = (Raise (Exn TypeError "__dict__ must be set to a dictionary, not a 'NoneType'"), Sim.w0)
  /\ forall m, isinstance (Exn TypeError m) AttributeError = false.
Proof. split; [|split]; [vm_compute; reflexivity..|reflexivity]. Qed.

(** C1, amended. With no keyword argument named [__class__] or [__dict__],
    the constructor never returns an instance. The merge does not bring in
    the attributes [vcpu_count], [mem_size_mib] and [port_forwarding], which
    the defaults lack. Once the id is chosen, either the merge goes through,
    and when the collaborators ([NetworkManager], [ProcessManager],
    [VMMManager], the API handle) are built the constructor raises
    [AttributeError] in the very world they left: nothing is validated and
    nothing else is done; or the merge itself raises [AttributeError] (a
    keyword named [__weakref__]), before anything else is done. *)
Theorem init_always_raises {W : Type} {host : Host W}
    (id : option string) (kwargs : list (string * pyval)) (w : W) :
  Forall (fun kv => fst kv <> "__class__" /\ fst kv <> "__dict__") kwargs ->
  (forall inst w', MicroVM.__init__ id kwargs w <> (Ok inst, w'))
  /\ (forall config a,
        MicroVM.apply_kwargs Config.MicroVMConfig kwargs = Ok config ->
        In a ["vcpu_count"; "mem_size_mib"; "port_forwarding"] ->
        Config.hasattr config a = false
        /\ Config.getattr config a
           = Raise (Exn AttributeError
                      ("'MicroVMConfig' object has no attribute '" +:+ a +:+ "'")))
  /\ (forall microvm_id w1,
        MicroVM.new_id id w = (Ok microvm_id, w1) ->
        (exists config,
           MicroVM.apply_kwargs Config.MicroVMConfig kwargs = Ok config
           /\ forall network w2,
                MicroVM.init_managers microvm_id config w1 = (Ok network, w2) ->
                exists msg,
                  MicroVM.__init__ id kwargs w = (Raise (Exn AttributeError msg), w2))
        \/ (exists msg,
              MicroVM.apply_kwargs Config.MicroVMConfig kwargs
              = Raise (Exn AttributeError msg)
              /\ MicroVM.__init__ id kwargs w = (Raise (Exn AttributeError msg), w1))).
Proof.
  intros Hkeys. split; [|split].
  - intros inst w'.
    destruct (MicroVM.apply_kwargs Config.MicroVMConfig kwargs) as [config|e] eqn:Hmerge.
    + exact (init_stops id kwargs w config Hmerge inst w').
    + exact (init_merge_fails id kwargs w e Hmerge inst w').
  - intros config a Hmerge Ha.
    assert (Hno : Config.hasattr config a = false).
    { rewrite (hasattr_apply_kwargs _ _ _ Hmerge). apply defaults_lack, Ha. }
    split; [exact Hno|apply getattr_absent, Hno].
  - intros microvm_id w1 Hid.
    destruct (apply_kwargs_outcome kwargs Config.MicroVMConfig Hkeys)
      as [[config Hmerge]|[msg Hmerge]].
    + left. exists config. split; [exact Hmerge|]. intros network w2.
      apply init_attribute_error; assumption.
    + right. exists msg. split; [exact Hmerge|].
      unfold MicroVM.__init__. unfold bind at 1. rewrite Hid.
      unfold bind at 1. unfold lift at 1. rewrite Hmerge. reflexivity.
Qed.

(** The constructor on a host where everything is in place. *)
Lemma init_always_raises_witness :
  exists msg,
    MicroVM.__init__ (Some "abc12345")
      [("base_rootfs", PStr "./images/rootfs.img"); ("vcpu", PInt 2); ("__doc__", PNone)]
      Sim.w0
    = (Raise (Exn AttributeError msg), Sim.w0).
Proof.
  assert (Hkeys : Forall (fun kv : string * pyval =>
                            fst kv <> "__class__" /\ fst kv <> "__dict__")
                    [("base_rootfs", PStr "./images/rootfs.img"); ("vcpu", PInt 2);
                     ("__doc__", PNone)]).
  { repeat constructor; discriminate. }
  destruct (init_always_raises (Some "abc12345")
              [("base_rootfs", PStr "./images/rootfs.img"); ("vcpu", PInt 2);
               ("__doc__", PNone)] Sim.w0 Hkeys)
    as (_ & _ & H).
  destruct (H "abc12345" Sim.w0 eq_refl) as [(config & Hmerge & Hinit)|(msg & _ & Hinit)].
  - destruct (getattr_present config "verbose") as [v Hv].
    { apply (apply_kwargs_present _ _ _ _ Hmerge). vm_compute. eauto. }
    apply (Hinit {| Network.nm_config := <["verbose" := v]> Config.MicroVMConfig |} Sim.w0).
    unfold MicroVM.init_managers. unfold bind at 1. unfold lift at 1. rewrite Hv.
    reflexivity.
  - exists msg. exact Hinit.
Defined.

(** C7, as stated, fails: a key that is no attribute of the configuration
    object is dropped by the merge, and the error the constructor ends in is
    the one of C1, which does not name the key. *)
Lemma unknown_kwarg_not_named :
  Config.hasattr Config.MicroVMConfig "bogus" = false
  /\ (let? config := MicroVM.apply_kwargs Config.MicroVMConfig
                        [("bogus", PInt 1); ("base_rootfs", PStr "rootfs.img")] in
      Ok (config !! "bogus")) = Ok None
  /\ exists e,
       MicroVM.__init__ (Some "abc12345")
         [("bogus", PInt 1); ("base_rootfs", PStr "rootfs.img")] Sim.w0
       = (Raise e, Sim.w0)
       /\ e = Exn AttributeError "'MicroVMConfig' object has no attribute 'vcpu_count'"
       /\ Spec.names e "bogus" = false.
Proof.
  split; [vm_compute; reflexivity|].
  split; [vm_compute; reflexivity|].
  eexists. split; [vm_compute; reflexivity|].
  split; [reflexivity|vm_compute; reflexivity].
Qed.

Section Merge.
Context {W : Type} {host : Host W}.

Lemma apply_kwargs_filter (kwargs : list (string * pyval)) (c : gmap string pyval) :
  (forall k, Config.hasattr c k = Config.hasattr Config.MicroVMConfig k) ->
  MicroVM.apply_kwargs c kwargs = MicroVM.apply_kwargs c (List.filter Spec.recognised kwargs).
Proof.
  revert c. induction kwargs as [|[k v] kwargs IH]; intros c Hc; [reflexivity|].
  rewrite apply_kwargs_cons. cbn [List.filter]. unfold Spec.recognised at 1. cbn [fst].
  rewrite <- (Hc k).
  destruct (Config.hasattr c k) eqn:Hk.
  - rewrite apply_kwargs_cons, Hk.
    destruct (Config.setattr c k v) as [c1|e] eqn:Hset; [|reflexivity].
    apply setattr_ok in Hset. subst c1. cbn [rbind].
    apply IH. intros k'. rewrite hasattr_insert; auto.
  - cbn [rbind]. apply IH, Hc.
Qed.

End Merge.

(** C7, amended. A keyword argument whose name is not an attribute of the
    configuration object, neither one of its options nor one of the
    attributes every instance has, is silently dropped: the outcome of the
    merge, and with it everything the constructor does, is the same as if the
    argument had not been passed. *)
Theorem unknown_kwargs_ignored {W : Type} {host : Host W}
    (id : option string) (kwargs : list (string * pyval)) (w : W) :
  MicroVM.apply_kwargs Config.MicroVMConfig kwargs
  = MicroVM.apply_kwargs Config.MicroVMConfig (List.filter Spec.recognised kwargs)
  /\ MicroVM.__init__ id kwargs w = MicroVM.__init__ id (List.filter Spec.recognised kwargs) w.
Proof.
  assert (H : MicroVM.apply_kwargs Config.MicroVMConfig kwargs
              = MicroVM.apply_kwargs Config.MicroVMConfig (List.filter Spec.recognised kwargs))
    by (apply apply_kwargs_filter; reflexivity).
  split; [exact H|].
  unfold MicroVM.__init__. rewrite H. reflexivity.
Qed.

(** ** Boot arguments *)

(** C4, as stated, fails with the metadata service enabled: the data-source
    directive is not put in front of the string. *)
Lemma boot_args_not_prefixed :
  MicroVM._boot_args (Sim.instance "abc12345" true)
  <> Spec.datasource "169.254.169.254"
     +:+ Spec.boot_args "172.16.0.2" "172.16.0.1" "fc-vm" "eth0".
Proof. vm_compute. discriminate. Qed.

(** C4, amended. With the metadata service disabled the boot arguments are
    exactly the template; with it enabled the data-source directive stands
    between the console settings and the [ip=] directive. *)
Theorem boot_args_layout (self : MicroVM.MicroVM) :
  MicroVM._boot_args self
  = if Py.truthy (MicroVM._mmds_enabled self) then
      Spec.console
      +:+ Spec.datasource (Py.str (MicroVM._mmds_ip self))
      +:+ Spec.ip_directive (Py.str (MicroVM._ip_addr self)) (MicroVM._gateway_ip self)
            (Py.str (MicroVM._hostname self)) (MicroVM._iface_name self)
    else
      Spec.boot_args (Py.str (MicroVM._ip_addr self)) (MicroVM._gateway_ip self)
        (Py.str (MicroVM._hostname self)) (MicroVM._iface_name self).
Proof.
  unfold MicroVM._boot_args.
  destruct (Py.truthy (MicroVM._mmds_enabled self)); reflexivity.
Qed.

Example boot_args_disabled :
  MicroVM._boot_args (Sim.instance "abc12345" false)
  = "console=ttyS0 reboot=k panic=1 pci=off ip=172.16.0.2::172.16.0.1:255.255.255.0:fc-vm:eth0:off ".
Proof. reflexivity. Qed.

Example boot_args_enabled :
  MicroVM._boot_args (Sim.instance "abc12345" true)
  = "console=ttyS0 reboot=k panic=1 pci=off ds=nocloud-net;s=http://169.254.169.254/latest/ ip=172.16.0.2::172.16.0.1:255.255.255.0:fc-vm:eth0:off ".
Proof. reflexivity. Qed.

(** ** Creation of a VM that already exists *)

(** C5. When the control socket of the instance exists, or its id is in the
    registry listing, [create()] returns the "already exists" message and the
    world is the one it started in: nothing is spawned, configured or torn
    down. *)
Theorem create_existing_is_noop {W : Type} {host : Host W}
    (self : MicroVM.MicroVM) (w : W) :
  (path_exists (PStr (MicroVM._socket_file self)) w = true
   \/ exists vmms ids,
        vmm_list_vmms w = (Ok vmms, w)
        /\ MicroVM.vmm_ids vmms = Ok ids
        /\ MicroVM.id_in (MicroVM._microvm_id self) ids = true) ->
  MicroVM.create self [] w
  = (Ok (PStr ("VMM with ID " +:+ MicroVM._microvm_id self +:+ " already exists")), w).
Proof.
  intros H. unfold MicroVM.create. unfold bind at 1. unfold read at 1.
  destruct (path_exists (PStr (MicroVM._socket_file self)) w) eqn:Hsock.
  - reflexivity.
  - destruct H as [H|(vmms & ids & Hlist & Hids & Hin)]; [discriminate|].
    unfold bind, lift, ret. rewrite Hlist, Hids, Hin. reflexivity.
Qed.

Lemma create_existing_is_noop_witness :
  MicroVM.create (Sim.instance "abc12345" false) [] Sim.w0
  = (Ok (PStr "VMM with ID abc12345 already exists"), Sim.w0).
Proof.
  pose proof (create_existing_is_noop (Sim.instance "abc12345" false) Sim.w0) as H.
  assert (Hc : path_exists (PStr (MicroVM._socket_file (Sim.instance "abc12345" false))) Sim.w0
               = true
               \/ exists vmms ids,
                    vmm_list_vmms Sim.w0 = (Ok vmms, Sim.w0)
                    /\ MicroVM.vmm_ids vmms = Ok ids
                    /\ MicroVM.id_in (MicroVM._microvm_id (Sim.instance "abc12345" false)) ids
                       = true).
  { right. eexists. eexists. split; [|split]; vm_compute; reflexivity. }
  exact (H Hc).
Defined.

(** For contrast: an id that is not known is spawned (and, the control
    socket never showing up here, cleaned up again). *)
Example create_unknown_spawns :
  exists w',
    MicroVM.create (Sim.instance "new00001" false) [] Sim.w0
    = (Raise (Exn VMMError
         "Failed to create VMM new00001: Failed to connect to the API socket after 3 attempts"),
       w')
    /\ Sim.trace w'
       = [Sim.EnsureSocketFile "new00001";
          Sim.CreateVmmDir "/var/lib/firecracker/new00001";
          Sim.CreateVmmDir "/var/lib/firecracker/new00001/rootfs";
          Sim.CreateVmmDir "/var/lib/firecracker/new00001/logs";
          Sim.Run "cp /images/rootfs.img /var/lib/firecracker/new00001/rootfs/rootfs.img";
          Sim.CreateLogFile "new00001" "new00001.log";
          Sim.CreateLogFile "new00001" "new00001_screen.log";
          Sim.StartScreen "/var/lib/firecracker/new00001/logs/new00001_screen.log"
            "fc_new00001" (PStr "/usr/local/bin/firecracker")
            ["--api-sock /var/lib/firecracker/new00001/firecracker.socket";
             "--id new00001";
             "--log-path /var/lib/firecracker/new00001/logs/new00001.log"];
          Sim.Sleep (1 # 2); Sim.Sleep (1 # 2); Sim.Sleep (1 # 2);
          Sim.CleanupResources "new00001"; Sim.ApiClose].
Proof.
  eexists. split; vm_compute; reflexivity.
Qed.

(** ** Readiness of the control socket *)

Section Readiness.
Context {W : Type} {host : Host W}.
Variables (screen_pid : pyval) (pid : Z) (socket_file : string).
Hypothesis Hpid : Py.int_ screen_pid = Ok pid.

Lemma after_sleeps_S (k : nat) (w : W) :
  MicroVM.after_sleeps (S k) w = MicroVM.after_sleeps k (sleep (1 # 2)%Q w).
Proof. unfold MicroVM.after_sleeps. apply Nat.iter_succ_r. Qed.

(** One attempt: the process first, then the socket, then the delay. *)
Lemma wait_for_socket_step (n : nat) (w : W) :
  MicroVM.wait_for_socket (S n) screen_pid socket_file w
  = if negb (pid_exists pid w) then
      (Raise (Exn ProcessError "Firecracker process is not running"), w)
    else if path_exists (PStr socket_file) w then Api_new socket_file w
    else MicroVM.wait_for_socket n screen_pid socket_file (sleep (1 # 2)%Q w).
Proof.
  cbn [MicroVM.wait_for_socket].
  unfold bind at 1. unfold lift. rewrite Hpid.
  unfold bind at 1. unfold read at 1.
  destruct (pid_exists pid w); [|reflexivity]. cbn [negb].
  unfold bind at 1. unfold read at 1.
  destruct (path_exists (PStr socket_file) w); reflexivity.
Qed.

(** The outcome of [n] allowed attempts, by the first attempt at which the
    process is gone or the socket is there. *)
Lemma wait_for_socket_outcome (n : nat) :
  forall w : W,
    (forall k, (k < n)%nat ->
       (forall j, (j < k)%nat ->
          pid_exists pid (MicroVM.after_sleeps j w) = true
          /\ path_exists (PStr socket_file) (MicroVM.after_sleeps j w) = false) ->
       pid_exists pid (MicroVM.after_sleeps k w) = false ->
       MicroVM.wait_for_socket n screen_pid socket_file w
       = (Raise (Exn ProcessError "Firecracker process is not running"),
          MicroVM.after_sleeps k w))
    /\ (forall k, (k < n)%nat ->
          (forall j, (j < k)%nat ->
             pid_exists pid (MicroVM.after_sleeps j w) = true
             /\ path_exists (PStr socket_file) (MicroVM.after_sleeps j w) = false) ->
          pid_exists pid (MicroVM.after_sleeps k w) = true ->
          path_exists (PStr socket_file) (MicroVM.after_sleeps k w) = true ->
          MicroVM.wait_for_socket n screen_pid socket_file w
          = Api_new socket_file (MicroVM.after_sleeps k w))
    /\ ((forall j, (j < n)%nat ->
           pid_exists pid (MicroVM.after_sleeps j w) = true
           /\ path_exists (PStr socket_file) (MicroVM.after_sleeps j w) = false) ->
        MicroVM.wait_for_socket n screen_pid socket_file w
        = (Raise (Exn APIError
             ("Failed to connect to the API socket after " +:+ pretty MicroVM.max_retries
                +:+ " attempts")),
           MicroVM.after_sleeps n w)).
Proof.
  induction n as [|n IH]; intros w.
  - split; [|split].
    + intros k Hk. lia.
    + intros k Hk. lia.
    + intros _. reflexivity.
  - destruct (IH (sleep (1 # 2)%Q w)) as (IHdead & IHsock & IHnever).
    assert (Hshift : forall k,
      (forall j, (j < S k)%nat ->
         pid_exists pid (MicroVM.after_sleeps j w) = true
         /\ path_exists (PStr socket_file) (MicroVM.after_sleeps j w) = false) ->
      forall j, (j < k)%nat ->
        pid_exists pid (MicroVM.after_sleeps j (sleep (1 # 2)%Q w)) = true
        /\ path_exists (PStr socket_file) (MicroVM.after_sleeps j (sleep (1 # 2)%Q w))
           = false).
    { intros k H j Hj. rewrite <- after_sleeps_S. apply (H (S j)). lia. }
    assert (Hfirst : forall k,
      (forall j, (j < S k)%nat ->
         pid_exists pid (MicroVM.after_sleeps j w) = true
         /\ path_exists (PStr socket_file) (MicroVM.after_sleeps j w) = false) ->
      pid_exists pid w = true /\ path_exists (PStr socket_file) w = false).
    { intros k H. apply (H 0%nat). lia. }
    rewrite wait_for_socket_step.
    split; [|split].
    + intros [|k] Hk Hbefore Hdead.
      * change (MicroVM.after_sleeps 0 w) with w in *. rewrite Hdead. reflexivity.
      * destruct (Hfirst k Hbefore) as [Ha Hs]. rewrite Ha, Hs. cbn [negb].
        rewrite after_sleeps_S. apply IHdead; [lia|apply Hshift, Hbefore|].
        rewrite <- after_sleeps_S. exact Hdead.
    + intros [|k] Hk Hbefore Halive Hsock.
      * change (MicroVM.after_sleeps 0 w) with w in *. rewrite Halive, Hsock. reflexivity.
      * destruct (Hfirst k Hbefore) as [Ha Hs]. rewrite Ha, Hs. cbn [negb].
        rewrite after_sleeps_S. apply IHsock; [lia|apply Hshift, Hbefore| |].
        -- rewrite <- after_sleeps_S. exact Halive.
        -- rewrite <- after_sleeps_S. exact Hsock.
    + intros Hnever.
      destruct (Hfirst n Hnever) as [Ha Hs]. rewrite Ha, Hs. cbn [negb].
      rewrite after_sleeps_S. apply IHnever, Hshift, Hnever.
Qed.

(** What [_spawn] makes of the three ways the loop can end. *)
Lemma spawn_after_launch (self : MicroVM.MicroVM) (w w1 : W) :
  MicroVM._socket_file self = socket_file ->
  MicroVM.launch self w = (Ok screen_pid, w1) ->
  MicroVM._spawn self w
  = try_except (MicroVM.wait_for_socket 3 screen_pid socket_file) (MicroVM.spawn_failed self) w1.
Proof.
  intros Hsock Hlaunch. unfold MicroVM._spawn.
  change (Z.to_nat (MicroVM.max_retries - 0)) with 3%nat.
  unfold try_except at 1. unfold bind at 1. rewrite Hlaunch, Hsock. reflexivity.
Qed.

End Readiness.

(** The handler of [_spawn]: the cleanup, then the VM-management error with
    the text of the exception it was given, unless the cleanup raises. *)
Lemma spawn_failed_raises {W : Type} {host : Host W}
    (self : MicroVM.MicroVM) (exc : exn) (w : W) :
  MicroVM.spawn_failed self exc w
  = (let (r, w') := vmm_cleanup_resources (MicroVM._microvm_id self) w in
     (match r with
      | Ok _ => Raise (Exn VMMError (exn_msg exc))
      | Raise e => Raise e
      end, w')).
Proof.
  unfold MicroVM.spawn_failed, bind.
  destruct (vmm_cleanup_resources (MicroVM._microvm_id self) w) as [[[]|e] w']; reflexivity.
Qed.

(** C6, as stated, fails: with a socket that never shows up the error that
    leaves [_spawn] is not an API error. The one raised after the third
    attempt is caught by the handler of [_spawn], which cleans up and raises a
    VM-management error with its text. *)
Lemma spawn_raises_VMMError :
  exists w',
    MicroVM._spawn (Sim.instance "new00001" false) Sim.w0
    = (Raise (Exn VMMError "Failed to connect to the API socket after 3 attempts"), w')
    /\ isinstance (Exn VMMError "Failed to connect to the API socket after 3 attempts") APIError
       = false
    /\ Sim.trace w'
       = [Sim.EnsureSocketFile "new00001";
          Sim.CreateVmmDir "/var/lib/firecracker/new00001";
          Sim.CreateVmmDir "/var/lib/firecracker/new00001/rootfs";
          Sim.CreateVmmDir "/var/lib/firecracker/new00001/logs";
          Sim.Run "cp /images/rootfs.img /var/lib/firecracker/new00001/rootfs/rootfs.img";
          Sim.CreateLogFile "new00001" "new00001.log";
          Sim.CreateLogFile "new00001" "new00001_screen.log";
          Sim.StartScreen "/var/lib/firecracker/new00001/logs/new00001_screen.log"
            "fc_new00001" (PStr "/usr/local/bin/firecracker")
            ["--api-sock /var/lib/firecracker/new00001/firecracker.socket";
             "--id new00001";
             "--log-path /var/lib/firecracker/new00001/logs/new00001.log"];
          Sim.Sleep (1 # 2); Sim.Sleep (1 # 2); Sim.Sleep (1 # 2);
          Sim.CleanupResources "new00001"].
Proof. eexists. split; [|split]; vm_compute; reflexivity. Qed.

(** C6, amended. Once the hypervisor is launched, [_spawn] makes at most 3
    attempts, 0.5 seconds apart. At each attempt it looks at the process first
    and raises a process error when it is gone; otherwise it looks for the
    control socket and, when it is there, binds a client to it and returns
    it. When neither happens at the first three attempts it raises an API
    error, three delays after the launch: what a fourth look would show plays
    no part. Either error is raised inside [_spawn] and caught by its handler:
    the resources of the VM are cleaned up and the caller gets a VM-management
    error with the text of the error, as it does when binding the client
    fails. *)
Theorem readiness_poll_bound {W : Type} {host : Host W}
    (self : MicroVM.MicroVM) (screen_pid : pyval) (pid : Z) (w w1 : W) :
  MicroVM.launch self w = (Ok screen_pid, w1) ->
  Py.int_ screen_pid = Ok pid ->
  (forall k, (k < 3)%nat ->
     (forall j, (j < k)%nat ->
        pid_exists pid (MicroVM.after_sleeps j w1) = true
        /\ path_exists (PStr (MicroVM._socket_file self)) (MicroVM.after_sleeps j w1) = false) ->
     pid_exists pid (MicroVM.after_sleeps k w1) = false ->
     MicroVM._spawn self w
     = MicroVM.spawn_failed self (Exn ProcessError "Firecracker process is not running")
         (MicroVM.after_sleeps k w1))
  /\ (forall k, (k < 3)%nat ->
        (forall j, (j < k)%nat ->
           pid_exists pid (MicroVM.after_sleeps j w1) = true
           /\ path_exists (PStr (MicroVM._socket_file self)) (MicroVM.after_sleeps j w1)
              = false) ->
        pid_exists pid (MicroVM.after_sleeps k w1) = true ->
        path_exists (PStr (MicroVM._socket_file self)) (MicroVM.after_sleeps k w1) = true ->
        MicroVM._spawn self w
        = try_except (Api_new (MicroVM._socket_file self)) (MicroVM.spawn_failed self)
            (MicroVM.after_sleeps k w1))
  /\ ((forall j, (j < 3)%nat ->
         pid_exists pid (MicroVM.after_sleeps j w1) = true
         /\ path_exists (PStr (MicroVM._socket_file self)) (MicroVM.after_sleeps j w1)
            = false) ->
      MicroVM._spawn self w
      = MicroVM.spawn_failed self
          (Exn APIError "Failed to connect to the API socket after 3 attempts")
          (MicroVM.after_sleeps 3 w1))
  /\ (forall exc w2,
        MicroVM.spawn_failed self exc w2
        = (let (r, w') := vmm_cleanup_resources (MicroVM._microvm_id self) w2 in
           (match r with
            | Ok _ => Raise (Exn VMMError (exn_msg exc))
            | Raise e => Raise e
            end, w'))).
Proof.
  intros Hlaunch Hpid.
  pose proof (spawn_after_launch screen_pid (MicroVM._socket_file self) self w w1
                eq_refl Hlaunch) as Hspawn.
  destruct (wait_for_socket_outcome screen_pid pid (MicroVM._socket_file self) Hpid 3 w1)
    as (Hdead & Hsock & Hnever).
  split; [|split; [|split]].
  - intros k Hk Hbefore Hgone. rewrite Hspawn. unfold try_except.
    rewrite (Hdead k Hk Hbefore Hgone). reflexivity.
  - intros k Hk Hbefore Halive Hthere. rewrite Hspawn. unfold try_except.
    rewrite (Hsock k Hk Hbefore Halive Hthere). reflexivity.
  - intros Hnone. rewrite Hspawn. unfold try_except.
    rewrite (Hnever Hnone). reflexivity.
  - intros exc w2. apply spawn_failed_raises.
Qed.

(** A socket that never shows up, on the recording host: three delays, then
    the cleanup and the error. *)
Lemma readiness_poll_bound_witness :
  exists w1,
    MicroVM.launch (Sim.instance "new00001" false) Sim.w0 = (Ok (PStr "4243"), w1)
    /\ MicroVM._spawn (Sim.instance "new00001" false) Sim.w0
       = MicroVM.spawn_failed (Sim.instance "new00001" false)
           (Exn APIError "Failed to connect to the API socket after 3 attempts")
           (MicroVM.after_sleeps 3 w1).
Proof.
  destruct (MicroVM.launch (Sim.instance "new00001" false) Sim.w0) as [r w1] eqn:Hlaunch.
  assert (Hr : r = Ok (PStr "4243")).
  { apply (f_equal fst) in Hlaunch. vm_compute in Hlaunch. symmetry. exact Hlaunch. }
  subst r. exists w1. split; [reflexivity|].
  destruct (readiness_poll_bound (Sim.instance "new00001" false) (PStr "4243") 4243
              Sim.w0 w1 Hlaunch eq_refl)
    as (_ & _ & H & _).
  apply H. intros j Hj.
  assert (Hw : w1 = snd (MicroVM.launch (Sim.instance "new00001" false) Sim.w0))
    by (rewrite Hlaunch; reflexivity).
  subst w1.
  destruct j as [|[|[|j]]]; [split; vm_compute; reflexivity|
                              split; vm_compute; reflexivity|
                              split; vm_compute; reflexivity|lia].
Defined.

(** The third attempt is made: a socket that is there after two delays is
    found. *)
Example third_attempt_succeeds :
  let w := {| Sim.links := []; Sim.nat_table := None; Sim.filter_table := None;
              Sim.nft_available := true; Sim.files := [];
              Sim.socket_appears := Some ("/run/fc.socket", 2%nat);
              Sim.pid_lifetime := None; Sim.screen_pid := PInt 4243; Sim.clock := 0;
              Sim.registry := ∅; Sim.public_ip := ""; Sim.default_iface := "eth0";
              Sim.trace := [] |} in
  exists w',
    MicroVM.wait_for_socket 3 (PInt 4243) "/run/fc.socket" w = (Ok tt, w')
    /\ Sim.trace w' = [Sim.Sleep (1 # 2); Sim.Sleep (1 # 2); Sim.ApiNew "/run/fc.socket"].
Proof. eexists. split; vm_compute; reflexivity. Qed.

(** There is no fourth attempt: a socket that is there only after three
    delays is not found. *)
Example no_fourth_attempt :
  let w := {| Sim.links := []; Sim.nat_table := None; Sim.filter_table := None;
              Sim.nft_available := true; Sim.files := [];
              Sim.socket_appears := Some ("/run/fc.socket", 3%nat);
              Sim.pid_lifetime := None; Sim.screen_pid := PInt 4243; Sim.clock := 0;
              Sim.registry := ∅; Sim.public_ip := ""; Sim.default_iface := "eth0";
              Sim.trace := [] |} in
  exists w',
    MicroVM.wait_for_socket 3 (PInt 4243) "/run/fc.socket" w
    = (Raise (Exn APIError "Failed to connect to the API socket after 3 attempts"), w')
    /\ Sim.trace w' = [Sim.Sleep (1 # 2); Sim.Sleep (1 # 2); Sim.Sleep (1 # 2)]
    /\ path_exists (PStr "/run/fc.socket") w' = true.
Proof. eexists. split; [|split]; vm_compute; reflexivity. Qed.

(** A process that is gone is reported before the socket is looked at. *)
Example dead_process_first :
  let w := {| Sim.links := []; Sim.nat_table := None; Sim.filter_table := None;
              Sim.nft_available := true; Sim.files := ["/run/fc.socket"];
              Sim.socket_appears := None;
              Sim.pid_lifetime := Some 0%nat; Sim.screen_pid := PInt 4243; Sim.clock := 0;
              Sim.registry := ∅; Sim.public_ip := ""; Sim.default_iface := "eth0";
              Sim.trace := [] |} in
  MicroVM.wait_for_socket 3 (PInt 4243) "/run/fc.socket" w
  = (Raise (Exn ProcessError "Firecracker process is not running"), w).
Proof. vm_compute. reflexivity. Qed.

(** ** Pause and resume *)

Lemma sim_tracks_registry : VMM.tracks_registry Sim.registry.
Proof.
  intros id action w. unfold vmm_update_vmm_state. simpl. unfold Sim.sim_update_vmm_state.
  destruct (VMM.update_vmm_state id action (Sim.registry w)) as [r reg]. reflexivity.
Qed.

Lemma id_or_own_given (self : MicroVM.MicroVM) (id : string) :
  id <> "" -> MicroVM.id_or_own self (Some id) = id.
Proof.
  intros Hne. unfold MicroVM.id_or_own, Py.truthy.
  destruct (String.eqb_spec id ""); [contradiction|reflexivity].
Qed.

Section Lifecycle.
Context {W : Type} {host : Host W}.
Variable registry_of : W -> gmap string VMM.entry.
Hypothesis Htracks : VMM.tracks_registry registry_of.

(** A request with an arrow: the entry follows it. *)
Lemma update_follows_arrow (id action : string) (e : VMM.entry) (s : VMM.lifecycle) (w : W) :
  registry_of w !! id = Some e ->
  VMM.transition (VMM.state e) action = Some s ->
  exists r w',
    vmm_update_vmm_state id action w = (Ok r, w')
    /\ registry_of w' = <[id := VMM.with_state e s]> (registry_of w).
Proof.
  intros He Hs. pose proof (Htracks id action w) as H.
  unfold VMM.update_vmm_state in H. rewrite He in H.
  assert (Ht : exists t, VMM.target_state action = Some t).
  { unfold VMM.transition in Hs. destruct (VMM.target_state action) as [t|]; [eauto|].
    destruct (VMM.state e); discriminate. }
  destruct Ht as [t Ht]. rewrite Ht, Hs in H.
  destruct (vmm_update_vmm_state id action w) as [r w'].
  cbn [fst snd] in H.
  pose proof (f_equal fst H) as Hr. pose proof (f_equal snd H) as Hw.
  cbn [fst snd] in Hr, Hw. subst r.
  eexists _, w'. split; [reflexivity|exact Hw].
Qed.

(** A request without one: an error, and the registry stays as it is. *)
Lemma update_without_arrow (id action : string) (e : VMM.entry) (w : W) :
  registry_of w !! id = Some e ->
  VMM.transition (VMM.state e) action = None ->
  exists m w',
    vmm_update_vmm_state id action w = (Raise (Exn VMMError m), w')
    /\ registry_of w' = registry_of w.
Proof.
  intros He Hs. pose proof (Htracks id action w) as H.
  unfold VMM.update_vmm_state in H. rewrite He, Hs in H.
  destruct (vmm_update_vmm_state id action w) as [r w'].
  cbn [fst snd] in H.
  destruct (VMM.target_state action) as [t|];
    pose proof (f_equal fst H) as Hr; pose proof (f_equal snd H) as Hw;
    cbn [fst snd] in Hr, Hw; subst r;
    (eexists _, w'; split; [reflexivity|exact Hw]).
Qed.

(** Whatever becomes of the request, a registered id stays registered. *)
Lemma update_keeps_entry (id action : string) (e : VMM.entry) (w : W) :
  registry_of w !! id = Some e ->
  exists e', registry_of (snd (vmm_update_vmm_state id action w)) !! id = Some e'.
Proof.
  intros He.
  destruct (VMM.transition (VMM.state e) action) as [s|] eqn:Hs.
  - destruct (update_follows_arrow id action e s w He Hs) as (r & w' & Hup & Hreg).
    rewrite Hup. cbn [snd]. rewrite Hreg, lookup_insert_eq. eauto.
  - destruct (update_without_arrow id action e w He Hs) as (m & w' & Hup & Hreg).
    rewrite Hup. cbn [snd]. rewrite Hreg. eauto.
Qed.

(** [pause] and [resume] hand the request on, and wrap what it raises. *)
Lemma pause_calls_update (self : MicroVM.MicroVM) (id : string) (w : W) :
  id <> "" ->
  MicroVM.pause self (Some id) [] w
  = MicroVM.wrap_VMMError (vmm_update_vmm_state id "Paused") w.
Proof. intros Hne. unfold MicroVM.pause. rewrite (id_or_own_given self id Hne). reflexivity. Qed.

Lemma resume_calls_update (self : MicroVM.MicroVM) (id : string) (w : W) :
  id <> "" ->
  MicroVM.resume self (Some id) [] w
  = MicroVM.wrap_VMMError (vmm_update_vmm_state id "Resumed") w.
Proof. intros Hne. unfold MicroVM.resume. rewrite (id_or_own_given self id Hne). reflexivity. Qed.

Lemma wrap_snd {A : Type} (m : M W A) (w : W) :
  snd (MicroVM.wrap_VMMError m w) = snd (m w).
Proof.
  unfold MicroVM.wrap_VMMError, try_except. destruct (m w) as [[a|e] w']; reflexivity.
Qed.

End Lifecycle.

(** C3, as stated, fails on the registry of the specification: [Stopped] is
    terminal, so after [pause] or [resume] of a stopped VM its entry is still
    [Stopped]. *)
Lemma pause_of_stopped_entry :
  let w := Sim.set_registry {["abc12345" := VMM.with_state Sim.vm1 VMM.Stopped]} Sim.w0 in
  VMM.state
    <$> Sim.registry
          (snd (MicroVM.pause (Sim.instance "zzz00000" false) (Some "abc12345") [] w))
        !! "abc12345" = Some VMM.Stopped
  /\ VMM.state
       <$> Sim.registry
             (snd (MicroVM.resume (Sim.instance "zzz00000" false) (Some "abc12345") [] w))
           !! "abc12345" = Some VMM.Stopped.
Proof. cbv zeta. split; vm_compute; reflexivity. Qed.

(** C3, amended. On a host whose registry is the modelled one, [pause(id)]
    of a registered id in state [Running] returns normally and leaves the
    entry in state [Paused]; [resume(id)] of one in state [Paused] leaves it
    in state [Running]; only the state of that entry changes. On an entry in
    state [Stopped] neither changes the registry. After either operation the
    id is still registered, in one of the four lifecycle states. *)
Theorem pause_resume_transition {W : Type} {host : Host W}
    (registry_of : W -> gmap string VMM.entry)
    (self : MicroVM.MicroVM) (id : string) (e : VMM.entry) (w : W) :
  VMM.tracks_registry registry_of ->
  id <> "" ->
  registry_of w !! id = Some e ->
  (VMM.state e = VMM.Running ->
   exists r w',
     MicroVM.pause self (Some id) [] w = (Ok r, w')
     /\ registry_of w' = <[id := VMM.with_state e VMM.Paused]> (registry_of w)
     /\ VMM.state <$> registry_of w' !! id = Some VMM.Paused)
  /\ (VMM.state e = VMM.Paused ->
      exists r w',
        MicroVM.resume self (Some id) [] w = (Ok r, w')
        /\ registry_of w' = <[id := VMM.with_state e VMM.Running]> (registry_of w)
        /\ VMM.state <$> registry_of w' !! id = Some VMM.Running)
  /\ (VMM.state e = VMM.Stopped ->
      forall op, In op [MicroVM.pause; MicroVM.resume] ->
      registry_of (snd (op self (Some id) [] w)) = registry_of w)
  /\ (forall op, In op [MicroVM.pause; MicroVM.resume] ->
      exists e',
        registry_of (snd (op self (Some id) [] w)) !! id = Some e'
        /\ In (VMM.state e') [VMM.Configuring; VMM.Running; VMM.Paused; VMM.Stopped]).
Proof.
  intros Htracks Hne He.
  split; [|split; [|split]].
  - intros Hs.
    destruct (update_follows_arrow registry_of Htracks id "Paused" e VMM.Paused w He)
      as (r & w' & Hup & Hreg); [rewrite Hs; reflexivity|].
    exists r, w'. rewrite (pause_calls_update self id w Hne).
    unfold MicroVM.wrap_VMMError, try_except. rewrite Hup.
    split; [reflexivity|]. split; [exact Hreg|].
    rewrite Hreg, lookup_insert_eq. reflexivity.
  - intros Hs.
    destruct (update_follows_arrow registry_of Htracks id "Resumed" e VMM.Running w He)
      as (r & w' & Hup & Hreg); [rewrite Hs; reflexivity|].
    exists r, w'. rewrite (resume_calls_update self id w Hne).
    unfold MicroVM.wrap_VMMError, try_except. rewrite Hup.
    split; [reflexivity|]. split; [exact Hreg|].
    rewrite Hreg, lookup_insert_eq. reflexivity.
  - intros Hs op Hop. simpl in Hop. destruct Hop as [<-|[<-|[]]].
    + destruct (update_without_arrow registry_of Htracks id "Paused" e w He)
        as (m & w' & Hup & Hreg); [rewrite Hs; reflexivity|].
      rewrite (pause_calls_update self id w Hne), wrap_snd, Hup. exact Hreg.
    + destruct (update_without_arrow registry_of Htracks id "Resumed" e w He)
        as (m & w' & Hup & Hreg); [rewrite Hs; reflexivity|].
      rewrite (resume_calls_update self id w Hne), wrap_snd, Hup. exact Hreg.
  - intros op Hop. simpl in Hop.
    assert (Hfour : forall s,
              In s [VMM.Configuring; VMM.Running; VMM.Paused; VMM.Stopped])
      by (intros []; simpl; tauto).
    destruct Hop as [<-|[<-|[]]].
    + rewrite (pause_calls_update self id w Hne), wrap_snd.
      destruct (update_keeps_entry registry_of Htracks id "Paused" e w He) as [e' He'].
      exists e'. split; [exact He'|apply Hfour].
    + rewrite (resume_calls_update self id w Hne), wrap_snd.
      destruct (update_keeps_entry registry_of Htracks id "Resumed" e w He) as [e' He'].
      exists e'. split; [exact He'|apply Hfour].
Qed.

(** A running VM is paused, and the paused VM resumed, from another
    instance. *)
Lemma pause_resume_transition_witness :
  exists r1 w1 r2 w2,
    MicroVM.pause (Sim.instance "zzz00000" false) (Some "abc12345") [] Sim.w0 = (Ok r1, w1)
    /\ VMM.state <$> Sim.registry w1 !! "abc12345" = Some VMM.Paused
    /\ MicroVM.resume (Sim.instance "zzz00000" false) (Some "abc12345") [] w1 = (Ok r2, w2)
    /\ VMM.state <$> Sim.registry w2 !! "abc12345" = Some VMM.Running.
Proof.
  assert (Hne : "abc12345" <> "") by discriminate.
  assert (He : Sim.registry Sim.w0 !! "abc12345" = Some Sim.vm1) by reflexivity.
  destruct (pause_resume_transition Sim.registry (Sim.instance "zzz00000" false)
              "abc12345" Sim.vm1 Sim.w0 sim_tracks_registry Hne He)
    as (Hpause & _).
  destruct (Hpause eq_refl) as (r1 & w1 & Hp & Hreg1 & Hs1).
  assert (He1 : Sim.registry w1 !! "abc12345" = Some (VMM.with_state Sim.vm1 VMM.Paused)).
  { rewrite Hreg1. apply lookup_insert_eq. }
  destruct (pause_resume_transition Sim.registry (Sim.instance "zzz00000" false)
              "abc12345" (VMM.with_state Sim.vm1 VMM.Paused) w1 sim_tracks_registry Hne He1)
    as (_ & Hresume & _).
  destruct (Hresume eq_refl) as (r2 & w2 & Hr & _ & Hs2).
  exists r1, w1, r2, w2. repeat split; assumption.
Defined.

(** ** Tap devices *)

(** C9, as stated, fails twice. An uplink name of 17 characters is rejected
    before anything is done, but with [ValueError]. A tap name of 17
    characters is not looked at: the device is requested from the kernel, and
    the error that comes back is a network error. *)
Lemma create_tap_long_names :
  Network.create_tap {| Network.nm_config := Config.MicroVMConfig |}
    (PStr "tap_abc12345") (PStr "enp0s31f6-uplink0") (PStr "172.16.0.1") (PBool false) Sim.w1
  = (Raise (Exn ValueError "iface_name must not exceed 16 characters"), Sim.w1)
  /\ exists w',
       Network.create_tap {| Network.nm_config := Config.MicroVMConfig |}
         (PStr "tap_abcdefghijklm") (PStr "eth0") (PStr "172.16.0.1") (PBool false) Sim.w1
       = (Raise (Exn NetworkError
            "Failed to create tap device tap_abcdefghijklm: Numerical result out of range"),
          w')
       /\ Sim.trace w' = [Sim.LinkAdd (PStr "tap_abcdefghijklm")].
Proof.
  split; [vm_compute; reflexivity|].
  eexists. split; vm_compute; reflexivity.
Qed.

(** C9, amended. A missing or empty tap name raises a configuration error,
    and with a tap name given an uplink interface name of more than 16
    characters raises [ValueError]; in both cases the world is untouched: no
    device is created, no address assigned, no rule installed. *)
Theorem create_tap_rejects_before_mutation {W : Type} {host : Host W}
    (nm : Network.NetworkManager) (name iface_name gateway_ip bridge : pyval) (w : W) :
  (Py.truthy name = false ->
   Network.create_tap nm name iface_name gateway_ip bridge w
   = (Raise (Exn ConfigurationError "Tap device name is required"), w))
  /\ (forall s, Py.truthy name = true -> iface_name = PStr s ->
        (16 < String.length s)%nat ->
        Network.create_tap nm name iface_name gateway_ip bridge w
        = (Raise (Exn ValueError "iface_name must not exceed 16 characters"), w)).
Proof.
  split.
  - intros Hname. unfold Network.create_tap. unfold bind at 1. unfold lift, or_else, rbind.
    rewrite Hname. reflexivity.
  - intros s Hname -> Hlen. unfold Network.create_tap.
    unfold bind at 1. unfold lift, or_else, rbind. rewrite Hname. cbn [negb].
    assert (Hs : Py.truthy (PStr s) = true).
    { destruct s; [simpl in Hlen; lia|reflexivity]. }
    rewrite Hs. cbn [Py.len].
    assert (Hlt : (16 <? Z.of_nat (String.length s)) = true) by (apply Z.ltb_lt; lia).
    rewrite Hlt. reflexivity.
Qed.

Lemma create_tap_rejects_before_mutation_witness :
  Network.create_tap {| Network.nm_config := Config.MicroVMConfig |}
    PNone (PStr "eth0") (PStr "172.16.0.1") (PBool false) Sim.w1
  = (Raise (Exn ConfigurationError "Tap device name is required"), Sim.w1)
  /\ Network.create_tap {| Network.nm_config := Config.MicroVMConfig |}
       (PStr "tap_abc12345") (PStr "enp0s31f6-uplink0") (PStr "172.16.0.1") (PBool false)
       Sim.w1
     = (Raise (Exn ValueError "iface_name must not exceed 16 characters"), Sim.w1).
Proof.
  split.
  - apply (create_tap_rejects_before_mutation {| Network.nm_config := Config.MicroVMConfig |}
             PNone (PStr "eth0") (PStr "172.16.0.1") (PBool false) Sim.w1).
    reflexivity.
  - apply (create_tap_rejects_before_mutation {| Network.nm_config := Config.MicroVMConfig |}
             (PStr "tap_abc12345") (PStr "enp0s31f6-uplink0") (PStr "172.16.0.1")
             (PBool false) Sim.w1) with (s := "enp0s31f6-uplink0").
    + reflexivity.
    + reflexivity.
    + simpl. lia.
Defined.

(** ** Teardown of state that is not there *)

Lemma rfold_stays {A S : Type} (f : S -> A -> result S) (l : list A) (s : S) :
  (forall x, In x l -> f s x = Ok s) -> rfold f l s = Ok s.
Proof.
  induction l as [|x l IH]; intros H; [reflexivity|].
  simpl. rewrite (H x) by (left; reflexivity). simpl. apply IH.
  intros y Hy. apply H. right. exact Hy.
Qed.

(** C10, as stated, fails: on a host that has no table [ip nat] the listing
    is refused, and [delete_port_forward] raises a network error although
    there is no rule of the mapping, and nothing to delete. *)
Lemma delete_port_forward_without_nat_table :
  Sim.nat_table Sim.w0 = None
  /\ Network.delete_port_forward (PStr "203.0.113.5") (PInt 8080) (PStr "172.16.0.2")
       (PInt 80) Sim.w0
     = (Raise (Exn NetworkError
          "Failed to get nftables rules: string indices must be integers, not 'str'"),
        Sim.w0).
Proof. split; vm_compute; reflexivity. Qed.

(** C10, amended. [delete_tap] on a name that no link answers to, and
    [delete_port_forward] for a mapping of which the listed nat table holds
    no rule, both return normally and leave the world as it was. When the
    answer to the listing is not a listing, [delete_port_forward] raises a
    network error, and leaves the world as it was too. *)
Theorem teardown_of_absent_state_is_noop {W : Type} {host : Host W} (w : W) :
  (forall name, link_lookup name w = [] -> Network.delete_tap name w = (Ok tt, w))
  /\ (forall host_ip host_port dest_ip dest_port rc output error items,
        nft_json_cmd (Network.list_table_cmd "nat") w = (Ok (rc, output, error), w) ->
        Json.getitem output "nftables" = Ok (JList items) ->
        (forall item, In item items ->
           Network.port_forward_step host_ip host_port dest_ip dest_port ∅ item = Ok ∅) ->
        Network.delete_port_forward host_ip host_port dest_ip dest_port w = (Ok tt, w))
  /\ (forall host_ip host_port dest_ip dest_port rc output error e,
        nft_json_cmd (Network.list_table_cmd "nat") w = (Ok (rc, output, error), w) ->
        Json.getitem output "nftables" = Raise e ->
        Network.delete_port_forward host_ip host_port dest_ip dest_port w
        = (Raise (Exn NetworkError ("Failed to get nftables rules: " +:+ exn_msg e)), w)).
Proof.
  split; [|split].
  - intros name Hname. unfold Network.delete_tap, Network.check_tap_device.
    unfold bind at 1. unfold try_except. unfold bind at 1. unfold read at 1.
    rewrite Hname. reflexivity.
  - intros host_ip host_port dest_ip dest_port rc output error items Hlist Hout Hnone.
    unfold Network.delete_port_forward, Network.get_port_forward_handles.
    unfold bind at 1. unfold try_except at 1. unfold bind at 1. rewrite Hlist.
    unfold lift. rewrite Hout. cbn [rbind Json.iter].
    rewrite (rfold_stays _ items ∅ Hnone). reflexivity.
  - intros host_ip host_port dest_ip dest_port rc output error e Hlist Hout.
    unfold Network.delete_port_forward, Network.get_port_forward_handles.
    unfold bind at 1. unfold try_except at 1. unfold bind at 1. rewrite Hlist.
    unfold lift. rewrite Hout. reflexivity.
Qed.

(** An item of the listing that is not a rule yields no handle. *)
Lemma port_forward_step_not_rule (host_ip host_port dest_ip dest_port : pyval)
    (rules : gmap string json) (item : json) :
  Json.has "rule" item = Ok false ->
  Network.port_forward_step host_ip host_port dest_ip dest_port rules item = Ok rules.
Proof. intros H. unfold Network.port_forward_step. rewrite H. reflexivity. Qed.

(** No tap device of that name, and a nat table that holds the forward of
    another VM only. *)
Lemma teardown_of_absent_state_is_noop_witness :
  Network.delete_tap (PStr "tap_abc12345") Sim.w1 = (Ok tt, Sim.w1)
  /\ Network.delete_port_forward (PStr "203.0.113.5") (PInt 8080) (PStr "172.16.0.2")
       (PInt 80) Sim.w1 = (Ok tt, Sim.w1)
  /\ exists m,
       Network.delete_port_forward (PStr "203.0.113.5") (PInt 8080) (PStr "172.16.0.2")
         (PInt 80) Sim.w0 = (Raise (Exn NetworkError m), Sim.w0).
Proof.
  destruct (teardown_of_absent_state_is_noop Sim.w1) as (Htap & Hfwd & _).
  destruct (teardown_of_absent_state_is_noop Sim.w0) as (_ & _ & Hfail).
  split; [|split].
  - apply Htap. reflexivity.
  - apply (Hfwd (PStr "203.0.113.5") (PInt 8080) (PStr "172.16.0.2") (PInt 80)
             0 (JDict [("nftables", JList Sim.other_forward)]) "" Sim.other_forward).
    + reflexivity.
    + reflexivity.
    + intros item Hin. simpl in Hin.
      repeat (destruct Hin as [<-|Hin]; [vm_compute; reflexivity|]). contradiction.
  - eexists.
    apply (Hfail (PStr "203.0.113.5") (PInt 8080) (PStr "172.16.0.2") (PInt 80)
             1 (JS "") "Error: No such file or directory").
    + reflexivity.
    + reflexivity.
Defined.

(** The mapping that is there is found and removed, for comparison. *)
Example delete_existing_forward :
  exists w',
    Network.delete_port_forward (PStr "203.0.113.5") (PInt 2222) (PStr "172.16.9.2")
      (PInt 22) Sim.w1 = (Ok tt, w')
    /\ Sim.trace w'
       = [Sim.NftCmd "delete rule nat prerouting handle 13";
          Sim.NftCmd "delete rule nat postrouting handle 14"].
Proof. eexists. split; vm_compute; reflexivity. Qed.

(** ** Port forwarding *)

(** The rule a forward of (host IP, host port) to (VM IP, destination port)
    calls for, and the rule built when the VM id is passed first. *)
Lemma prerouting_rule_summary (host_ip host_port dest_ip dest_port protocol : pyval) :
  Spec.prerouting_summary
    (Network.port_forward_prerouting_rule host_ip host_port dest_ip dest_port protocol)
  = Ok (JVal host_ip, JVal host_port, JVal dest_ip, JVal dest_port).
Proof. reflexivity. Qed.

(** C2 does not hold of the code. [port_forward] passes the VM id as first
    argument to [add_port_forward], which has no such parameter: every
    argument lands one position late. For VM [abc12345] at 172.16.0.2, host
    address 203.0.113.5, host port 8080 and destination port 80, the rule
    submitted matches destination address ["abc12345"] and destination port
    ["203.0.113.5"], and rewrites to address [8080] and port ["172.16.0.2"];
    the protocol is [80]. With [remove=True] the arguments are passed in the
    order [delete_port_forward] expects. *)
Theorem port_forward_shifts_arguments :
  exists w',
    MicroVM.port_forward (Sim.instance "abc12345" false) (Some "abc12345")
      (PInt 8080) (PInt 80) (PBool false) [] Sim.w1
    = (Ok (PStr "Port forwarding active: 203.0.113.5:8080 -> 172.16.0.2:80"), w')
    /\ Sim.trace w'
       = [Sim.NftJson
            (Network.port_forward_cmd (PStr "abc12345") (PStr "203.0.113.5") (PInt 8080)
               (PStr "172.16.0.2") (PInt 80))]
    /\ Spec.prerouting_summary
         (Network.port_forward_prerouting_rule (PStr "abc12345") (PStr "203.0.113.5")
            (PInt 8080) (PStr "172.16.0.2") (PInt 80))
       = Ok (JS "abc12345", JS "203.0.113.5", JI 8080, JS "172.16.0.2")
    /\ Spec.prerouting_summary
         (Network.port_forward_prerouting_rule (PStr "abc12345") (PStr "203.0.113.5")
            (PInt 8080) (PStr "172.16.0.2") (PInt 80))
       <> Ok (JS "203.0.113.5", JI 8080, JS "172.16.0.2", JI 80).
Proof.
  eexists. split; [vm_compute; reflexivity|].
  split; [vm_compute; reflexivity|].
  split; [reflexivity|].
  rewrite prerouting_rule_summary. discriminate.
Qed.

(** On any host, the command that is submitted is built from the shifted
    arguments. *)
Lemma port_forward_submits {W : Type} {host : Host W} (self : MicroVM.MicroVM)
    (id host_ip : string) (host_port dest_port dest_ip : pyval)
    (vmms : list json) (ids : list json) (w w1 w2 : W) :
  id <> "" ->
  vmms <> [] ->
  vmm_list_vmms w = (Ok vmms, w) ->
  MicroVM.vmm_ids vmms = Ok ids ->
  MicroVM.id_in id ids = true ->
  Utils.get_public_ip w = (Ok host_ip, w1) ->
  vmm_get_vmm_ip_addr id w1 = (Ok dest_ip, w2) ->
  MicroVM.port_forward self (Some id) host_port dest_port (PBool false) [] w
  = match nft_json_cmd
            (Network.port_forward_cmd (PStr id) (PStr host_ip) host_port dest_ip dest_port) w2
    with
    | (Ok _, w3) =>
        (Ok (PStr ("Port forwarding active: " +:+ host_ip +:+ ":" +:+ Py.str host_port
                     +:+ " -> " +:+ Py.str dest_ip +:+ ":" +:+ Py.str dest_port)), w3)
    | (Raise e, w3) => (Raise (Exn VMMError (exn_msg e)), w3)
    end.
Proof.
  intros Hne Hvm Hlist Hids Hin Hip Hdest.
  unfold MicroVM.port_forward, MicroVM.wrap_VMMError, try_except.
  unfold bind at 1. rewrite Hlist.
  destruct vmms as [|v vmms']; [contradiction|].
  unfold bind at 1. rewrite Hlist.
  unfold bind at 1. unfold lift. rewrite Hids.
  rewrite (id_or_own_given self id Hne), Hin. cbn [negb].
  unfold bind at 1. rewrite Hip.
  unfold bind at 1. rewrite Hdest.
  cbn [Py.truthy]. unfold Network.add_port_forward.
  unfold bind at 1. unfold bind at 1.
  destruct (nft_json_cmd _ w2) as [[r|e] w3]; reflexivity.
Qed.

(** Removal, for comparison: the lookup is made for the mapping itself. *)
Example port_forward_remove :
  exists w',
    MicroVM.port_forward (Sim.instance "ssh00001" false) (Some "abc12345")
      (PInt 2222) (PInt 22) (PBool true) []
      (Sim.set_registry
         {["abc12345" := {| VMM.state := VMM.Running; VMM.pid := 4242; VMM.socket_path := "";
                            VMM.ip_addr := "172.16.9.2"; VMM.name := "fc-vm" |}]} Sim.w1)
    = (Ok (PStr "Port forwarding rule removed: 203.0.113.5:2222 -> 172.16.9.2:22"), w')
    /\ Sim.trace w'
       = [Sim.NftCmd "delete rule nat prerouting handle 13";
          Sim.NftCmd "delete rule nat postrouting handle 14"].
Proof. eexists. split; vm_compute; reflexivity. Qed.

(** ** Gateway derivation *)

(** *** Splitting and joining *)

Lemma ascii_eqb_sym (a b : ascii) : Ascii.eqb a b = Ascii.eqb b a.
Proof.
  destruct (Ascii.eqb_spec a b) as [->|Hne].
  - symmetry. apply Ascii.eqb_refl.
  - symmetry. apply Ascii.eqb_neq. congruence.
Qed.

Lemma split_not_nil (sep : ascii) (s : string) : PyStr.split sep s <> [].
Proof.
  destruct s as [|c s]; simpl; [discriminate|].
  destruct (Ascii.eqb c sep); [discriminate|].
  destruct (PyStr.split sep s); discriminate.
Qed.

Lemma split_no_sep (sep : ascii) (s : string) :
  PyStr.mem_char sep s = false -> PyStr.split sep s = [s].
Proof.
  induction s as [|c s IH]; simpl; [reflexivity|].
  rewrite (ascii_eqb_sym sep c). intros H. apply orb_false_iff in H as [Hc Hs].
  rewrite Hc, (IH Hs). reflexivity.
Qed.

Lemma split_app_sep (sep : ascii) (x rest : string) :
  PyStr.mem_char sep x = false ->
  PyStr.split sep (x +:+ String sep rest) = x :: PyStr.split sep rest.
Proof.
  induction x as [|c x IH]; simpl.
  - intros _. rewrite Ascii.eqb_refl. reflexivity.
  - rewrite (ascii_eqb_sym sep c). intros H. apply orb_false_iff in H as [Hc Hx].
    rewrite Hc, (IH Hx). reflexivity.
Qed.

Lemma split_join (sep : ascii) (l : list string) :
  l <> [] ->
  Forall (fun x => PyStr.mem_char sep x = false) l ->
  PyStr.split sep (PyStr.join (String sep "") l) = l.
Proof.
  induction l as [|x l IH]; [congruence|].
  intros _ Hall. inversion Hall as [|? ? Hx Hl]; subst.
  destruct l as [|y l].
  - simpl. apply split_no_sep, Hx.
  - change (PyStr.join (String sep "") (x :: y :: l))
      with (x +:+ String sep "" +:+ PyStr.join (String sep "") (y :: l)).
    change (String sep "" +:+ PyStr.join (String sep "") (y :: l))
      with (String sep (PyStr.join (String sep "") (y :: l))).
    rewrite split_app_sep by exact Hx.
    rewrite IH; [reflexivity|discriminate|exact Hl].
Qed.

Lemma join_two_not_empty (sep : ascii) (x y : string) (l : list string) :
  PyStr.join (String sep "") (x :: y :: l) <> "".
Proof.
  change (PyStr.join (String sep "") (x :: y :: l))
    with (x +:+ String sep (PyStr.join (String sep "") (y :: l))).
  destruct x; discriminate.
Qed.

(** *** Hexadecimal digits *)

Lemma hex_digit_cases (d : Z) :
  0 <= d < 16 ->
  In d [0; 1; 2; 3; 4; 5; 6; 7; 8; 9; 10; 11; 12; 13; 14; 15].
Proof. intros H. simpl. lia. Qed.

Lemma hex_value_digit (d : Z) :
  0 <= d < 16 -> IpAddress.hex_value (IpAddress.hex_digit d) = Some d.
Proof.
  intros H. apply hex_digit_cases in H. simpl in H.
  repeat (destruct H as [<-|H]; [reflexivity|]). contradiction.
Qed.

Lemma hex_digit_plain (d : Z) :
  0 <= d < 16 ->
  IpAddress.is_hex (IpAddress.hex_digit d) = true
  /\ Ascii.eqb ":" (IpAddress.hex_digit d) = false
  /\ Ascii.eqb "." (IpAddress.hex_digit d) = false.
Proof.
  intros H. apply hex_digit_cases in H. simpl in H.
  repeat (destruct H as [<-|H]; [repeat split; reflexivity|]). contradiction.
Qed.

Lemma append_cons (x : ascii) (a b : string) : String x a +:+ b = String x (a +:+ b).
Proof. reflexivity. Qed.

Lemma append_empty_r (a : string) : a +:+ "" = a.
Proof. induction a as [|x a IH]; [reflexivity|]. rewrite append_cons, IH. reflexivity. Qed.

Lemma append_assoc (a b c : string) : (a +:+ b) +:+ c = a +:+ (b +:+ c).
Proof.
  induction a as [|x a IH]; [reflexivity|]. rewrite !append_cons, IH. reflexivity.
Qed.

Lemma length_append (a b : string) :
  String.length (a +:+ b) = (String.length a + String.length b)%nat.
Proof.
  induction a as [|x a IH]; [reflexivity|]. rewrite append_cons. simpl. rewrite IH.
  reflexivity.
Qed.

Lemma all_chars_append (p : ascii -> bool) (a b : string) :
  PyStr.all_chars p (a +:+ b) = PyStr.all_chars p a && PyStr.all_chars p b.
Proof.
  induction a as [|x a IH]; [reflexivity|]. rewrite append_cons. simpl. rewrite IH.
  apply andb_assoc.
Qed.

Lemma mem_char_append (c : ascii) (a b : string) :
  PyStr.mem_char c (a +:+ b) = PyStr.mem_char c a || PyStr.mem_char c b.
Proof.
  induction a as [|x a IH]; [reflexivity|]. rewrite append_cons. simpl. rewrite IH.
  apply orb_assoc.
Qed.

Lemma int16_append (a b : string) (acc : Z) :
  IpAddress.int16 acc (a +:+ b) = IpAddress.int16 (IpAddress.int16 acc a) b.
Proof.
  revert acc. induction a as [|x a IH]; intros acc; [reflexivity|].
  rewrite append_cons. simpl. apply IH.
Qed.

Lemma hex_fixed_length (k : nat) (n : Z) : String.length (IpAddress.hex_fixed k n) = k.
Proof.
  revert n. induction k as [|k IH]; intros n; simpl; [reflexivity|].
  rewrite length_append, IH. simpl. lia.
Qed.

Lemma hex_fixed_plain (k : nat) (n : Z) :
  PyStr.all_chars IpAddress.is_hex (IpAddress.hex_fixed k n) = true
  /\ PyStr.mem_char ":" (IpAddress.hex_fixed k n) = false
  /\ PyStr.mem_char "." (IpAddress.hex_fixed k n) = false.
Proof.
  revert n. induction k as [|k IH]; intros n; simpl; [repeat split; reflexivity|].
  destruct (IH (n / 16)) as (Hh & Hc & Hd).
  destruct (hex_digit_plain (n mod 16)) as (Hh' & Hc' & Hd');
    [apply Z.mod_pos_bound; lia|].
  rewrite all_chars_append, !mem_char_append, Hh, Hc, Hd.
  cbn [PyStr.all_chars PyStr.mem_char].
  rewrite Hh', Hc', Hd'. repeat split; reflexivity.
Qed.

Lemma int16_hex_fixed (k : nat) (n acc : Z) :
  IpAddress.int16 acc (IpAddress.hex_fixed k n) = acc * 16 ^ Z.of_nat k + n mod 16 ^ Z.of_nat k.
Proof.
  revert n acc. induction k as [|k IH]; intros n acc.
  - simpl. rewrite Z.mod_1_r. lia.
  - cbn [IpAddress.hex_fixed]. rewrite int16_append, IH. cbn [IpAddress.int16].
    rewrite hex_value_digit by (apply Z.mod_pos_bound; lia).
    change (default 0 (Some (n mod 16))) with (n mod 16).
    rewrite Nat2Z.inj_succ, Z.pow_succ_r by lia.
    rewrite (Z.rem_mul_r n 16 (16 ^ Z.of_nat k)) by lia. ring.
Qed.

Lemma hex_fixed_add (a b : nat) (n : Z) :
  IpAddress.hex_fixed (a + b) n
  = IpAddress.hex_fixed a (n / 16 ^ Z.of_nat b) +:+ IpAddress.hex_fixed b n.
Proof.
  revert n. induction b as [|b IH]; intros n.
  - rewrite Nat.add_0_r. simpl. rewrite Z.div_1_r, append_empty_r. reflexivity.
  - rewrite Nat.add_succ_r. cbn [IpAddress.hex_fixed]. rewrite IH, append_assoc.
    rewrite Z.div_div by lia.
    rewrite Nat2Z.inj_succ, Z.pow_succ_r by lia. reflexivity.
Qed.

(** *** Hextets: a hextet text and the value it parses to *)

Lemma string_eqb_empty_length (s : string) :
  (0 < String.length s)%nat -> String.eqb s "" = false.
Proof. destruct s; simpl; [lia|reflexivity]. Qed.

(** A fixed-width group of at most four digits parses to its value. *)
Lemma parse_hex_fixed (k : nat) (v : Z) :
  (1 <= k <= 4)%nat -> 0 <= v < 16 ^ Z.of_nat k ->
  IpAddress._parse_hextet (IpAddress.hex_fixed k v) = Ok v.
Proof.
  intros Hk Hv. unfold IpAddress._parse_hextet.
  destruct (hex_fixed_plain k v) as (Hh & _ & _). rewrite Hh. cbn [negb].
  rewrite hex_fixed_length.
  replace (4 <? k)%nat with false by (symmetry; apply Nat.ltb_ge; lia).
  rewrite string_eqb_empty_length by (rewrite hex_fixed_length; lia).
  rewrite int16_hex_fixed, Z.mod_small by lia. f_equal; lia.
Qed.

Lemma hex_len_bounds (v : Z) :
  0 <= v < 65536 ->
  (1 <= IpAddress.hex_len v <= 4)%nat /\ v < 16 ^ Z.of_nat (IpAddress.hex_len v).
Proof.
  intros Hv. unfold IpAddress.hex_len.
  destruct (Z.leb_spec v 0) as [H0|Hpos].
  - split; [lia|]. assert (v = 0) by lia. subst. reflexivity.
  - assert (HL : 0 <= Z.log2 v < 16).
    { split; [apply Z.log2_nonneg|]. apply Z.log2_lt_pow2; lia. }
    assert (Hq : 0 <= Z.log2 v / 4 < 4).
    { split; [apply Z.div_pos; lia|apply Z.div_lt_upper_bound; lia]. }
    split; [lia|].
    rewrite Nat2Z.inj_succ, Z2Nat.id by lia.
    change 16 with (2 ^ 4). rewrite <- Z.pow_mul_r by lia.
    apply Z.lt_le_trans with (2 ^ Z.succ (Z.log2 v)).
    + apply Z.log2_spec. lia.
    + apply Z.pow_le_mono_r; [lia|].
      pose proof (Z.mul_succ_div_gt (Z.log2 v) 4). lia.
Qed.

Lemma format_x_good (v : Z) :
  0 <= v < 65536 ->
  IpAddress._parse_hextet (IpAddress.format_x v) = Ok v
  /\ String.eqb (IpAddress.format_x v) "" = false
  /\ PyStr.mem_char ":" (IpAddress.format_x v) = false
  /\ PyStr.mem_char "." (IpAddress.format_x v) = false
  /\ String.eqb (IpAddress.format_x v) "0" = (v =? 0).
Proof.
  intros Hv. destruct (hex_len_bounds v Hv) as [Hk Hlt]. unfold IpAddress.format_x.
  destruct (hex_fixed_plain (IpAddress.hex_len v) v) as (_ & Hc & Hd).
  assert (Hparse := parse_hex_fixed (IpAddress.hex_len v) v Hk (conj (proj1 Hv) Hlt)).
  split; [exact Hparse|].
  split; [apply string_eqb_empty_length; rewrite hex_fixed_length; lia|].
  split; [exact Hc|]. split; [exact Hd|].
  destruct (Z.eqb_spec v 0) as [->|Hne]; [reflexivity|].
  apply String.eqb_neq. intros Heq. rewrite Heq in Hparse.
  vm_compute in Hparse. congruence.
Qed.

(** *** The scan for the longest run of zero hextets *)

Lemma scan_step (H : list string) (pre : list string) (x : string) (l : list string)
    (st : IpAddress.zero_run) :
  H = pre ++ x :: l ->
  Spec.scan_inv H (Z.of_nat (length pre)) st ->
  Spec.scan_inv H (Z.of_nat (length (pre ++ [x])))
    (IpAddress.compress_step st (Z.of_nat (length pre), x)).
Proof.
  intros HH (Hb0 & Hbest & Hc0 & Hcz & Hcur).
  rewrite length_app. cbn [length]. rewrite Nat2Z.inj_add. change (Z.of_nat 1) with 1.
  unfold IpAddress.compress_step.
  destruct (String.eqb_spec x "0") as [->|Hx].
  - assert (Hrun : Spec.run_of_zeros H
               (if IpAddress.doublecolon_start st =? -1 then Z.of_nat (length pre)
                else IpAddress.doublecolon_start st)
               (IpAddress.doublecolon_len st + 1)
             /\ 0 <= (if IpAddress.doublecolon_start st =? -1 then Z.of_nat (length pre)
                      else IpAddress.doublecolon_start st)
             /\ (if IpAddress.doublecolon_start st =? -1 then Z.of_nat (length pre)
                 else IpAddress.doublecolon_start st) + (IpAddress.doublecolon_len st + 1)
                = Z.of_nat (length pre) + 1).
    { destruct (Z.eq_dec (IpAddress.doublecolon_len st) 0) as [Hz|Hnz].
      - rewrite (Hcz Hz), Hz. cbn. split; [|lia].
        intros j Hj. assert (j = length pre) by lia. subst j H. apply nth_middle.
      - destruct Hcur as (Hs & He & Hr); [lia|].
        destruct (Z.eqb_spec (IpAddress.doublecolon_start st) (-1)) as [Hm|_]; [lia|].
        split; [|lia]. intros j Hj.
        destruct (Z.eq_dec (Z.of_nat j) (Z.of_nat (length pre))) as [Hjl|Hjl].
        + assert (j = length pre) by lia. subst j H. apply nth_middle.
        + apply Hr. lia. }
    destruct Hrun as (Hr & Hs & He).
    destruct (Z.ltb_spec (IpAddress.best_doublecolon_len st)
                (IpAddress.doublecolon_len st + 1)) as [Hlt|Hge];
      unfold Spec.scan_inv;
      cbn [IpAddress.best_doublecolon_len IpAddress.best_doublecolon_start
           IpAddress.doublecolon_len IpAddress.doublecolon_start];
      split_scan; try lia; try exact Hr; apply Hbest; assumption.
  - unfold Spec.scan_inv.
    cbn [IpAddress.best_doublecolon_len IpAddress.best_doublecolon_start
         IpAddress.doublecolon_len IpAddress.doublecolon_start].
    split_scan; try lia; apply Hbest; assumption.
Qed.

Lemma scan_all (l pre H : list string) (st : IpAddress.zero_run) :
  H = pre ++ l ->
  Spec.scan_inv H (Z.of_nat (length pre)) st ->
  Spec.scan_inv H (Z.of_nat (length H))
    (fold_left IpAddress.compress_step
       (IpAddress.enumerate_from (Z.of_nat (length pre)) l) st).
Proof.
  revert pre st. induction l as [|x l IH]; intros pre st HH Hinv.
  - rewrite app_nil_r in HH. subst H. exact Hinv.
  - cbn [IpAddress.enumerate_from fold_left].
    replace (Z.of_nat (length pre) + 1) with (Z.of_nat (length (pre ++ [x])))
      by (rewrite length_app; cbn [length]; lia).
    apply IH.
    + rewrite <- app_assoc. exact HH.
    + apply scan_step with (l := l); assumption.
Qed.

Lemma scan_result (H : list string) :
  Spec.scan_inv H (Z.of_nat (length H))
    (fold_left IpAddress.compress_step (IpAddress.enumerate_from 0 H)
       (IpAddress.ZeroRun (-1) 0 (-1) 0)).
Proof.
  apply (scan_all H [] H); [reflexivity|].
  unfold Spec.scan_inv. cbn. repeat split; lia.
Qed.

(** *** The parser on a list of parts *)

Lemma lor_shiftl_low (acc h k : Z) :
  0 <= k -> 0 <= h < 2 ^ k -> Z.lor (Z.shiftl acc k) h = acc * 2 ^ k + h.
Proof.
  intros Hk Hh.
  assert (Hland : Z.land (Z.shiftl acc k) h = 0).
  { apply Z.bits_inj'. intros i Hi. rewrite Z.land_spec, Z.bits_0.
    destruct (Z.lt_ge_cases i k) as [Hlt|Hge].
    - rewrite Z.shiftl_spec_low by lia. reflexivity.
    - destruct (Z.eq_dec h 0) as [->|Hnz]; [rewrite Z.bits_0; apply andb_false_r|].
      rewrite (Z.bits_above_log2 h i); [apply andb_false_r|lia|].
      apply Z.lt_le_trans with k; [|exact Hge].
      apply Z.log2_lt_pow2; lia. }
  pose proof (Z.add_lor_land (Z.shiftl acc k) h) as Hsum.
  rewrite Hland in Hsum. rewrite Z.shiftl_mul_pow2 in * by lia. lia.
Qed.

Lemma lor_shiftl_16 (acc h : Z) :
  0 <= h < 65536 -> Z.lor (Z.shiftl acc 16) h = acc * 65536 + h.
Proof.
  intros Hh. rewrite (lor_shiftl_low acc h 16) by (change (2 ^ 16) with 65536; lia).
  reflexivity.
Qed.

Lemma parse_hextets_value (P : list string) (G : list Z) (acc : Z) :
  Forall2 Spec.hextet_of P G ->
  IpAddress.parse_hextets acc P = Ok (Spec.hextets_value G acc).
Proof.
  intros H. revert acc. induction H as [|p g P G (Hp & Hg & _) _ IH]; intros acc.
  - reflexivity.
  - cbn [IpAddress.parse_hextets Spec.hextets_value fold_left]. rewrite Hp. cbn [rbind].
    rewrite lor_shiftl_16 by exact Hg. apply IH.
Qed.

Lemma hextets_value_app (A B : list Z) (acc : Z) :
  Spec.hextets_value (A ++ B) acc = Spec.hextets_value B (Spec.hextets_value A acc).
Proof. unfold Spec.hextets_value. apply fold_left_app. Qed.

Lemma hextets_value_zeros (Zs : list Z) (acc : Z) :
  Forall (fun g => g = 0) Zs ->
  Spec.hextets_value Zs acc = acc * 65536 ^ Z.of_nat (length Zs).
Proof.
  intros H. revert acc. induction H as [|g Zs -> _ IH]; intros acc.
  - cbn. lia.
  - cbn [Spec.hextets_value fold_left length]. fold (Spec.hextets_value Zs (acc * 65536 + 0)).
    rewrite IH, Nat2Z.inj_succ, Z.pow_succ_r by lia. ring.
Qed.

Lemma hextets_value_bound (G : list Z) (acc : Z) (a : nat) :
  Forall (fun g => 0 <= g < 65536) G ->
  0 <= acc < 65536 ^ Z.of_nat a ->
  0 <= Spec.hextets_value G acc < 65536 ^ Z.of_nat (a + length G).
Proof.
  intros H. revert acc a. induction H as [|g G Hg _ IH]; intros acc a Hacc.
  - cbn. rewrite Nat.add_0_r. exact Hacc.
  - cbn [Spec.hextets_value fold_left length]. fold (Spec.hextets_value G (acc * 65536 + g)).
    replace (a + S (length G))%nat with (S a + length G)%nat by lia.
    apply IH. rewrite Nat2Z.inj_succ, Z.pow_succ_r by lia. nia.
Qed.

Lemma find_skip_none (P : list string) (s : string) (acc : option nat) (k a : nat) :
  (forall i, (a <= i < a + k)%nat -> String.eqb (nth i P "") "" = false) ->
  IpAddress.find_skip_index (seq a k) P s acc = Ok acc.
Proof.
  revert a. induction k as [|k IH]; intros a H; [reflexivity|].
  cbn [seq IpAddress.find_skip_index]. rewrite (H a) by lia.
  apply IH. intros i Hi. apply H. lia.
Qed.

Lemma find_skip_one (P : list string) (s : string) (j k a : nat) :
  (a <= j < a + k)%nat ->
  nth j P "" = "" ->
  (forall i, (a <= i < a + k)%nat -> i <> j -> String.eqb (nth i P "") "" = false) ->
  IpAddress.find_skip_index (seq a k) P s None = Ok (Some j).
Proof.
  revert a. induction k as [|k IH]; intros a Hj Hempty Hothers; [lia|].
  cbn [seq IpAddress.find_skip_index].
  destruct (Nat.eq_dec a j) as [->|Hne].
  - rewrite Hempty. cbn [String.eqb]. apply find_skip_none.
    intros i Hi. apply Hothers; lia.
  - rewrite (Hothers a) by lia. apply IH; [lia|exact Hempty|].
    intros i Hi. apply Hothers. lia.
Qed.

Lemma nonempty_nth (l : list string) (i : nat) :
  Forall (fun p => String.eqb p "" = false) l ->
  (i < length l)%nat -> String.eqb (nth i l "") "" = false.
Proof. intros H Hi. apply (proj1 (List.Forall_nth _ l) H i "" Hi). Qed.

(** Parts with exactly one empty part inside: [x :: X'] before it and
    [Y' ++ [y]] after it, where an empty [x] or [y] stands for an empty
    side. *)
Lemma parts_skip_core (x y : string) (X' Y' : list string) (GA GB : list Z) (s : string) :
  Forall (fun p => String.eqb p "" = false) X' ->
  Forall (fun p => String.eqb p "" = false) Y' ->
  (String.eqb x "" = true -> X' = []) ->
  (String.eqb y "" = true -> Y' = []) ->
  PyStr.mem_char "." y = false ->
  Forall2 Spec.hextet_of (if String.eqb x "" then [] else x :: X') GA ->
  Forall2 Spec.hextet_of (if String.eqb y "" then [] else Y' ++ [y]) GB ->
  (length GA + length GB <= 7)%nat ->
  IpAddress.v6_parts_to_int ((x :: X') ++ "" :: Y' ++ [y]) s
  = Ok (Spec.hextets_value GB
          (Spec.hextets_value GA 0 * 65536 ^ Z.of_nat (8 - (length GA + length GB)))).
Proof.
  intros HX HY Hx Hy Hdot HA HB Hlen.
  set (P := (x :: X') ++ "" :: Y' ++ [y]).
  assert (HlenP : length P = (length X' + length Y' + 3)%nat).
  { unfold P. rewrite length_app. cbn [length]. rewrite length_app. cbn [length]. lia. }
  assert (Hlast : List.last P "" = y).
  { unfold P. replace ((x :: X') ++ "" :: Y' ++ [y]) with (((x :: X') ++ "" :: Y') ++ [y])
      by (rewrite <- app_assoc; reflexivity).
    apply last_last. }
  assert (Hfirst : nth 0 P "" = x) by reflexivity.
  assert (HlenA : length GA = if String.eqb x "" then 0%nat else S (length X')).
  { apply Forall2_length in HA. rewrite <- HA. destruct (String.eqb x ""); reflexivity. }
  assert (HlenB : length GB = if String.eqb y "" then 0%nat else S (length Y')).
  { apply Forall2_length in HB. rewrite <- HB. destruct (String.eqb y ""); [reflexivity|].
    rewrite length_app. cbn [length]. lia. }
  assert (Hskip : IpAddress.find_skip_index (seq 1 (length P - 2)) P s None
                  = Ok (Some (S (length X')))).
  { apply find_skip_one.
    - rewrite HlenP. lia.
    - unfold P. apply (nth_middle (x :: X') (Y' ++ [y]) "" "").
    - intros i Hi Hne. rewrite HlenP in Hi.
      destruct (Nat.lt_ge_cases i (S (length X'))) as [Hlt|Hge].
      + unfold P. rewrite app_nth1 by (cbn [length]; lia).
        destruct i as [|i]; [lia|]. cbn [nth]. apply nonempty_nth; [exact HX|lia].
      + unfold P. rewrite app_nth2 by (cbn [length]; lia). cbn [length].
        destruct (i - S (length X'))%nat as [|k] eqn:Hk; [lia|]. cbn [nth].
        rewrite app_nth1 by lia. apply nonempty_nth; [exact HY|lia]. }
  unfold IpAddress.v6_parts_to_int. fold P.
  replace (length P <? 3)%nat with false by (symmetry; apply Nat.ltb_ge; lia).
  rewrite Hlast, Hdot. cbn [rbind].
  replace (IpAddress.HEXTET_COUNT + 1 <? length P)%nat with false.
  2:{ symmetry. apply Nat.ltb_ge. unfold IpAddress.HEXTET_COUNT. rewrite HlenP.
      destruct (String.eqb x "") eqn:Ex; destruct (String.eqb y "") eqn:Ey;
        try rewrite (Hx eq_refl) in *; try rewrite (Hy eq_refl) in *; cbn [length] in *; lia. }
  rewrite Hskip. cbn [rbind]. rewrite Hfirst, Hlast.
  assert (Hhi : (if String.eqb x "" then
                   if (0 <? S (length X') - 1)%nat
                   then raise AddressValueError
                          ("Leading ':' only permitted as part of '::' in " +:+ Py.repr s)
                   else Ok (S (length X') - 1)%nat
                 else Ok (S (length X'))) = Ok (length GA)).
  { rewrite HlenA. destruct (String.eqb x "") eqn:Ex; [|reflexivity].
    rewrite (Hx eq_refl). reflexivity. }
  rewrite Hhi. cbn [rbind].
  assert (Hlo : (if String.eqb y "" then
                   if (0 <? (length P - S (length X') - 1) - 1)%nat
                   then raise AddressValueError
                          ("Trailing ':' only permitted as part of '::' in " +:+ Py.repr s)
                   else Ok ((length P - S (length X') - 1) - 1)%nat
                 else Ok (length P - S (length X') - 1)%nat) = Ok (length GB)).
  { rewrite HlenB, HlenP. destruct (String.eqb y "") eqn:Ey.
    - rewrite (Hy eq_refl). cbn [length].
      replace (length X' + 0 + 3 - S (length X') - 1 - 1)%nat with 0%nat by lia.
      reflexivity.
    - f_equal. lia. }
  rewrite Hlo. cbn [rbind].
  replace (IpAddress.HEXTET_COUNT <? length GA + length GB + 1)%nat with false
    by (symmetry; apply Nat.ltb_ge; unfold IpAddress.HEXTET_COUNT; lia).
  cbn [rbind].
  assert (Hfirstn : firstn (length GA) P = if String.eqb x "" then [] else x :: X').
  { rewrite HlenA. destruct (String.eqb x ""); [reflexivity|].
    unfold P. rewrite firstn_app.
    replace (S (length X') - length (x :: X'))%nat with 0%nat by (cbn [length]; lia).
    rewrite firstn_all2 by (cbn [length]; lia). cbn [firstn]. apply app_nil_r. }
  assert (Hskipn : skipn (length P - length GB) P
                   = if String.eqb y "" then [] else Y' ++ [y]).
  { rewrite HlenB. destruct (String.eqb y "").
    - rewrite Nat.sub_0_r. apply skipn_all.
    - rewrite HlenP. unfold P.
      replace (length X' + length Y' + 3 - S (length Y'))%nat
        with (length ((x :: X') ++ [""]) + 0)%nat
        by (rewrite length_app; cbn [length]; lia).
      replace ((x :: X') ++ "" :: Y' ++ [y]) with (((x :: X') ++ [""]) ++ Y' ++ [y])
        by (rewrite <- app_assoc; reflexivity).
      rewrite skipn_app, Nat.add_0_r, skipn_all, Nat.sub_diag. reflexivity. }
  rewrite Hfirstn, Hskipn.
  rewrite (parse_hextets_value _ GA 0 HA). cbn [rbind].
  rewrite (parse_hextets_value _ GB _ HB).
  unfold rcatch. f_equal. f_equal.
  rewrite Z.shiftl_mul_pow2 by lia. f_equal.
  unfold IpAddress.HEXTET_COUNT.
  rewrite Z.pow_mul_r by lia. reflexivity.
Qed.

Lemma hextet_of_nonempty (l : list string) (G : list Z) :
  Forall2 Spec.hextet_of l G -> Forall (fun p => String.eqb p "" = false) l.
Proof.
  induction 1 as [|p g l G (_ & _ & Hp) _ IH]; constructor; assumption.
Qed.

Lemma Forall2_app_inv_last (l : list string) (G : list Z) :
  l <> [] -> Forall2 Spec.hextet_of l G ->
  String.eqb (List.last l "") "" = false
  /\ Forall (fun p => String.eqb p "" = false) (removelast l).
Proof.
  intros Hne H. apply hextet_of_nonempty in H.
  rewrite (app_removelast_last "" Hne) in H. apply Forall_app in H as [Hr Hl].
  inversion Hl; subst. split; assumption.
Qed.

(** The parts of an address with a ["::"] parse to the hextets before it,
    the zeros it stands for, and the hextets after it. *)
Lemma parts_with_skip (A B : list string) (GA GB : list Z) (s : string) :
  Forall2 Spec.hextet_of A GA -> Forall2 Spec.hextet_of B GB ->
  (length A + length B <= 7)%nat ->
  PyStr.mem_char "." (List.last B "") = false ->
  IpAddress.v6_parts_to_int (Spec.with_skip A B) s
  = Ok (Spec.hextets_value GB
          (Spec.hextets_value GA 0 * 65536 ^ Z.of_nat (8 - (length A + length B)))).
Proof.
  intros HA HB Hlen Hdot.
  assert (HlA : length A = length GA) by (apply Forall2_length in HA; exact HA).
  assert (HlB : length B = length GB) by (apply Forall2_length in HB; exact HB).
  rewrite HlA, HlB in *. clear HlA HlB.
  assert (HnA := hextet_of_nonempty A GA HA).
  destruct (list_eq_nil_dec B) as [->|HneB];
    [|destruct (Forall2_app_inv_last B GB HneB HB) as [Hy HY'];
      rewrite (app_removelast_last "" HneB) in HB];
    (destruct A as [|a A'];
     [|pose proof (Forall_inv HnA) as Ha; pose proof (Forall_inv_tail HnA) as HA']).
  - inversion HA; inversion HB; subst. reflexivity.
  - apply (parts_skip_core a "" A' [] GA GB s); auto.
    + rewrite Ha. discriminate.
    + rewrite Ha. exact HA.
  - replace (Spec.with_skip [] B) with (["" ] ++ "" :: removelast B ++ [List.last B ""])
      by (unfold Spec.with_skip; rewrite <- (app_removelast_last "" HneB);
          destruct B; [contradiction|reflexivity]).
    apply (parts_skip_core "" (List.last B "") [] (removelast B) GA GB s); auto.
    + rewrite Hy. discriminate.
    + rewrite Hy. exact HB.
  - replace (Spec.with_skip (a :: A') B)
      with ((a :: A') ++ "" :: removelast B ++ [List.last B ""])
      by (unfold Spec.with_skip; rewrite <- (app_removelast_last "" HneB);
          destruct B; [contradiction|reflexivity]).
    apply (parts_skip_core a (List.last B "") A' (removelast B) GA GB s); auto.
    + rewrite Ha. discriminate.
    + rewrite Hy. discriminate.
    + rewrite Ha. exact HA.
    + rewrite Hy. exact HB.
Qed.

(** Eight hextets and no ["::"]. *)
Lemma parts_no_skip (P : list string) (G : list Z) (s : string) :
  length P = 8%nat ->
  Forall2 Spec.hextet_of P G ->
  PyStr.mem_char "." (List.last P "") = false ->
  IpAddress.v6_parts_to_int P s = Ok (Spec.hextets_value G 0).
Proof.
  intros Hlen HP Hdot.
  assert (Hne := hextet_of_nonempty P G HP).
  assert (Hl : String.eqb (List.last P "") "" = false).
  { destruct P as [|p P]; [discriminate|].
    apply (Forall2_app_inv_last (p :: P) G); [discriminate|exact HP]. }
  unfold IpAddress.v6_parts_to_int. rewrite Hdot. cbn [rbind].
  rewrite !Hlen. unfold IpAddress.HEXTET_COUNT.
  change (8 <? 3)%nat with false. change (8 + 1 <? 8)%nat with false.
  change (8 - 2)%nat with 6%nat. cbv iota.
  rewrite find_skip_none by (intros i Hi; apply nonempty_nth; [exact Hne|lia]).
  cbn [rbind]. change (negb (8 =? 8)%nat) with false. cbv iota.
  rewrite (nonempty_nth P 0 Hne) by lia. rewrite Hl. cbn [rbind].
  rewrite <- Hlen, firstn_all, Nat.sub_0_r, skipn_all.
  rewrite (parse_hextets_value P G 0 HP). reflexivity.
Qed.

(** *** What the printer compresses *)

Lemma with_skip_firstn_skipn (H : list string) (s e : nat) :
  (s < e <= length H)%nat ->
  (if Nat.eqb s 0 then [""] else [])
    ++ firstn s (if Nat.eqb e (length H) then H ++ [""] else H)
    ++ [""] ++ skipn e (if Nat.eqb e (length H) then H ++ [""] else H)
  = Spec.with_skip (firstn s H) (skipn e H).
Proof.
  intros Hse. unfold Spec.with_skip.
  assert (Hfirst : firstn s (if Nat.eqb e (length H) then H ++ [""] else H) = firstn s H).
  { destruct (Nat.eqb e (length H)); [|reflexivity].
    rewrite firstn_app. replace (s - length H)%nat with 0%nat by lia.
    cbn [firstn]. apply app_nil_r. }
  assert (Hskip : skipn e (if Nat.eqb e (length H) then H ++ [""] else H)
                  = match skipn e H with [] => [""] | _ :: _ => skipn e H end).
  { destruct (Nat.eqb_spec e (length H)) as [->|Hne].
    - rewrite skipn_app, skipn_all, Nat.sub_diag. reflexivity.
    - destruct (skipn e H) eqn:Hsk; [|reflexivity].
      apply skipn_all_iff in Hsk. lia. }
  rewrite Hfirst, Hskip.
  destruct (Nat.eqb_spec s 0) as [->|Hs].
  - reflexivity.
  - destruct (firstn s H) eqn:Hf; [|reflexivity].
    apply (f_equal (@length string)) in Hf. rewrite length_firstn in Hf.
    cbn [length] in Hf. lia.
Qed.

(** The printer either leaves the hextets alone or replaces one run of at
    least two "0" by a ["::"]. *)
Lemma compress_cases (H : list string) :
  IpAddress._compress_hextets H = H
  \/ exists s len : nat,
       (2 <= len)%nat /\ (s + len <= length H)%nat
       /\ Forall (fun h => h = "0") (firstn len (skipn s H))
       /\ IpAddress._compress_hextets H = Spec.with_skip (firstn s H) (skipn (s + len) H).
Proof.
  unfold IpAddress._compress_hextets.
  pose proof (scan_result H) as Hinv.
  set (st := fold_left IpAddress.compress_step (IpAddress.enumerate_from 0 H)
               (IpAddress.ZeroRun (-1) 0 (-1) 0)) in *.
  destruct Hinv as (_ & Hbest & _).
  destruct (Z.ltb_spec 1 (IpAddress.best_doublecolon_len st)) as [Hlt|Hge]; [|left; reflexivity].
  right. destruct Hbest as (Hs & He & Hrun); [lia|].
  exists (Z.to_nat (IpAddress.best_doublecolon_start st)),
         (Z.to_nat (IpAddress.best_doublecolon_len st)).
  split; [lia|]. split; [lia|]. split.
  - apply List.Forall_nth. intros i d Hi.
    rewrite length_firstn, length_skipn in Hi.
    rewrite nth_firstn. replace (i <? Z.to_nat (IpAddress.best_doublecolon_len st))%nat
      with true by (symmetry; apply Nat.ltb_lt; lia).
    rewrite nth_skipn, (nth_indep H d "") by lia.
    apply Hrun. lia.
  - rewrite <- with_skip_firstn_skipn by lia.
    rewrite <- Z2Nat.inj_add by lia.
    replace (IpAddress.best_doublecolon_start st + IpAddress.best_doublecolon_len st
             =? Z.of_nat (length H))
      with (Nat.eqb (Z.to_nat (IpAddress.best_doublecolon_start st
                               + IpAddress.best_doublecolon_len st)) (length H)).
    2:{ destruct (Z.eqb_spec (IpAddress.best_doublecolon_start st
                              + IpAddress.best_doublecolon_len st) (Z.of_nat (length H)));
        [apply Nat.eqb_eq|apply Nat.eqb_neq]; lia. }
    replace (IpAddress.best_doublecolon_start st =? 0)
      with (Nat.eqb (Z.to_nat (IpAddress.best_doublecolon_start st)) 0).
    2:{ destruct (Z.eqb_spec (IpAddress.best_doublecolon_start st) 0);
        [apply Nat.eqb_eq|apply Nat.eqb_neq]; lia. }
    destruct (Nat.eqb (Z.to_nat (IpAddress.best_doublecolon_start st)) 0); reflexivity.
Qed.

(** *** Printing an address and reading it back *)

Lemma Forall_firstn_skipn {A : Type} (P : A -> Prop) (n : nat) (l : list A) :
  Forall P l -> Forall P (firstn n l) /\ Forall P (skipn n l).
Proof. intros H. rewrite <- (firstn_skipn n l) in H. apply Forall_app in H. exact H. Qed.

Lemma Forall_last {A : Type} (P : A -> Prop) (l : list A) (d : A) :
  P d -> Forall P l -> P (List.last l d).
Proof.
  intros Hd H. induction H as [|x l Hx Hl IH]; [exact Hd|].
  destruct l; [exact Hx|exact IH].
Qed.

Lemma hextets_of_range (n : Z) : Forall (fun g => 0 <= g < 65536) (Spec.hextets_of n).
Proof.
  unfold Spec.hextets_of. apply Forall_map, Forall_forall. intros i _.
  apply Z.mod_pos_bound. lia.
Qed.

Lemma hextets_of_value (n : Z) :
  0 <= n < 2 ^ 128 -> Spec.hextets_value (Spec.hextets_of n) 0 = n.
Proof.
  intros Hn. unfold Spec.hextets_of, Spec.hextets_value. cbn [seq map fold_left Nat.sub Z.of_nat].
  change (Z.of_nat 7) with 7. change (Z.of_nat 6) with 6. change (Z.of_nat 5) with 5.
  change (Z.of_nat 4) with 4. change (Z.of_nat 3) with 3. change (Z.of_nat 2) with 2.
  change (Z.of_nat 1) with 1. change (Z.of_nat 0) with 0.
  assert (Hstep : forall k j, j = k + 1 -> 0 <= k ->
    n / 65536 ^ k = 65536 * (n / 65536 ^ j) + (n / 65536 ^ k) mod 65536).
  { intros k j -> Hk. rewrite Z.pow_add_r, Z.pow_1_r by lia.
    rewrite <- Z.div_div by lia. apply Z.div_mod. lia. }
  pose proof (Hstep 0 1 eq_refl ltac:(lia)) as H0.
  pose proof (Hstep 1 2 eq_refl ltac:(lia)) as H1.
  pose proof (Hstep 2 3 eq_refl ltac:(lia)) as H2.
  pose proof (Hstep 3 4 eq_refl ltac:(lia)) as H3.
  pose proof (Hstep 4 5 eq_refl ltac:(lia)) as H4.
  pose proof (Hstep 5 6 eq_refl ltac:(lia)) as H5.
  pose proof (Hstep 6 7 eq_refl ltac:(lia)) as H6.
  pose proof (Hstep 7 8 eq_refl ltac:(lia)) as H7.
  assert (H8 : n / 65536 ^ 8 = 0) by (apply Z.div_small; change (65536 ^ 8) with (2 ^ 128); lia).
  clear Hstep. change (65536 ^ 0) with 1 in *. rewrite Z.div_1_r in *.
  set (a1 := n / 65536 ^ 1) in *. set (a2 := n / 65536 ^ 2) in *.
  set (a3 := n / 65536 ^ 3) in *. set (a4 := n / 65536 ^ 4) in *.
  set (a5 := n / 65536 ^ 5) in *. set (a6 := n / 65536 ^ 6) in *.
  set (a7 := n / 65536 ^ 7) in *. set (a8 := n / 65536 ^ 8) in *.
  lia.
Qed.

Lemma hextet_of_format_x (G : list Z) :
  Forall (fun g => 0 <= g < 65536) G ->
  Forall2 Spec.hextet_of (map IpAddress.format_x G) G.
Proof.
  induction 1 as [|g G Hg _ IH]; cbn [map]; constructor; [|exact IH].
  destruct (format_x_good g Hg) as (Hp & Hne & _). repeat split; auto; lia.
Qed.

Lemma format_x_plain (G : list Z) :
  Forall (fun g => 0 <= g < 65536) G ->
  Forall (fun p => PyStr.mem_char ":" p = false) (map IpAddress.format_x G)
  /\ Forall (fun p => PyStr.mem_char "." p = false) (map IpAddress.format_x G).
Proof.
  intros H. split; apply Forall_map; eapply Forall_impl; try exact H;
    intros g Hg; cbv beta; destruct (format_x_good g Hg) as (_ & _ & Hc & Hd & _); assumption.
Qed.

Lemma zero_hextets (G : list Z) :
  Forall (fun g => 0 <= g < 65536) G ->
  Forall (fun h => h = "0") (map IpAddress.format_x G) ->
  Forall (fun g => g = 0) G.
Proof.
  intros HG Hz. apply Forall_map in Hz.
  induction HG as [|g G Hg _ IH]; [constructor|].
  inversion Hz as [|? ? Hg0 Hz']; subst. constructor; [|apply IH, Hz'].
  destruct (format_x_good g Hg) as (_ & _ & _ & _ & He).
  rewrite Hg0 in He. cbn in He. symmetry in He. apply Z.eqb_eq in He. exact He.
Qed.

Lemma with_skip_plain (A B : list string) :
  Forall (fun p => PyStr.mem_char ":" p = false) A ->
  Forall (fun p => PyStr.mem_char ":" p = false) B ->
  Forall (fun p => PyStr.mem_char ":" p = false) (Spec.with_skip A B)
  /\ exists x y l, Spec.with_skip A B = x :: y :: l.
Proof.
  intros HA HB. unfold Spec.with_skip. split.
  - apply Forall_app. split; [destruct A; [repeat constructor|exact HA]|].
    constructor; [reflexivity|]. destruct B; [repeat constructor|exact HB].
  - destruct A as [|a [|a' A]]; cbn [app]; eauto.
Qed.

(** Reading a list of colon-free parts back from their join. *)
Lemma v6_of_join (P : list string) (x y : string) (l : list string) :
  P = x :: y :: l ->
  Forall (fun p => PyStr.mem_char ":" p = false) P ->
  IpAddress.v6_ip_int_from_string (PyStr.join ":" P)
  = IpAddress.v6_parts_to_int P (PyStr.join ":" P).
Proof.
  intros HP Hplain. unfold IpAddress.v6_ip_int_from_string.
  rewrite (proj2 (String.eqb_neq _ _)) by (rewrite HP; apply join_two_not_empty).
  rewrite split_join; [reflexivity|rewrite HP; discriminate|exact Hplain].
Qed.

(** The eight hextets of [n], printed and compressed, read back as [n]. *)
Lemma compressed_hextets_roundtrip (n : Z) :
  0 <= n < 2 ^ 128 ->
  IpAddress.v6_ip_int_from_string
    (PyStr.join ":" (IpAddress._compress_hextets (map IpAddress.format_x (Spec.hextets_of n))))
  = Ok n.
Proof.
  intros Hn.
  pose proof (hextets_of_range n) as HG.
  pose proof (hextets_of_value n Hn) as Hval.
  set (G := Spec.hextets_of n) in *.
  assert (HlenG : length G = 8%nat) by reflexivity.
  pose proof (hextet_of_format_x G HG) as HH.
  destruct (format_x_plain G HG) as [Hcolon Hdot].
  set (H := map IpAddress.format_x G) in *.
  assert (HlenH : length H = 8%nat) by (unfold H; rewrite length_map; exact HlenG).
  destruct (compress_cases H) as [->|(s & len & Hlen & Hse & Hzeros & ->)].
  - rewrite (v6_of_join H (nth 0 H "") (nth 1 H "") (skipn 2 H)); [|reflexivity|exact Hcolon].
    rewrite (parts_no_skip H G _ HlenH HH); [congruence|].
    apply Forall_last; [reflexivity|exact Hdot].
  - destruct (Forall_firstn_skipn _ s _ Hcolon) as [HcA _].
    destruct (Forall_firstn_skipn _ (s + len) _ Hcolon) as [_ HcB].
    destruct (with_skip_plain _ _ HcA HcB) as [Hplain (x & y & l & Hshape)].
    rewrite (v6_of_join _ x y l Hshape Hplain).
    assert (HA : Forall2 Spec.hextet_of (firstn s H) (firstn s G)).
    { unfold H. rewrite firstn_map. apply hextet_of_format_x.
      apply (Forall_firstn_skipn _ s G HG). }
    assert (HB : Forall2 Spec.hextet_of (skipn (s + len) H) (skipn (s + len) G)).
    { unfold H. rewrite skipn_map. apply hextet_of_format_x.
      apply (Forall_firstn_skipn _ (s + len) G HG). }
    rewrite (parts_with_skip _ _ _ _ _ HA HB).
    + f_equal. rewrite <- Hval.
      rewrite <- (firstn_skipn s G) at 3.
      rewrite <- (firstn_skipn len (skipn s G)) at 1.
      rewrite skipn_skipn, (Nat.add_comm len s).
      rewrite !hextets_value_app. f_equal.
      rewrite (hextets_value_zeros (firstn len (skipn s G))).
      * f_equal. f_equal. rewrite !length_firstn, !length_skipn. lia.
      * apply zero_hextets; [apply Forall_firstn_skipn, Forall_firstn_skipn, HG|].
        rewrite <- firstn_map, <- skipn_map. exact Hzeros.
    + rewrite length_firstn, length_skipn. lia.
    + apply Forall_last; [reflexivity|].
      apply (Forall_firstn_skipn _ (s + len) H Hdot).
Qed.

(** *** The printed forms of an IPv6 address *)

Lemma substring_prefix (b s : string) :
  String.substring 0 (String.length b) (b +:+ s) = b.
Proof.
  induction b as [|c b IH].
  - destruct s; reflexivity.
  - rewrite append_cons. cbn [String.length String.substring]. rewrite IH. reflexivity.
Qed.

Lemma substring_middle (p b s : string) :
  String.substring (String.length p) (String.length b) (p +:+ (b +:+ s)) = b.
Proof.
  induction p as [|c p IH].
  - change ("" +:+ (b +:+ s)) with (b +:+ s). apply substring_prefix.
  - rewrite append_cons. cbn [String.length String.substring]. exact IH.
Qed.

Lemma substring_hex_fixed (j k m : nat) (n : Z) :
  String.substring j k (IpAddress.hex_fixed (j + (k + m)) n)
  = IpAddress.hex_fixed k (n / 16 ^ Z.of_nat m).
Proof.
  rewrite hex_fixed_add, (hex_fixed_add k m).
  pose proof (substring_middle (IpAddress.hex_fixed j (n / 16 ^ Z.of_nat (k + m)))
                (IpAddress.hex_fixed k (n / 16 ^ Z.of_nat m)) (IpAddress.hex_fixed m n)) as H.
  rewrite !hex_fixed_length in H. exact H.
Qed.

Lemma hex_fixed_mod (k : nat) (v : Z) :
  IpAddress.hex_fixed k (v mod 16 ^ Z.of_nat k) = IpAddress.hex_fixed k v.
Proof.
  revert v. induction k as [|k IH]; intros v; [reflexivity|].
  cbn [IpAddress.hex_fixed].
  rewrite Nat2Z.inj_succ, Z.pow_succ_r by lia.
  assert (Hp : 0 < 16 ^ Z.of_nat k) by (apply Z.pow_pos_nonneg; lia).
  rewrite Z.rem_mul_r by lia.
  replace ((v mod 16 + 16 * ((v / 16) mod 16 ^ Z.of_nat k)) / 16)
    with ((v / 16) mod 16 ^ Z.of_nat k).
  2:{ rewrite (Z.mul_comm 16), Z.div_add by lia.
      rewrite (Z.div_small (v mod 16)) by (apply Z.mod_pos_bound; lia). lia. }
  rewrite IH. f_equal. f_equal. f_equal.
  rewrite (Z.mul_comm 16), Z.mod_add by lia. apply Z.mod_mod. lia.
Qed.

Lemma format_032x_fixed (n : Z) :
  0 <= n < 2 ^ 128 -> IpAddress.format_032x n = IpAddress.hex_fixed 32 n.
Proof.
  intros Hn. unfold IpAddress.format_032x. f_equal.
  apply Nat.max_l. unfold IpAddress.hex_len.
  destruct (n <=? 0) eqn:E; [lia|]. apply Z.leb_gt in E.
  assert (Hl : Z.log2 n < 128) by (apply Z.log2_lt_pow2; lia).
  assert (0 <= Z.log2 n) by apply Z.log2_nonneg.
  assert (Z.log2 n / 4 < 32) by (apply Z.div_lt_upper_bound; lia).
  assert (0 <= Z.log2 n / 4) by (apply Z.div_pos; lia).
  lia.
Qed.

(** The [i]-th group of four digits of ['%032x' % n]. *)
Lemma group_at (i : nat) (n : Z) :
  (i < 8)%nat -> 0 <= n < 2 ^ 128 ->
  String.substring (4 * i) 4 (IpAddress.format_032x n)
  = IpAddress.hex_fixed 4 ((n / 65536 ^ Z.of_nat (7 - i)) mod 65536).
Proof.
  intros Hi Hn. rewrite format_032x_fixed by exact Hn.
  replace 32%nat with (4 * i + (4 + 4 * (7 - i)))%nat by lia.
  rewrite substring_hex_fixed.
  change 65536 with (16 ^ Z.of_nat 4) at 2. rewrite hex_fixed_mod.
  f_equal. f_equal. rewrite Nat2Z.inj_mul, Z.pow_mul_r by lia. reflexivity.
Qed.

Lemma groups_of (n : Z) :
  0 <= n < 2 ^ 128 ->
  map (fun x => String.substring x 4 (IpAddress.format_032x n)) IpAddress.hextet_offsets
  = map (IpAddress.hex_fixed 4) (Spec.hextets_of n).
Proof.
  intros Hn. unfold IpAddress.hextet_offsets, Spec.hextets_of. rewrite !map_map.
  apply map_ext_in. intros i Hi. apply in_seq in Hi. apply group_at; [lia|exact Hn].
Qed.

Lemma int16_group (g : Z) :
  0 <= g < 65536 -> IpAddress.int16 0 (IpAddress.hex_fixed 4 g) = g.
Proof.
  intros Hg. rewrite int16_hex_fixed. change (16 ^ Z.of_nat 4) with 65536.
  rewrite Z.mod_small by lia. lia.
Qed.

(** [str] of an address without zone: the hextets, printed and compressed. *)
Lemma v6_string_hextets (n : Z) :
  0 <= n < 2 ^ 128 ->
  IpAddress.v6_string_from_ip_int n
  = Ok (PyStr.join ":" (IpAddress._compress_hextets (map IpAddress.format_x (Spec.hextets_of n)))).
Proof.
  intros Hn. unfold IpAddress.v6_string_from_ip_int.
  replace (IpAddress.ALL_ONES6 <? n) with false
    by (symmetry; apply Z.ltb_ge; change IpAddress.ALL_ONES6 with (2 ^ 128 - 1); lia).
  do 3 f_equal.
  rewrite <- (map_map (fun x => String.substring x 4 (IpAddress.format_032x n))
                (fun g => IpAddress.format_x (IpAddress.int16 0 g))).
  rewrite groups_of by exact Hn. rewrite map_map.
  apply map_ext_in. intros g Hg. f_equal. apply int16_group.
  pose proof (hextets_of_range n) as HG. rewrite List.Forall_forall in HG. apply HG, Hg.
Qed.

Lemma v6_roundtrip (n : Z) (r : string) :
  0 <= n < 2 ^ 128 ->
  IpAddress.v6_string_from_ip_int n = Ok r ->
  IpAddress.v6_ip_int_from_string r = Ok n.
Proof.
  intros Hn Hr. rewrite v6_string_hextets in Hr by exact Hn. injection Hr as <-.
  apply compressed_hextets_roundtrip, Hn.
Qed.

(** [exploded] of an address without zone: eight groups of four digits. *)
Lemma exploded_groups (n : Z) :
  0 <= n < 2 ^ 128 ->
  IpAddress.exploded (IpAddress.IPv6Address n None)
  = Ok (PyStr.join ":" (map (IpAddress.hex_fixed 4) (Spec.hextets_of n))).
Proof.
  intros Hn. unfold IpAddress.exploded, IpAddress.to_str.
  destruct (IpAddress.v6_string_from_ip_int n) as [r|e] eqn:Hr.
  2:{ rewrite v6_string_hextets in Hr by exact Hn. discriminate. }
  cbn [rbind]. rewrite (v6_roundtrip n r Hn Hr). cbn [rbind].
  rewrite groups_of by exact Hn. reflexivity.
Qed.

(** *** The gateway of an IPv6 address *)

Lemma mem_char_hex (c : ascii) (s : string) :
  IpAddress.is_hex c = false -> PyStr.all_chars IpAddress.is_hex s = true ->
  PyStr.mem_char c s = false.
Proof.
  intros Hc. induction s as [|d s IH]; [reflexivity|].
  cbn [PyStr.all_chars PyStr.mem_char]. intros H. apply andb_prop in H as [Hd Hs].
  rewrite (IH Hs), orb_false_r.
  destruct (Ascii.eqb_spec c d) as [->|]; [congruence|reflexivity].
Qed.

Lemma mem_char_join (c : ascii) (sep : string) (P : list string) :
  PyStr.mem_char c sep = false ->
  Forall (fun p => PyStr.mem_char c p = false) P ->
  PyStr.mem_char c (PyStr.join sep P) = false.
Proof.
  intros Hsep. induction 1 as [|x P Hx HP IH]; [reflexivity|].
  destruct P as [|y P]; [exact Hx|].
  change (PyStr.join sep (x :: y :: P)) with (x +:+ sep +:+ PyStr.join sep (y :: P)).
  rewrite !mem_char_append, Hx, Hsep, IH. reflexivity.
Qed.

Lemma partition_none (sep : ascii) (s : string) :
  PyStr.mem_char sep s = false -> PyStr.partition sep s = (s, None).
Proof.
  induction s as [|c s IH]; [reflexivity|].
  cbn [PyStr.mem_char PyStr.partition]. intros H. apply orb_false_elim in H as [Hc Hs].
  rewrite ascii_eqb_sym, Hc, (IH Hs). reflexivity.
Qed.

Lemma map_removelast {A B : Type} (f : A -> B) (l : list A) :
  removelast (map f l) = map f (removelast l).
Proof.
  induction l as [|x l IH]; [reflexivity|].
  destruct l as [|y l]; [reflexivity|].
  change (f x :: removelast (map f (y :: l)) = f x :: map f (removelast (y :: l))).
  rewrite IH. reflexivity.
Qed.

Lemma last_app_nonempty {A : Type} (X B : list A) (d : A) :
  B <> [] -> List.last (X ++ B) d = List.last B d.
Proof.
  intros HB. induction X as [|x X IH]; [reflexivity|].
  cbn [app]. destruct (X ++ B) eqn:E.
  - apply app_eq_nil in E as [_ ->]. congruence.
  - cbn [List.last]. exact IH.
Qed.

Lemma Forall_last_nonempty {A : Type} (P : A -> Prop) (l : list A) (d : A) :
  l <> [] -> Forall P l -> P (List.last l d).
Proof.
  intros Hne H. induction H as [|x l Hx Hl IH]; [congruence|].
  destruct l; [exact Hx|]. apply IH. discriminate.
Qed.

Lemma hextet_of_groups (G : list Z) :
  Forall (fun g => 0 <= g < 65536) G ->
  Forall2 Spec.hextet_of (map (IpAddress.hex_fixed 4) G) G.
Proof.
  induction 1 as [|g G Hg _ IH]; cbn [map]; constructor; [|exact IH].
  split; [|split; [exact Hg|]].
  - apply parse_hex_fixed; [lia|exact Hg].
  - apply string_eqb_empty_length. rewrite hex_fixed_length. lia.
Qed.

Lemma groups_plain (c : ascii) (G : list Z) :
  IpAddress.is_hex c = false ->
  Forall (fun p => PyStr.mem_char c p = false) (map (IpAddress.hex_fixed 4) G).
Proof.
  intros Hc. apply Forall_map, Forall_forall. intros g _.
  apply mem_char_hex; [exact Hc|apply hex_fixed_plain].
Qed.

Lemma hextets_of_last (n : Z) : List.last (Spec.hextets_of n) 0 = n mod 65536.
Proof.
  unfold Spec.hextets_of. cbn [seq map List.last Nat.sub Z.of_nat].
  change (65536 ^ 0) with 1. rewrite Z.div_1_r. reflexivity.
Qed.

(** The value of the hextets of [n] once the last is replaced by [1]. *)
Lemma hextets_value_set_last (n : Z) :
  0 <= n < 2 ^ 128 ->
  Spec.hextets_value (removelast (Spec.hextets_of n) ++ [1]) 0 = n - n mod 65536 + 1.
Proof.
  intros Hn. pose proof (hextets_of_value n Hn) as Hv.
  rewrite (app_removelast_last (l := Spec.hextets_of n) 0) in Hv by discriminate.
  rewrite hextets_of_last in Hv. rewrite hextets_value_app in *.
  cbn [Spec.hextets_value fold_left] in *. lia.
Qed.

Lemma gateway_in_range (n : Z) :
  0 <= n < 2 ^ 128 -> 0 <= n - n mod 65536 + 1 < 2 ^ 128.
Proof.
  intros Hn. pose proof (Z.div_mod n 65536 ltac:(lia)) as Hd.
  pose proof (Z.mod_pos_bound n 65536 ltac:(lia)) as Hm.
  change (2 ^ 128) with (65536 * 2 ^ 112) in *.
  assert (n / 65536 < 2 ^ 112) by (apply Z.div_lt_upper_bound; lia).
  lia.
Qed.

(** Reading the exploded form with its last group set to ["1"]. *)
Lemma v6_of_exploded_set_last (n : Z) :
  0 <= n < 2 ^ 128 ->
  IpAddress.IPv6Address_of_str
    (PyStr.join ":" (removelast (map (IpAddress.hex_fixed 4) (Spec.hextets_of n)) ++ ["1"]))
  = Ok (IpAddress.IPv6Address (n - n mod 65536 + 1) None).
Proof.
  intros Hn. pose proof (hextets_of_range n) as HG.
  rewrite map_removelast.
  set (A := removelast (Spec.hextets_of n)).
  assert (HA : Forall (fun g => 0 <= g < 65536) A).
  { unfold A. rewrite removelast_firstn_len. apply Forall_firstn_skipn, HG. }
  assert (HlenA : length A = 7%nat) by reflexivity.
  set (P := map (IpAddress.hex_fixed 4) A ++ ["1"]).
  assert (Hplain : forall c, IpAddress.is_hex c = false ->
                     Forall (fun p => PyStr.mem_char c p = false) P).
  { intros c Hc. apply Forall_app. split; [apply groups_plain, Hc|].
    constructor; [|constructor]. apply mem_char_hex; [exact Hc|reflexivity]. }
  assert (Hshape : exists x y l, P = x :: y :: l).
  { unfold P. destruct A as [|a [|b A']]; try discriminate. cbn [map app]. eauto. }
  destruct Hshape as (x & y & l & Hshape).
  unfold IpAddress.IPv6Address_of_str.
  rewrite (mem_char_join "/" ":" P) by (try reflexivity; apply Hplain; reflexivity).
  unfold IpAddress._split_scope_id.
  rewrite (partition_none "%")
    by (apply mem_char_join; [reflexivity|apply Hplain; reflexivity]).
  cbn [rbind].
  rewrite (v6_of_join P x y l Hshape) by (apply Hplain; reflexivity).
  rewrite (parts_no_skip P (A ++ [1])).
  - cbn [rbind]. unfold A. rewrite hextets_value_set_last by exact Hn. reflexivity.
  - unfold P. rewrite length_app, length_map, HlenA. reflexivity.
  - unfold P. apply Forall2_app; [apply hextet_of_groups, HA|].
    constructor; [|constructor]. split; [reflexivity|split; [lia|reflexivity]].
  - unfold P. rewrite last_last. reflexivity.
Qed.

(** The printed form of an address whose last hextet is [1] ends in ["1"]. *)
Lemma v6_string_last_segment (m : Z) (r : string) :
  0 <= m < 2 ^ 128 -> m mod 65536 = 1 ->
  IpAddress.v6_string_from_ip_int m = Ok r ->
  List.last (PyStr.split ":" r) "" = "1".
Proof.
  intros Hm Hlast Hr. rewrite v6_string_hextets in Hr by exact Hm.
  apply (f_equal (fun x => match x with Ok v => v | Raise _ => "" end)) in Hr.
  cbv beta iota in Hr. subst r.
  pose proof (hextets_of_range m) as HG.
  destruct (format_x_plain _ HG) as [Hcolon _].
  set (H := map IpAddress.format_x (Spec.hextets_of m)) in *.
  assert (HlastH : List.last H "" = "1").
  { unfold H, Spec.hextets_of. cbn [seq map List.last Nat.sub Z.of_nat].
    change (65536 ^ 0) with 1. rewrite Z.div_1_r, Hlast. reflexivity. }
  assert (HlenH : length H = 8%nat) by reflexivity.
  destruct (compress_cases H) as [->|(s & len & Hlen & Hse & Hzeros & ->)].
  - rewrite split_join; [exact HlastH|discriminate|exact Hcolon].
  - destruct (Forall_firstn_skipn _ s _ Hcolon) as [HcA _].
    destruct (Forall_firstn_skipn _ (s + len) _ Hcolon) as [_ HcB].
    destruct (with_skip_plain _ _ HcA HcB) as [Hplain (x & y & l & Hshape)].
    rewrite split_join; [|rewrite Hshape; discriminate|exact Hplain].
    assert (Hdec : H = firstn s H ++ firstn len (skipn s H) ++ skipn (s + len) H).
    { rewrite <- (firstn_skipn s H) at 1. f_equal.
      rewrite <- (firstn_skipn len (skipn s H)) at 1. f_equal.
      rewrite skipn_skipn. f_equal. lia. }
    assert (Hz : firstn len (skipn s H) <> []).
    { intros E. apply (f_equal (@length string)) in E.
      rewrite length_firstn, length_skipn in E. cbn [length] in E. lia. }
    destruct (skipn (s + len) H) as [|b B] eqn:HB.
    + exfalso. rewrite app_nil_r in Hdec. rewrite Hdec in HlastH.
      rewrite last_app_nonempty in HlastH by exact Hz.
      pose proof (Forall_last_nonempty _ _ "" Hz Hzeros) as H0.
      cbv beta in H0. rewrite H0 in HlastH. discriminate.
    + unfold Spec.with_skip.
      rewrite last_app_nonempty by discriminate.
      change (List.last ("" :: b :: B) "") with (List.last (b :: B) "").
      rewrite Hdec, app_assoc in HlastH.
      rewrite last_app_nonempty in HlastH by discriminate. exact HlastH.
Qed.

(** [get_gateway_ip] on an IPv6 address without zone. *)
Lemma gateway_of_v6 (ip : pyval) (n : Z) :
  0 <= n < 2 ^ 128 ->
  IpAddress.ip_address ip = Ok (IpAddress.IPv6Address n None) ->
  exists r,
    Network.get_gateway_ip ip = Ok r
    /\ IpAddress.v6_string_from_ip_int (n - n mod 65536 + 1) = Ok r
    /\ List.last (PyStr.split ":" r) "" = "1".
Proof.
  intros Hn Hip. pose proof (gateway_in_range n Hn) as Hm.
  set (m := n - n mod 65536 + 1) in *.
  assert (Hr : exists r, IpAddress.v6_string_from_ip_int m = Ok r)
    by (rewrite v6_string_hextets by exact Hm; eauto).
  destruct Hr as [r Hr]. exists r. split; [|split]; [|exact Hr|].
  - unfold Network.get_gateway_ip. rewrite Hip. cbn [rbind].
    rewrite exploded_groups by exact Hn. cbn [rbind].
    rewrite split_join; [|discriminate|apply groups_plain; reflexivity].
    unfold Network.set_last.
    change (map (IpAddress.hex_fixed 4) (Spec.hextets_of n))
      with (IpAddress.hex_fixed 4 (nth 0 (Spec.hextets_of n) 0)
              :: map (IpAddress.hex_fixed 4) (skipn 1 (Spec.hextets_of n))) at 1.
    cbn [rbind]. rewrite v6_of_exploded_set_last by exact Hn. cbn [rbind].
    unfold IpAddress.to_str. fold m. rewrite Hr. reflexivity.
  - apply (v6_string_last_segment m r Hm); [|exact Hr].
    unfold m. pose proof (Z.div_mod n 65536 ltac:(lia)) as Hd.
    replace (n - n mod 65536 + 1) with (1 + (n / 65536) * 65536) by lia.
    rewrite Z.mod_add by lia. reflexivity.
Qed.

(** *** What the parsers return *)

Lemma rbind_ok {A B : Type} (r : result A) (k : A -> result B) (v : B) :
  rbind r k = Ok v -> exists a, r = Ok a /\ k a = Ok v.
Proof. destruct r as [a|e]; [eauto|discriminate]. Qed.

Lemma rcatch_raise_ok {A : Type} (r : result A) (c c' : exn_class)
    (m : exn -> string) (v : A) :
  rcatch r c (fun exc => raise c' (m exc)) = Ok v -> r = Ok v.
Proof.
  destruct r as [a|e]; [exact id|]. cbn [rcatch].
  destruct (isinstance e c); discriminate.
Qed.

Lemma hex_value_range (c : ascii) (d : Z) :
  IpAddress.hex_value c = Some d -> 0 <= d < 16.
Proof.
  unfold IpAddress.hex_value.
  repeat match goal with
         | |- context [if ?b then _ else _] =>
             let E := fresh "E" in
             destruct b eqn:E;
             [apply andb_prop in E as [?%Z.leb_le ?%Z.leb_le]; intros [= <-]; lia|]
         end.
  discriminate.
Qed.

Lemma int16_bound (s : string) (acc : Z) :
  PyStr.all_chars IpAddress.is_hex s = true -> 0 <= acc ->
  0 <= IpAddress.int16 acc s < (acc + 1) * 16 ^ Z.of_nat (String.length s).
Proof.
  revert acc. induction s as [|c s IH]; intros acc Hs Hacc.
  - cbn. lia.
  - cbn [PyStr.all_chars] in Hs. apply andb_prop in Hs as [Hc Hs].
    unfold IpAddress.is_hex in Hc.
    destruct (IpAddress.hex_value c) as [d|] eqn:Hd; [|discriminate].
    apply hex_value_range in Hd as Hr.
    cbn [IpAddress.int16 String.length]. rewrite Hd. change (default 0 (Some d)) with d.
    specialize (IH (16 * acc + d) Hs ltac:(lia)).
    rewrite Nat2Z.inj_succ, Z.pow_succ_r by lia.
    assert (Hp : 0 < 16 ^ Z.of_nat (String.length s)) by (apply Z.pow_pos_nonneg; lia).
    assert ((16 * acc + d + 1) * 16 ^ Z.of_nat (String.length s)
            <= (16 * acc + 16) * 16 ^ Z.of_nat (String.length s))
      by (apply Z.mul_le_mono_nonneg_r; lia).
    lia.
Qed.

Lemma parse_hextet_range (p : string) (h : Z) :
  IpAddress._parse_hextet p = Ok h -> 0 <= h < 65536.
Proof.
  unfold IpAddress._parse_hextet.
  destruct (PyStr.all_chars IpAddress.is_hex p) eqn:Hall; [|discriminate].
  destruct (4 <? String.length p)%nat eqn:Hlen; [discriminate|].
  destruct (String.eqb p ""); [discriminate|]. cbn [negb]. intros [= <-].
  apply Nat.ltb_ge in Hlen.
  pose proof (int16_bound p 0 Hall ltac:(lia)) as Hb.
  assert (16 ^ Z.of_nat (String.length p) <= 16 ^ 4) by (apply Z.pow_le_mono_r; lia).
  change (16 ^ 4) with 65536 in *. lia.
Qed.

Lemma parse_hextets_range (l : list string) (acc v : Z) :
  IpAddress.parse_hextets acc l = Ok v -> 0 <= acc ->
  0 <= v < (acc + 1) * 65536 ^ Z.of_nat (length l).
Proof.
  revert acc. induction l as [|p l IH]; intros acc Hv Hacc.
  - cbn in *. injection Hv as <-. lia.
  - cbn [IpAddress.parse_hextets] in Hv. apply rbind_ok in Hv as (h & Hh & Hv).
    apply parse_hextet_range in Hh. rewrite lor_shiftl_16 in Hv by exact Hh.
    specialize (IH _ Hv ltac:(lia)).
    cbn [length]. rewrite Nat2Z.inj_succ, Z.pow_succ_r by lia.
    assert (Hp : 0 < 65536 ^ Z.of_nat (length l)) by (apply Z.pow_pos_nonneg; lia).
    assert ((acc * 65536 + h + 1) * 65536 ^ Z.of_nat (length l)
            <= (acc * 65536 + 65536) * 65536 ^ Z.of_nat (length l))
      by (apply Z.mul_le_mono_nonneg_r; lia).
    lia.
Qed.

Lemma v6_parts_range (parts : list string) (s : string) (n : Z) :
  IpAddress.v6_parts_to_int parts s = Ok n -> 0 <= n < 2 ^ 128.
Proof.
  unfold IpAddress.v6_parts_to_int. intros H.
  destruct (length parts <? 3)%nat; [discriminate|].
  apply rbind_ok in H as (parts' & _ & H).
  destruct (IpAddress.HEXTET_COUNT + 1 <? length parts')%nat; [discriminate|].
  apply rbind_ok in H as (skip & _ & H).
  apply rbind_ok in H as ([[hi lo] skipped] & Hsel & H).
  apply rcatch_raise_ok in H.
  apply rbind_ok in H as (v1 & H1 & H2).
  assert (Hcount : (hi + lo + skipped <= 8)%nat).
  { destruct skip as [i|].
    - apply rbind_ok in Hsel as (hi' & _ & Hsel).
      apply rbind_ok in Hsel as (lo' & _ & Hsel).
      destruct (IpAddress.HEXTET_COUNT <? hi' + lo' + 1)%nat eqn:E; [discriminate|].
      apply Nat.ltb_ge in E. unfold IpAddress.HEXTET_COUNT in *.
      injection Hsel as <- <- <-. lia.
    - destruct (length parts' =? IpAddress.HEXTET_COUNT)%nat eqn:E; [|discriminate].
      apply Nat.eqb_eq in E. unfold IpAddress.HEXTET_COUNT in *. cbn [negb] in Hsel.
      destruct (String.eqb (nth 0 parts' "") ""); [discriminate|].
      destruct (String.eqb (List.last parts' "") ""); [discriminate|].
      injection Hsel as <- <- <-. lia. }
  apply parse_hextets_range in H1; [|lia].
  rewrite Z.shiftl_mul_pow2 in H2 by lia.
  assert (Hs : 2 ^ (16 * Z.of_nat skipped) = 65536 ^ Z.of_nat skipped)
    by (rewrite Z.pow_mul_r by lia; reflexivity).
  rewrite Hs in H2.
  set (a := length (firstn hi parts')) in *.
  set (b := length (skipn (length parts' - lo) parts')) in *.
  assert (Ha : (a <= hi)%nat) by (unfold a; rewrite length_firstn; lia).
  assert (Hb : (b <= lo)%nat) by (unfold b; rewrite length_skipn; lia).
  assert (Hps : 0 < 65536 ^ Z.of_nat skipped) by (apply Z.pow_pos_nonneg; lia).
  assert (Hpb : 0 < 65536 ^ Z.of_nat b) by (apply Z.pow_pos_nonneg; lia).
  assert (Hpa : 0 < 65536 ^ Z.of_nat a) by (apply Z.pow_pos_nonneg; lia).
  apply parse_hextets_range in H2; [|apply Z.mul_nonneg_nonneg; lia].
  fold b in H2.
  assert (Hv1 : v1 * 65536 ^ Z.of_nat skipped + 1
                <= 65536 ^ Z.of_nat a * 65536 ^ Z.of_nat skipped).
  { assert ((v1 + 1) * 65536 ^ Z.of_nat skipped
            <= 65536 ^ Z.of_nat a * 65536 ^ Z.of_nat skipped)
      by (apply Z.mul_le_mono_nonneg_r; lia).
    lia. }
  assert (Hall : (v1 * 65536 ^ Z.of_nat skipped + 1) * 65536 ^ Z.of_nat b
                 <= 65536 ^ Z.of_nat a * 65536 ^ Z.of_nat skipped * 65536 ^ Z.of_nat b)
    by (apply Z.mul_le_mono_nonneg_r; lia).
  rewrite <- !Z.pow_add_r in Hall by lia.
  assert (65536 ^ (Z.of_nat a + Z.of_nat skipped + Z.of_nat b) <= 65536 ^ 8)
    by (apply Z.pow_le_mono_r; lia).
  change (65536 ^ 8) with (2 ^ 128) in *. lia.
Qed.

Lemma v6_ip_int_range (s : string) (n : Z) :
  IpAddress.v6_ip_int_from_string s = Ok n -> 0 <= n < 2 ^ 128.
Proof.
  unfold IpAddress.v6_ip_int_from_string.
  destruct (String.eqb s ""); [discriminate|]. apply v6_parts_range.
Qed.

Lemma int10_nonneg (s : string) (acc : Z) :
  PyStr.all_chars IpAddress.is_digit s = true -> 0 <= acc -> 0 <= IpAddress.int10 acc s.
Proof.
  revert acc. induction s as [|c s IH]; intros acc Hs Hacc; [exact Hacc|].
  cbn [PyStr.all_chars] in Hs. apply andb_prop in Hs as [Hc Hs].
  cbn [IpAddress.int10]. apply IH; [exact Hs|].
  unfold IpAddress.is_digit in Hc. apply andb_prop in Hc as [Hc _]. apply Z.leb_le in Hc.
  unfold IpAddress.digit_value. lia.
Qed.

Lemma parse_octet_range (o : string) (v : Z) :
  IpAddress._parse_octet o = Ok v -> 0 <= v < 256.
Proof.
  unfold IpAddress._parse_octet.
  destruct (String.eqb o ""); [discriminate|].
  destruct (PyStr.all_chars IpAddress.is_digit o) eqn:Hall; [|discriminate]. cbn [negb].
  destruct (3 <? String.length o)%nat; [discriminate|].
  destruct (negb (String.eqb o "0") && String.prefix "0" o); [discriminate|].
  destruct (255 <? IpAddress.int10 0 o) eqn:E; [discriminate|]. intros [= <-].
  apply Z.ltb_ge in E. pose proof (int10_nonneg o 0 Hall ltac:(lia)). lia.
Qed.

Lemma from_bytes_range (l : list string) (acc v : Z) :
  IpAddress.from_bytes_map IpAddress._parse_octet acc l = Ok v -> 0 <= acc ->
  0 <= v < (acc + 1) * 256 ^ Z.of_nat (length l).
Proof.
  revert acc. induction l as [|p l IH]; intros acc Hv Hacc.
  - cbn in *. injection Hv as <-. lia.
  - cbn [IpAddress.from_bytes_map] in Hv. apply rbind_ok in Hv as (h & Hh & Hv).
    apply parse_octet_range in Hh. specialize (IH _ Hv ltac:(lia)).
    cbn [length]. rewrite Nat2Z.inj_succ, Z.pow_succ_r by lia.
    assert (Hp : 0 < 256 ^ Z.of_nat (length l)) by (apply Z.pow_pos_nonneg; lia).
    assert ((256 * acc + h + 1) * 256 ^ Z.of_nat (length l)
            <= (256 * acc + 256) * 256 ^ Z.of_nat (length l))
      by (apply Z.mul_le_mono_nonneg_r; lia).
    lia.
Qed.

Lemma v4_ip_int_range (s : string) (n : Z) :
  IpAddress.v4_ip_int_from_string s = Ok n -> 0 <= n < 2 ^ 32.
Proof.
  unfold IpAddress.v4_ip_int_from_string.
  destruct (String.eqb s ""); [discriminate|].
  destruct (length (PyStr.split "." s) =? 4)%nat eqn:E; [|discriminate]. cbn [negb].
  apply Nat.eqb_eq in E. intros H. apply rcatch_raise_ok in H.
  apply from_bytes_range in H; [|lia]. rewrite E in H.
  change (256 ^ Z.of_nat 4) with (2 ^ 32) in H. lia.
Qed.

(** *** The gateway of an IPv4 address *)

(** [n & 0xFFFFFF00] clears the last octet of a 32-bit [n]. *)
Lemma land_clears_last_octet (n : Z) :
  0 <= n < 2 ^ 32 -> Z.land n 4294967040 = Z.shiftl (Z.shiftr n 8) 8.
Proof.
  intros Hn. change 4294967040 with (Z.shiftl (Z.ones 24) 8).
  apply Z.bits_inj'. intros i Hi. rewrite Z.land_spec.
  destruct (Z.lt_ge_cases i 8) as [Hlt|Hge].
  - rewrite !Z.shiftl_spec_low by lia. apply andb_false_r.
  - rewrite !Z.shiftl_spec by lia. rewrite Z.shiftr_spec by lia.
    replace (i - 8 + 8) with i by lia.
    destruct (Z.lt_ge_cases i 32) as [Hlt|Hhi].
    + rewrite Z.ones_spec_low by lia. apply andb_true_r.
    + rewrite Z.ones_spec_high by lia. rewrite andb_false_r. symmetry.
      destruct (Z.eq_dec n 0) as [->|Hnz]; [apply Z.bits_0|].
      apply Z.bits_above_log2; [lia|].
      apply Z.lt_le_trans with 32; [|exact Hhi]. apply Z.log2_lt_pow2; lia.
Qed.

Lemma gateway_int_v4 (n : Z) :
  0 <= n < 2 ^ 32 -> Z.lor (Z.land n 4294967040) 1 = n - n mod 256 + 1.
Proof.
  intros Hn. rewrite land_clears_last_octet by exact Hn.
  rewrite lor_shiftl_low by lia. rewrite Z.shiftr_div_pow2 by lia.
  change (2 ^ 8) with 256. pose proof (Z.div_mod n 256 ltac:(lia)). lia.
Qed.

(** The octets of the gateway: those of the address, the last one [1]. *)
Lemma gateway_octets (n : Z) :
  0 <= n < 2 ^ 32 ->
  IpAddress.to_bytes4 (n - n mod 256 + 1) = firstn 3 (IpAddress.to_bytes4 n) ++ [1].
Proof.
  intros Hn. pose proof (Z.div_mod n 256 ltac:(lia)) as Hd.
  replace (n - n mod 256 + 1) with (1 + (n / 256) * 256) by lia.
  unfold IpAddress.to_bytes4. cbn [firstn app].
  change (2 ^ 8) with 256. change (2 ^ 16) with (256 * 2 ^ 8).
  change (2 ^ 24) with (256 * 2 ^ 16).
  rewrite <- !(Z.div_div _ 256) by lia.
  rewrite Z.div_add by lia. rewrite (Z.div_small 1 256) by lia.
  rewrite Z.mod_add by lia. reflexivity.
Qed.

(** *** What [ip_address] accepts *)

Lemma IPv4Address_of_str_range (s : string) (a : IpAddress.address) :
  IpAddress.IPv4Address_of_str s = Ok a ->
  exists n, a = IpAddress.IPv4Address n /\ 0 <= n < 2 ^ 32.
Proof.
  unfold IpAddress.IPv4Address_of_str.
  destruct (PyStr.mem_char "/" s); [discriminate|]. intros H.
  apply rbind_ok in H as (n & Hn & [= <-]). exists n. split; [reflexivity|].
  apply v4_ip_int_range with s, Hn.
Qed.

Lemma IPv6Address_of_str_range (s : string) (a : IpAddress.address) :
  IpAddress.IPv6Address_of_str s = Ok a ->
  exists n sc, a = IpAddress.IPv6Address n sc /\ 0 <= n < 2 ^ 128.
Proof.
  unfold IpAddress.IPv6Address_of_str.
  destruct (PyStr.mem_char "/" s); [discriminate|]. intros H.
  apply rbind_ok in H as ([addr sc] & _ & H).
  apply rbind_ok in H as (n & Hn & [= <-]). exists n, sc. split; [reflexivity|].
  apply v6_ip_int_range with addr, Hn.
Qed.

Lemma ip_address_range (s : string) (a : IpAddress.address) :
  IpAddress.ip_address (PStr s) = Ok a ->
  match a with
  | IpAddress.IPv4Address n => 0 <= n < 2 ^ 32
  | IpAddress.IPv6Address n _ => 0 <= n < 2 ^ 128
  end.
Proof.
  unfold IpAddress.ip_address, IpAddress.IPv4Address_new, IpAddress.IPv6Address_new.
  destruct (IpAddress.IPv4Address_of_str (Py.str (PStr s))) as [a4|e4] eqn:H4.
  - cbn [rcatch]. intros [= <-].
    apply IPv4Address_of_str_range in H4 as (n & -> & Hn). exact Hn.
  - cbn [rcatch]. destruct (isinstance e4 AddressValueError); [|discriminate].
    destruct (IpAddress.IPv6Address_of_str (Py.str (PStr s))) as [a6|e6] eqn:H6.
    + cbn [rcatch]. intros [= <-].
      apply IPv6Address_of_str_range in H6 as (n & sc & -> & Hn). exact Hn.
    + cbn [rcatch]. destruct (isinstance e6 AddressValueError); discriminate.
Qed.

Lemma gateway_of_v4 (ip : pyval) (n : Z) :
  0 <= n < 2 ^ 32 ->
  IpAddress.ip_address ip = Ok (IpAddress.IPv4Address n) ->
  Network.get_gateway_ip ip
  = Ok (PyStr.join "." (map pretty (firstn 3 (IpAddress.to_bytes4 n) ++ [1]))).
Proof.
  intros Hn Hip. unfold Network.get_gateway_ip. rewrite Hip.
  cbn [rbind IpAddress.to_int]. rewrite gateway_int_v4 by exact Hn.
  pose proof (Z.mod_pos_bound n 256 ltac:(lia)) as Hm.
  pose proof (Z.mod_le n 256 ltac:(lia) ltac:(lia)) as Hle.
  unfold IpAddress.IPv4Address_of_int.
  replace (n - n mod 256 + 1 <? 0) with false by (symmetry; apply Z.ltb_ge; lia).
  replace (IpAddress.ALL_ONES4 <? n - n mod 256 + 1) with false.
  2:{ symmetry. apply Z.ltb_ge. change IpAddress.ALL_ONES4 with (2 ^ 32 - 1).
      pose proof (Z.div_mod n 256 ltac:(lia)) as Hd.
      change (2 ^ 32) with (256 * 2 ^ 24) in *.
      assert (n / 256 < 2 ^ 24) by (apply Z.div_lt_upper_bound; lia). lia. }
  cbn [rbind IpAddress.to_str]. unfold IpAddress.v4_string_from_ip_int.
  rewrite gateway_octets by exact Hn. reflexivity.
Qed.

(** *** Octets: the text of an accepted IPv4 address is its printed form *)

Lemma is_digit_cases (c : ascii) :
  IpAddress.is_digit c = true ->
  In c ["0"; "1"; "2"; "3"; "4"; "5"; "6"; "7"; "8"; "9"]%char.
Proof.
  destruct c as [b0 b1 b2 b3 b4 b5 b6 b7].
  destruct b0, b1, b2, b3, b4, b5, b6, b7; vm_compute; intros H;
    first [discriminate H | tauto].
Qed.

Lemma in_digit_strings (o : string) :
  PyStr.all_chars IpAddress.is_digit o = true ->
  In o (Spec.digit_strings (String.length o)).
Proof.
  induction o as [|c o IH]; [left; reflexivity|].
  cbn [PyStr.all_chars String.length Spec.digit_strings]. intros H.
  apply andb_prop in H as [Hc Ho]. apply in_flat_map. exists c.
  split; [apply is_digit_cases, Hc|apply in_map, IH, Ho].
Qed.

Lemma octet_table :
  forallb Spec.octet_prints (Spec.digit_strings 1 ++ Spec.digit_strings 2 ++ Spec.digit_strings 3) = true.
Proof. vm_compute. reflexivity. Qed.

Lemma pretty_octet (o : string) (v : Z) :
  IpAddress._parse_octet o = Ok v -> pretty v = o.
Proof.
  intros Hv. assert (Hin : In o (Spec.digit_strings 1 ++ Spec.digit_strings 2 ++ Spec.digit_strings 3)).
  { unfold IpAddress._parse_octet in Hv.
    destruct (String.eqb o "") eqn:He; [discriminate|].
    destruct (PyStr.all_chars IpAddress.is_digit o) eqn:Hall; [|discriminate].
    destruct (3 <? String.length o)%nat eqn:Hlen; [discriminate|].
    apply in_digit_strings in Hall.
    destruct o as [|c1 [|c2 [|c3 [|c4 o]]]]; try discriminate;
      cbn [String.length] in Hall; rewrite !in_app_iff; auto. }
  pose proof octet_table as Ht. rewrite forallb_forall in Ht.
  specialize (Ht o Hin). unfold Spec.octet_prints in Ht. rewrite Hv in Ht.
  apply String.eqb_eq, Ht.
Qed.

Lemma div_mod_256 (q r : Z) :
  0 <= r < 256 -> (256 * q + r) / 256 = q /\ (256 * q + r) mod 256 = r.
Proof.
  intros Hr. split.
  - rewrite Z.mul_comm, Z.div_add_l by lia. rewrite Z.div_small by lia. lia.
  - rewrite Z.add_comm, Z.mul_comm, Z.mod_add by lia. apply Z.mod_small, Hr.
Qed.

(** The text of an accepted IPv4 address: four octets, the printed bytes of
    the integer it stands for. *)
Lemma v4_text_octets (s : string) (n : Z) :
  IpAddress.v4_ip_int_from_string s = Ok n ->
  PyStr.split "." s = map pretty (IpAddress.to_bytes4 n).
Proof.
  unfold IpAddress.v4_ip_int_from_string.
  destruct (String.eqb s ""); [discriminate|].
  destruct (length (PyStr.split "." s) =? 4)%nat eqn:E; [|discriminate]. cbn [negb].
  apply Nat.eqb_eq in E. intros H. apply rcatch_raise_ok in H.
  destruct (PyStr.split "." s) as [|a [|b [|c [|d [|x l]]]]]; try discriminate.
  cbn [IpAddress.from_bytes_map] in H.
  apply rbind_ok in H as (va & Ha & H). apply rbind_ok in H as (vb & Hb & H).
  apply rbind_ok in H as (vc & Hc & H). apply rbind_ok in H as (vd & Hd & H).
  injection H as <-.
  pose proof (parse_octet_range _ _ Ha). pose proof (parse_octet_range _ _ Hb).
  pose proof (parse_octet_range _ _ Hc). pose proof (parse_octet_range _ _ Hd).
  apply pretty_octet in Ha, Hb, Hc, Hd. subst a b c d.
  unfold IpAddress.to_bytes4. cbn [map].
  change (2 ^ 8) with 256. change (2 ^ 16) with (256 * 256).
  change (2 ^ 24) with (256 * (256 * 256)).
  rewrite <- !Z.div_div by lia.
  set (n3 := 256 * (256 * (256 * 0 + va) + vb) + vc).
  destruct (div_mod_256 n3 vd ltac:(lia)) as [-> ->].
  unfold n3. set (n2 := 256 * (256 * 0 + va) + vb).
  destruct (div_mod_256 n2 vc ltac:(lia)) as [-> ->].
  unfold n2. set (n1 := 256 * 0 + va).
  destruct (div_mod_256 n1 vb ltac:(lia)) as [-> ->].
  unfold n1. replace (256 * 0 + va) with va by lia.
  rewrite (Z.mod_small va) by lia. reflexivity.
Qed.

Lemma ip_address_v4_text (s : string) (n : Z) :
  IpAddress.ip_address (PStr s) = Ok (IpAddress.IPv4Address n) ->
  IpAddress.v4_ip_int_from_string s = Ok n.
Proof.
  unfold IpAddress.ip_address, IpAddress.IPv4Address_new, IpAddress.IPv6Address_new.
  change (Py.str (PStr s)) with s.
  destruct (IpAddress.IPv4Address_of_str s) as [a4|e4] eqn:H4.
  - cbn [rcatch]. intros [= ->]. unfold IpAddress.IPv4Address_of_str in H4.
    destruct (PyStr.mem_char "/" s); [discriminate|].
    apply rbind_ok in H4 as (n' & Hn & [= <-]). exact Hn.
  - cbn [rcatch]. destruct (isinstance e4 AddressValueError); [|discriminate].
    destruct (IpAddress.IPv6Address_of_str s) as [a6|e6] eqn:H6.
    + cbn [rcatch]. intros [= ->].
      apply IPv6Address_of_str_range in H6 as (n6 & sc & Ha & _). discriminate.
    + cbn [rcatch]. destruct (isinstance e6 AddressValueError); discriminate.
Qed.

(** C8, as stated, fails on an IPv6 address with a zone identifier: the
    library accepts it, but its exploded form is derived by reading the
    printed address, zone included, as an address, and that is refused. *)
Lemma gateway_of_zoned_address :
  IpAddress.ip_address (PStr "fe80::1%eth0")
  = Ok (IpAddress.IPv6Address 338288524927261089654018896841347694593 (Some "eth0"))
  /\ Network.get_gateway_ip (PStr "fe80::1%eth0")
     = Raise (Exn NetworkError "Invalid IP address format: fe80::1%eth0").
Proof. split; vm_compute; reflexivity. Qed.

(** C8, amended. An IPv4 address is mapped to the same address with its
    last octet replaced by 1; an IPv6 address without zone identifier is
    mapped to the address with the same first seven hextets and the last
    hextet 1, whose text ends in the segment ["1"]; a string that is not an
    address raises a network error. *)
Theorem gateway_derivation (s : string) :
  (forall n, IpAddress.ip_address (PStr s) = Ok (IpAddress.IPv4Address n) ->
     exists a b c d,
       PyStr.split "." s = [a; b; c; d]
       /\ Network.get_gateway_ip (PStr s) = Ok (PyStr.join "." [a; b; c; "1"]))
  /\ (forall n, IpAddress.ip_address (PStr s) = Ok (IpAddress.IPv6Address n None) ->
        exists r,
          Network.get_gateway_ip (PStr s) = Ok r
          /\ IpAddress.v6_string_from_ip_int (n - n mod 65536 + 1) = Ok r
          /\ List.last (PyStr.split ":" r) "" = "1")
  /\ (forall e, IpAddress.ip_address (PStr s) = Raise e ->
        exists m, Network.get_gateway_ip (PStr s) = Raise (Exn NetworkError m)).
Proof.
  split; [|split].
  - intros n Hip.
    rewrite (gateway_of_v4 (PStr s) n (ip_address_range s _ Hip) Hip).
    rewrite (v4_text_octets s n (ip_address_v4_text s n Hip)).
    unfold IpAddress.to_bytes4. cbn [map firstn app]. eauto 6.
  - intros n Hip. apply gateway_of_v6; [|exact Hip].
    apply (ip_address_range s _ Hip).
  - intros e Hip. unfold Network.get_gateway_ip. rewrite Hip. cbn [rbind].
    destruct (isinstance e AddressValueError); eexists; reflexivity.
Qed.

Lemma gateway_derivation_witness :
  Network.get_gateway_ip (PStr "172.16.0.2") = Ok "172.16.0.1"
  /\ (exists r, Network.get_gateway_ip (PStr "fd00::abcd") = Ok r
                /\ List.last (PyStr.split ":" r) "" = "1")
  /\ exists m, Network.get_gateway_ip (PStr "172.16.0") = Raise (Exn NetworkError m).
Proof.
  split; [|split].
  - destruct (gateway_derivation "172.16.0.2") as (H & _ & _).
    destruct (H 2886729730) as (a & b & c & d & Hs & Hg); [vm_compute; reflexivity|].
    vm_compute in Hs. injection Hs as <- <- <- <-. exact Hg.
  - destruct (gateway_derivation "fd00::abcd") as (_ & H & _).
    destruct (H 336294682933583715844663186250927221709) as (r & Hr & _ & Hl).
    + vm_compute. reflexivity.
    + exists r. split; assumption.
  - destruct (gateway_derivation "172.16.0") as (_ & _ & H).
    eapply H. vm_compute. reflexivity.
Defined.

Example gateway_examples :
  Network.get_gateway_ip (PStr "172.16.0.2") = Ok "172.16.0.1"
  /\ Network.get_gateway_ip (PStr "10.5.3.77") = Ok "10.5.3.1"
  /\ Network.get_gateway_ip (PStr "fd00::abcd") = Ok "fd00::1"
  /\ Network.get_gateway_ip (PStr "2001:db8::") = Ok "2001:db8::1"
  /\ Network.get_gateway_ip (PStr "::ffff:10.5.3.77") = Ok "::ffff:a05:1"
  /\ Network.get_gateway_ip (PStr "172.16.0")
     = Raise (Exn NetworkError
         "Failed to derive gateway IP: '172.16.0' does not appear to be an IPv4 or IPv6 address")
  /\ Network.get_gateway_ip (PStr "")
     = Raise (Exn NetworkError
         "Failed to derive gateway IP: '' does not appear to be an IPv4 or IPv6 address").
Proof. repeat split; vm_compute; reflexivity. Qed.


(** * Further properties *)

(** ** utils.py *)

Section Ids.
Context {W : Type} {host : Host W}.

Lemma random_chars_shape (n : nat) (w : W) :
  (forall w1, exists c w2,
      random_choice Utils.id_chars w1 = (Ok c, w2)
      /\ PyStr.mem_char c Utils.id_chars = true) ->
  exists id w',
    Utils.random_chars n w = (Ok id, w')
    /\ String.length id = n
    /\ PyStr.all_chars (fun c => PyStr.mem_char c Utils.id_chars) id = true.
Proof.
  intros Hc. revert w. induction n as [|n IH]; intros w.
  - exists "", w. repeat split.
  - destruct (Hc w) as (c & w1 & Hr & Hm). destruct (IH w1) as (id & w' & Hid & Hlen & Hall).
    exists (String c id), w'. split; [|split].
    + cbn [Utils.random_chars]. unfold bind at 1. rewrite Hr.
      unfold bind at 1. rewrite Hid. reflexivity.
    + cbn [String.length]. rewrite Hlen. reflexivity.
    + cbn [PyStr.all_chars]. rewrite Hm, Hall. reflexivity.
Qed.

End Ids.

(** X1. When [random.choice] answers with an element of the alphabet it is
    given, [generate_id] returns an identifier of exactly 8 characters, each
    a lowercase letter or a digit. *)
Theorem generate_id_shape {W : Type} {host : Host W} (w : W) :
  (forall w1, exists c w2,
      random_choice Utils.id_chars w1 = (Ok c, w2)
      /\ PyStr.mem_char c Utils.id_chars = true) ->
  exists id w',
    Utils.generate_id w = (Ok id, w')
    /\ String.length id = 8%nat
    /\ PyStr.all_chars
         (fun c => PyStr.mem_char c "abcdefghijklmnopqrstuvwxyz0123456789") id = true.
Proof. intros Hc. apply (random_chars_shape 8 w Hc). Qed.

Lemma generate_id_shape_witness :
  exists id w',
    Utils.generate_id Sim.w0 = (Ok id, w')
    /\ String.length id = 8%nat
    /\ PyStr.all_chars
         (fun c => PyStr.mem_char c "abcdefghijklmnopqrstuvwxyz0123456789") id = true.
Proof.
  apply (generate_id_shape Sim.w0).
  intros w1. exists "a"%char, w1. split; reflexivity.
Defined.

(** *** Host names *)

Lemma get_mem_char (s : string) (n : nat) (d : ascii) :
  String.get n s = Some d -> PyStr.mem_char d s = true.
Proof.
  revert n. induction s as [|c s IH]; intros n H; [discriminate|].
  cbn [PyStr.mem_char]. destruct n as [|n]; cbn [String.get] in H.
  - injection H as ->. rewrite Ascii.eqb_refl. reflexivity.
  - rewrite (IH n H). apply orb_true_r.
Qed.

Lemma endswith_mem_char (c : ascii) (s : string) :
  PyStr.endswith_char c s = true -> PyStr.mem_char c s = true.
Proof.
  unfold PyStr.endswith_char. destruct (String.length s) as [|n]; [discriminate|].
  destruct (String.get n s) as [d|] eqn:Hd; [|discriminate].
  intros H. apply Ascii.eqb_eq in H. subst d. apply (get_mem_char s n c Hd).
Qed.

Lemma is_alnum_dash (c : ascii) : Utils.is_alnum c = true -> Utils.is_alnum_or_dash c = true.
Proof. unfold Utils.is_alnum_or_dash. intros ->. reflexivity. Qed.

(** The pattern, read from both ends. *)
Lemma is_label_spec (s : string) :
  Utils.is_label s = true <->
  (1 <= String.length s <= 63)%nat
  /\ PyStr.all_chars Utils.is_alnum_or_dash s = true
  /\ (exists c, String.get 0 s = Some c /\ Utils.is_alnum c = true)
  /\ (exists d, String.get (String.length s - 1) s = Some d /\ Utils.is_alnum d = true).
Proof.
  destruct s as [|c rest].
  - split; [discriminate|]. intros (H & _). cbn in H. lia.
  - cbn [Utils.is_label String.length String.get PyStr.all_chars].
    destruct rest as [|c2 rest].
    + cbn. split.
      * intros H. rewrite andb_true_r in H.
        repeat split; try lia; eauto using is_alnum_dash.
        rewrite (is_alnum_dash c H). reflexivity.
      * intros (_ & _ & (c' & [= <-] & Hc) & _). rewrite Hc. reflexivity.
    + set (r := String c2 rest).
      assert (Hr : String.eqb r "" = false) by reflexivity. rewrite Hr. cbn [orb].
      assert (Hlast : match (S (String.length r) - 1)%nat with
                      | O => Some c
                      | S n' => String.get n' r
                      end = String.get (String.length r - 1) r).
      { unfold r. cbn [String.length]. rewrite !Nat.sub_succ, !Nat.sub_0_r. reflexivity. }
      rewrite Hlast. split.
      * intros H. apply andb_prop in H as [Hc H]. apply andb_prop in H as [H Hl].
        apply andb_prop in H as [Hlen Hall]. apply Nat.leb_le in Hlen.
        destruct (String.get (String.length r - 1) r) as [d|] eqn:Hd; [|discriminate].
        repeat split; try lia; eauto.
        rewrite (is_alnum_dash c Hc), Hall. reflexivity.
      * intros ((_ & Hlen) & Hall & (c' & [= <-] & Hc) & (d & Hd & Hda)).
        apply andb_prop in Hall as [_ Hall].
        rewrite Hc, Hall, Hd, Hda. cbn [andb].
        rewrite !andb_true_r. apply Nat.leb_le. lia.
Qed.

(** X2. A host name without a line break is accepted exactly when it has
    1 to 63 characters, all of them letters, digits or hyphens, the first
    and the last a letter or digit; any other is refused with [ValueError]. *)
Theorem validate_hostname_accepts (s : string) :
  PyStr.mem_char Utils.newline s = false ->
  (Utils.validate_hostname (PStr s) = Ok tt <->
   (1 <= String.length s <= 63)%nat
   /\ PyStr.all_chars Utils.is_alnum_or_dash s = true
   /\ (exists c, String.get 0 s = Some c /\ Utils.is_alnum c = true)
   /\ (exists d, String.get (String.length s - 1) s = Some d /\ Utils.is_alnum d = true))
  /\ (Utils.validate_hostname (PStr s) = Ok tt
      \/ Utils.validate_hostname (PStr s) = Raise (Exn ValueError ("Invalid hostname: " +:+ s))).
Proof.
  intros Hnl.
  assert (Hm : Utils.hostname_matches s = Utils.is_label s).
  { unfold Utils.hostname_matches.
    destruct (PyStr.endswith_char Utils.newline s) eqn:He.
    - apply endswith_mem_char in He. congruence.
    - apply orb_false_r. }
  unfold Utils.validate_hostname. rewrite Hm. rewrite <- is_label_spec.
  destruct (Utils.is_label s); split; auto; split; auto; discriminate.
Qed.

Lemma validate_hostname_accepts_witness :
  Utils.validate_hostname (PStr "fc-vm") = Ok tt
  /\ Utils.validate_hostname (PStr "fc_vm") = Raise (Exn ValueError "Invalid hostname: fc_vm").
Proof.
  split.
  - apply (validate_hostname_accepts "fc-vm"); [reflexivity|].
    repeat split; try (cbn; lia); try reflexivity; eexists; split; reflexivity.
  - destruct (validate_hostname_accepts "fc_vm" eq_refl) as [Hiff [H|H]]; [|exact H].
    apply Hiff in H. destruct H as (_ & H & _). discriminate H.
Defined.

Lemma get_append_last (c : ascii) (s : string) :
  String.get (String.length s) (s +:+ String c "") = Some c.
Proof.
  induction s as [|d s IH]; [reflexivity|].
  rewrite append_cons. cbn [String.length String.get]. exact IH.
Qed.

Lemma endswith_append (c : ascii) (s : string) :
  PyStr.endswith_char c (s +:+ String c "") = true.
Proof.
  unfold PyStr.endswith_char. rewrite length_append. cbn [String.length].
  rewrite Nat.add_1_r, get_append_last. apply Ascii.eqb_refl.
Qed.

(** X3. The pattern ends in [$], which also matches just before a final
    line break: a name without a line break that is accepted is accepted too
    when one newline follows it. *)
Theorem validate_hostname_trailing_newline (s : string) :
  PyStr.mem_char Utils.newline s = false ->
  Utils.validate_hostname (PStr s) = Ok tt ->
  Utils.validate_hostname (PStr (s +:+ String Utils.newline "")) = Ok tt.
Proof.
  intros Hnl Hok.
  assert (Hl : Utils.is_label s = true).
  { unfold Utils.validate_hostname, Utils.hostname_matches in Hok.
    destruct (Utils.is_label s); [reflexivity|]. cbn [orb] in Hok.
    destruct (PyStr.endswith_char Utils.newline s) eqn:He.
    - apply endswith_mem_char in He. congruence.
    - discriminate Hok. }
  unfold Utils.validate_hostname, Utils.hostname_matches.
  rewrite endswith_append.
  assert (Hlen : (String.length (s +:+ String Utils.newline "") - 1 = String.length s)%nat).
  { rewrite length_append. cbn [String.length]. lia. }
  rewrite Hlen, substring_prefix, Hl. rewrite orb_true_r. reflexivity.
Qed.

Lemma validate_hostname_trailing_newline_witness :
  Utils.validate_hostname (PStr ("fc-vm" +:+ String Utils.newline "")) = Ok tt.
Proof. apply validate_hostname_trailing_newline; reflexivity. Defined.

(** *** Addresses *)

Lemma int_literal_outcome (s t : string) (sign : Z) :
  (exists z, Py.int_literal s t sign = Ok z)
  \/ (exists m, Py.int_literal s t sign = Raise (Exn ValueError m)).
Proof.
  unfold Py.int_literal, Py.invalid_literal, raise.
  destruct (String.prefix "_" t); [eauto|].
  destruct (Py.scan_digits 0 0 false t) as [[[z digits] rest]|]; [|eauto].
  destruct (digits =? 0); [eauto|].
  destruct (Py.int_max_str_digits <? digits); [eauto|].
  destruct (Py.skip_int_space rest); eauto.
Qed.

Lemma int_of_str_outcome (p : string) :
  (exists z, Py.int_of_str p = Ok z)
  \/ (exists m, Py.int_of_str p = Raise (Exn ValueError m)).
Proof.
  unfold Py.int_of_str. destruct (Py.skip_int_space p) as [|c t].
  - apply int_literal_outcome.
  - destruct (Ascii.eqb c "-"); [apply int_literal_outcome|].
    destruct (Ascii.eqb c "+"); apply int_literal_outcome.
Qed.

(** The loop over the parts: it ends normally, or in [ValueError] (a part
    that is no number) or in the plain [Exception] of the range check. *)
Lemma octet_loop_outcome (l : list string) :
  rfold (fun (_ : unit) part =>
           let? n := Py.int_of_str part in
           if (0 <=? n) && (n <=? 255) then Ok tt
           else raise PlainException ("IP address contains invalid octet: " +:+ part))
        l tt = Ok tt
  \/ exists c m,
       rfold (fun (_ : unit) part =>
                let? n := Py.int_of_str part in
                if (0 <=? n) && (n <=? 255) then Ok tt
                else raise PlainException ("IP address contains invalid octet: " +:+ part))
             l tt = Raise (Exn c m)
       /\ (c = ValueError \/ c = PlainException).
Proof.
  induction l as [|p l IH]; [left; reflexivity|].
  cbn [rfold]. destruct (int_of_str_outcome p) as [[z Hz]|[m Hm]].
  - rewrite Hz. cbn [rbind]. destruct ((0 <=? z) && (z <=? 255)); cbn [rbind].
    + exact IH.
    + right. do 2 eexists. split; [reflexivity|auto].
  - rewrite Hm. cbn [rbind]. right. do 2 eexists. split; [reflexivity|auto].
Qed.

(** X4. [validate_ip_address] answers [True] or raises, and never touches
    the host. It answers [True] only for a non-empty string that
    [inet_aton] accepts, that has exactly four dot-separated parts and whose
    last part is not ["0"]; on a string, what it raises is a plain
    [Exception]. *)
Theorem validate_ip_address_outcome {W : Type} {host : Host W} (ip : pyval) (w : W) :
  (forall b w', Utils.validate_ip_address ip w = (Ok b, w') ->
     b = true /\ w' = w
     /\ exists s, ip = PStr s /\ s <> "" /\ inet_aton s w = true
                  /\ length (PyStr.split "." s) = 4%nat
                  /\ List.last (PyStr.split "." s) "" <> "0")
  /\ (forall s, ip = PStr s ->
        Utils.validate_ip_address ip w = (Ok true, w)
        \/ exists m, Utils.validate_ip_address ip w = (Raise (Exn PlainException m), w)).
Proof.
  unfold Utils.validate_ip_address. split.
  - intros b w'. destruct (Py.truthy ip) eqn:Ht; cbn [negb]; [|discriminate].
    destruct ip as [| |z|s]; try discriminate.
    unfold bind, read, lift.
    destruct (Py.has_char (ascii_of_nat 0) s); [discriminate|].
    destruct (inet_aton s w) eqn:Ha; cbn [negb]; [|discriminate].
    destruct (length (PyStr.split "." s) =? 4)%nat eqn:Hlen; cbn [negb]; [|discriminate].
    destruct (rfold _ (PyStr.split "." s) tt) as [[]|e]; cbn [rbind].
    + destruct (String.eqb (List.last (PyStr.split "." s) "") "0") eqn:Hl; cbn.
      * discriminate.
      * intros [= <- <-]. repeat split. exists s. repeat split; auto.
        -- intros ->. discriminate Ht.
        -- apply Nat.eqb_eq, Hlen.
        -- apply String.eqb_neq, Hl.
    + destruct (isinstance e OSError || isinstance e ValueError); discriminate.
  - intros s ->. destruct (Py.truthy (PStr s)); cbn [negb]; [|right; eexists; reflexivity].
    unfold bind, read, lift.
    destruct (Py.has_char (ascii_of_nat 0) s); [right; eexists; reflexivity|].
    destruct (inet_aton s w); cbn [negb]; [|right; eexists; reflexivity].
    destruct (length (PyStr.split "." s) =? 4)%nat; cbn [negb]; [|right; eexists; reflexivity].
    pose proof (octet_loop_outcome (PyStr.split "." s)) as Hloop.
    destruct Hloop as [H|(c & m & H & Hc)]; rewrite H; cbn [rbind].
    + destruct (String.eqb (List.last (PyStr.split "." s) "") "0");
        [right; eexists; reflexivity|left; reflexivity].
    + destruct Hc as [-> | ->]; right; eexists; reflexivity.
Qed.

Lemma validate_ip_address_outcome_witness :
  Utils.validate_ip_address (PStr "172.16.0.2") Sim.w0 = (Ok true, Sim.w0)
  /\ (exists m, Utils.validate_ip_address (PStr "172.16.0.0") Sim.w0
                = (Raise (Exn PlainException m), Sim.w0)).
Proof.
  split.
  - destruct (validate_ip_address_outcome (PStr "172.16.0.2") Sim.w0) as [_ H].
    destruct (H "172.16.0.2" eq_refl) as [Hok|[m Hm]]; [exact Hok|].
    vm_compute in Hm. discriminate Hm.
  - destruct (validate_ip_address_outcome (PStr "172.16.0.0") Sim.w0) as [_ H].
    destruct (H "172.16.0.0" eq_refl) as [Hok|Hm]; [|exact Hm].
    vm_compute in Hok. discriminate Hok.
Defined.

(** *** The public address *)

Lemma lstrip_head (s : string) :
  PyStr.lstrip s = "" \/ exists c t, PyStr.lstrip s = String c t /\ PyStr.is_space c = false.
Proof.
  induction s as [|c s IH]; [left; reflexivity|].
  cbn [PyStr.lstrip]. destruct (PyStr.is_space c) eqn:E; [exact IH|].
  right. exists c, s. split; [reflexivity|exact E].
Qed.

Lemma lstrip_fixed (c : ascii) (t : string) :
  PyStr.is_space c = false -> PyStr.lstrip (String c t) = String c t.
Proof. intros E. cbn [PyStr.lstrip]. rewrite E. reflexivity. Qed.

Lemma rstrip_head (c : ascii) (t : string) :
  PyStr.is_space c = false -> exists t', PyStr.rstrip (String c t) = String c t'.
Proof.
  intros E. cbn [PyStr.rstrip]. destruct (PyStr.rstrip t); rewrite ?E; eauto.
Qed.

Lemma rstrip_idempotent (s : string) : PyStr.rstrip (PyStr.rstrip s) = PyStr.rstrip s.
Proof.
  induction s as [|c s IH]; [reflexivity|].
  cbn [PyStr.rstrip]. destruct (PyStr.rstrip s) as [|d r] eqn:Hr.
  - destruct (PyStr.is_space c) eqn:E; [reflexivity|].
    cbn [PyStr.rstrip]. rewrite E. reflexivity.
  - cbn [PyStr.rstrip]. cbn [PyStr.rstrip] in IH.
    destruct (PyStr.rstrip r) as [|e r'] eqn:Hr'.
    + destruct (PyStr.is_space d) eqn:Ed; [discriminate IH|].
      injection IH as <-. reflexivity.
    + injection IH as <-. reflexivity.
Qed.

(** [strip] leaves nothing to strip. *)
Lemma strip_idempotent (s : string) : PyStr.strip (PyStr.strip s) = PyStr.strip s.
Proof.
  unfold PyStr.strip. destruct (lstrip_head s) as [->|(c & t & -> & E)]; [reflexivity|].
  destruct (rstrip_head c t E) as [t' Ht]. rewrite Ht, (lstrip_fixed c t' E), <- Ht.
  apply rstrip_idempotent.
Qed.

Section PublicIp.
Context {W : Type} {host : Host W}.

Lemma get_public_ip_from_ok (urls : list string) (w w' : W) (ip : string) :
  Utils.get_public_ip_from urls w = (Ok ip, w') ->
  exists url text w1,
    In url urls /\ requests_get url w1 = (Ok text, w') /\ ip = PyStr.strip text.
Proof.
  revert w. induction urls as [|url urls IH]; intros w; [discriminate|].
  cbn [Utils.get_public_ip_from].
  destruct (requests_get url w) as [[text|e] w1] eqn:Hr.
  - intros [= <- <-]. exists url, text, w. split; [left; reflexivity|]. split; [exact Hr|reflexivity].
  - destruct (isinstance e RequestException); [|discriminate].
    intros H. destruct (IH w1 H) as (u & t & w2 & Hin & Hg & Hip).
    exists u, t, w2. split; [right; exact Hin|]. split; assumption.
Qed.

Lemma get_public_ip_from_raise (urls : list string) (w w' : W) (e : exn) :
  Utils.get_public_ip_from urls w = (Raise e, w') ->
  isinstance e RequestException = false
  /\ (e = Exn RuntimeError "Failed to get public IP"
      \/ exists url w1, In url urls /\ requests_get url w1 = (Raise e, w')).
Proof.
  revert w. induction urls as [|url urls IH]; intros w.
  - intros [= <- <-]. split; [reflexivity|left; reflexivity].
  - cbn [Utils.get_public_ip_from].
    destruct (requests_get url w) as [[text|e1] w1] eqn:Hr; [discriminate|].
    destruct (isinstance e1 RequestException) eqn:Hi.
    + intros H. destruct (IH w1 H) as [Hn [He|(u & w2 & Hin & Hg)]].
      * split; [exact Hn|left; exact He].
      * split; [exact Hn|]. right. exists u, w2. split; [right; exact Hin|exact Hg].
    + intros [= <- <-]. split; [exact Hi|]. right. exists url, w.
      split; [left; reflexivity|exact Hr].
Qed.

End PublicIp.

(** X5. When [get_public_ip] returns, what it returns is the answer of one
    of the three services, stripped, and carries no white space at either
    end. *)
Theorem get_public_ip_answer {W : Type} {host : Host W} (w w' : W) (ip : string) :
  Utils.get_public_ip w = (Ok ip, w') ->
  (exists url text w1,
      In url ["https://ifconfig.me"; "https://ipinfo.io/ip"; "https://api.ipify.org"]
      /\ requests_get url w1 = (Ok text, w') /\ ip = PyStr.strip text)
  /\ PyStr.strip ip = ip.
Proof.
  intros H. destruct (get_public_ip_from_ok _ _ _ _ H) as (url & text & w1 & Hin & Hg & ->).
  split; [eauto 6|apply strip_idempotent].
Qed.

Lemma get_public_ip_answer_witness :
  exists url text w1,
    In url ["https://ifconfig.me"; "https://ipinfo.io/ip"; "https://api.ipify.org"]
    /\ requests_get url w1 = (Ok text, Sim.w0) /\ "203.0.113.5" = PyStr.strip text.
Proof.
  apply (get_public_ip_answer Sim.w0 Sim.w0 "203.0.113.5"). reflexivity.
Defined.

(** X6. A [RequestException] never leaves [get_public_ip]: a service that
    fails with one is skipped, and when all three do the error is
    [RuntimeError]; any other exception is the one a request raised. *)
Theorem get_public_ip_failure {W : Type} {host : Host W} (w w' : W) (e : exn) :
  Utils.get_public_ip w = (Raise e, w') ->
  isinstance e RequestException = false
  /\ (e = Exn RuntimeError "Failed to get public IP"
      \/ exists url w1,
           In url ["https://ifconfig.me"; "https://ipinfo.io/ip"; "https://api.ipify.org"]
           /\ requests_get url w1 = (Raise e, w')).
Proof. apply get_public_ip_from_raise. Qed.

Lemma get_public_ip_failure_witness :
  isinstance (Exn RuntimeError "Failed to get public IP") RequestException = false.
Proof.
  refine (proj1 (get_public_ip_failure (host := Sim.offline_host) Sim.w0 Sim.w0
                   (Exn RuntimeError "Failed to get public IP") _)).
  reflexivity.
Defined.

(** ** network.py *)

(** *** Loops and conditions *)

Lemma rfold_inv {A S : Type} (P : S -> Prop) (f : S -> A -> result S)
    (l : list A) (s r : S) :
  P s ->
  (forall s0 x s', In x l -> P s0 -> f s0 x = Ok s' -> P s') ->
  rfold f l s = Ok r -> P r.
Proof.
  revert s. induction l as [|x l IH]; intros s Hs Hstep H.
  - injection H as <-. exact Hs.
  - cbn [rfold] in H. apply rbind_ok in H as (s' & Hx & H).
    apply (IH s'); [|intros s0 y s1 Hy; apply Hstep; right; exact Hy|exact H].
    apply (Hstep s x s'); [left; reflexivity|exact Hs|exact Hx].
Qed.

Lemma and_then_true (a b : result bool) :
  and_then a b = Ok true -> a = Ok true /\ b = Ok true.
Proof.
  unfold and_then. destruct a as [[]|e]; cbn [rbind]; intros H;
    [split; [reflexivity|exact H]|discriminate|discriminate].
Qed.

(** *** Rules of a tap device *)

(** X7. Every entry [find_tap_interface_rules] returns has the keys
    [handle], [chain] and [interface], and its interface is a string of
    which the tap name is a part (not necessarily the whole). *)
Theorem find_tap_interface_rules_sound (rules : json) (tap_name : pyval) (found : list json) :
  Network.find_tap_interface_rules rules tap_name = Ok found ->
  Forall (fun r => exists t h c i,
            tap_name = PStr t
            /\ r = JDict [("handle", h); ("chain", c); ("interface", JS i)]
            /\ PyStr.contains t i = true) found.
Proof.
  unfold Network.find_tap_interface_rules. intros H.
  apply rbind_ok in H as (items & _ & H).
  eapply rfold_inv in H; [exact H|constructor|].
  clear. intros acc item acc' _ Hacc Hstep. cbv beta in Hstep.
  apply rbind_ok in Hstep as (has_rule & _ & Hstep).
  destruct has_rule; cbn [negb] in Hstep; [|injection Hstep as <-; exact Hacc].
  apply rbind_ok in Hstep as (rule & _ & Hstep).
  apply rbind_ok in Hstep as (has_expr & _ & Hstep).
  destruct has_expr; cbn [negb] in Hstep; [|injection Hstep as <-; exact Hacc].
  apply rbind_ok in Hstep as (exprs & _ & Hstep).
  eapply rfold_inv in Hstep; [exact Hstep|exact Hacc|].
  clear. intros acc expr acc' _ Hacc Hstep. cbv beta in Hstep.
  apply rbind_ok in Hstep as (hit & Hhit & Hstep).
  destruct hit; [|injection Hstep as <-; exact Hacc].
  apply and_then_true in Hhit as [_ Hhit]. apply and_then_true in Hhit as [_ Hhit].
  apply and_then_true in Hhit as [Hstr Hin].
  apply rbind_ok in Hstr as (r & Hr & [= Hstr]). rewrite Hr in Hin. cbn [rbind] in Hin.
  apply rbind_ok in Hstep as (handle & _ & Hstep).
  apply rbind_ok in Hstep as (chain & _ & Hstep).
  rewrite Hr in Hstep. cbn [rbind] in Hstep. injection Hstep as <-.
  apply Forall_app. split; [exact Hacc|]. constructor; [|constructor].
  destruct r as [[| | |i]| |]; try discriminate Hstr.
  destruct tap_name as [| | |t]; try discriminate Hin.
  cbn [Json.has] in Hin. injection Hin as Hin.
  exists t, handle, chain, i. repeat split. exact Hin.
Qed.

Lemma find_tap_interface_rules_sound_witness :
  Forall (fun r => exists t h c i,
            PStr "tap_abc" = PStr t
            /\ r = JDict [("handle", h); ("chain", c); ("interface", JS i)]
            /\ PyStr.contains t i = true)
    [JDict [("handle", JI 7); ("chain", JS "FORWARD"); ("interface", JS "tap_abc12345")]].
Proof.
  apply (find_tap_interface_rules_sound
           (JList [JDict [("chain", JDict [("name", JS "FORWARD")])];
                   JDict [("rule", JDict [
                     ("family", JS "ip"); ("table", JS "filter"); ("chain", JS "FORWARD");
                     ("handle", JI 7);
                     ("expr", JList [
                       JDict [("match", JDict [("left", JDict [("meta", JDict [("key", JS "iifname")])]);
                                               ("op", JS "=="); ("right", JS "tap_abc12345")])];
                       JDict [("match", JDict [("left", JDict [("meta", JDict [("key", JS "oifname")])]);
                                               ("op", JS "=="); ("right", JS "eth0")])];
                       JDict [("counter", JDict [("packets", JI 0); ("bytes", JI 0)])];
                       JDict [("accept", JNone)]])])]])
           (PStr "tap_abc")).
  vm_compute. reflexivity.
Defined.

Lemma rfold_collects {A B : Type} (f : list B -> A -> result (list B)) (Q : A -> Prop)
    (b : B) (l : list A) (s r : list B) :
  (forall s0 x s', f s0 x = Ok s' -> incl s0 s') ->
  (forall s0 x s', Q x -> f s0 x = Ok s' -> In b s') ->
  (exists x, In x l /\ Q x) ->
  rfold f l s = Ok r -> In b r.
Proof.
  intros Hgrow Hhit. revert s. induction l as [|x l IH]; intros s (y & Hy & HQ) H;
    [destruct Hy|].
  cbn [rfold] in H. apply rbind_ok in H as (s' & Hx & H).
  destruct Hy as [<-|Hy].
  - assert (Hin : In b s') by (apply (Hhit s x s' HQ Hx)).
    eapply (rfold_inv (fun acc => In b acc)) in H; [exact H|exact Hin|].
    intros s0 z s1 _ Hb Hz. apply (Hgrow s0 z s1 Hz), Hb.
  - apply (IH s'); [exists y; split; assumption|exact H].
Qed.

Lemma assoc_has (k : string) (d : list (string * json)) (v : json) :
  Json.assoc k d = Some v ->
  Json.has k (JDict d) = Ok true /\ Json.getitem (JDict d) k = Ok v.
Proof.
  intros H. cbn [Json.has Json.getitem]. rewrite H. split; [|reflexivity].
  rewrite bool_decide_eq_true_2; eauto.
Qed.

Section TapRules.
Variable tap_name : pyval.
Variable rule : json.

(** The body of the inner loop of [find_tap_interface_rules]. *)
Lemma tap_rule_step_grows (acc : list json) (expr : json) (acc' : list json) :
  (let? hit :=
        and_then (Json.has "match" expr)
       (and_then (rbind (Json.getitem expr "match") (Json.has "right"))
       (and_then (rbind (Json.getpath expr ["match"; "right"]) (fun r => Ok (Json.is_str r)))
                 (let? r := Json.getpath expr ["match"; "right"] in
                  match tap_name with
                  | PStr t => Json.has t r
                  | _ => raise TypeError
                           ("'in <string>' requires string as left operand, not "
                              +:+ Py.type_name tap_name)
                  end))) in
   if hit then
     let? handle := Json.getitem rule "handle" in
     let? chain := Json.getitem rule "chain" in
     let? iface := Json.getpath expr ["match"; "right"] in
     Ok (acc ++ [JDict [("handle", handle); ("chain", chain); ("interface", iface)]])
   else Ok acc) = Ok acc' ->
  incl acc acc'.
Proof.
  intros H. apply rbind_ok in H as (hit & _ & H).
  destruct hit; [|injection H as <-; apply incl_refl].
  apply rbind_ok in H as (handle & _ & H). apply rbind_ok in H as (chain & _ & H).
  apply rbind_ok in H as (iface & _ & [= <-]). apply incl_appl, incl_refl.
Qed.

End TapRules.

(** X8. Conversely, when the scan of a listing ends normally, every match
    expression whose right-hand side is a string containing the tap name, in
    a rule that carries a handle and a chain, is reported with that handle,
    chain and string. *)
Theorem find_tap_interface_rules_complete (items : list json) (t : string)
    (found : list json) (d fields ed md : list (string * json)) (exprs : list json)
    (h c : json) (i : string) :
  Network.find_tap_interface_rules (JList items) (PStr t) = Ok found ->
  In (JDict d) items ->
  Json.assoc "rule" d = Some (JDict fields) ->
  Json.assoc "expr" fields = Some (JList exprs) ->
  Json.assoc "handle" fields = Some h ->
  Json.assoc "chain" fields = Some c ->
  In (JDict ed) exprs ->
  Json.assoc "match" ed = Some (JDict md) ->
  Json.assoc "right" md = Some (JS i) ->
  PyStr.contains t i = true ->
  In (JDict [("handle", h); ("chain", c); ("interface", JS i)]) found.
Proof.
  intros H Hitem Hrule Hexpr Hh Hc He Hm Hr Hin.
  unfold Network.find_tap_interface_rules in H. cbn [Json.iter rbind] in H.
  eapply (rfold_collects _ (fun x => x = JDict d)) in H; [exact H| | |eauto].
  - clear. intros acc item acc' Hstep. cbv beta in Hstep.
    apply rbind_ok in Hstep as (has_rule & _ & Hstep).
    destruct has_rule; cbn [negb] in Hstep; [|injection Hstep as <-; apply incl_refl].
    apply rbind_ok in Hstep as (rule & _ & Hstep).
    apply rbind_ok in Hstep as (has_expr & _ & Hstep).
    destruct has_expr; cbn [negb] in Hstep; [|injection Hstep as <-; apply incl_refl].
    apply rbind_ok in Hstep as (exprs & _ & Hstep).
    eapply (rfold_inv (fun a => incl acc a)) in Hstep; [exact Hstep|apply incl_refl|].
    intros a e a' _ Ha Hs. eapply incl_tran; [exact Ha|].
    exact (tap_rule_step_grows (PStr t) rule a e a' Hs).
  - intros acc item acc' -> Hstep. cbv beta in Hstep.
    destruct (assoc_has _ _ _ Hrule) as [Hhas Hget]. rewrite Hhas, Hget in Hstep.
    cbn [rbind negb] in Hstep.
    destruct (assoc_has _ _ _ Hexpr) as [Hhas' Hget']. rewrite Hhas', Hget' in Hstep.
    cbn [rbind negb Json.iter] in Hstep.
    eapply (rfold_collects _ (fun x => x = JDict ed)) in Hstep; [exact Hstep| | |eauto].
    + intros a e a' Hs. exact (tap_rule_step_grows (PStr t) (JDict fields) a e a' Hs).
    + intros a e a' -> Hs.
      destruct (assoc_has _ _ _ Hm) as [Hhm Hgm]. destruct (assoc_has _ _ _ Hr) as [Hhr Hgr].
      destruct (assoc_has _ _ _ Hh) as [_ Hgh]. destruct (assoc_has _ _ _ Hc) as [_ Hgc].
      cbn [Json.getpath] in Hs. rewrite Hhm, Hgm in Hs. cbn [rbind and_then] in Hs.
      unfold and_then at 1 in Hs. cbn [rbind] in Hs.
      rewrite Hhr, Hgr in Hs. unfold and_then in Hs. cbn [rbind Json.is_str JS Json.has] in Hs.
      rewrite Hin in Hs. cbn [rbind] in Hs. rewrite Hgh, Hgc in Hs. cbn [rbind] in Hs.
      injection Hs as <-. apply in_or_app. right. left. reflexivity.
Qed.

(** The FORWARD rule that [add_nat_rules] installs for a tap device, as the
    filter table lists it under handle 7. *)
Lemma find_tap_interface_rules_complete_witness :
  In (JDict [("handle", JI 7); ("chain", JS "FORWARD"); ("interface", JS "tap_abc12345")])
     [JDict [("handle", JI 7); ("chain", JS "FORWARD"); ("interface", JS "tap_abc12345")]].
Proof.
  pose (m1 := [("left", JDict [("meta", JDict [("key", JS "iifname")])]);
               ("op", JS "=="); ("right", JS "tap_abc12345")]).
  pose (e1 := [("match", JDict m1)]).
  pose (exprs := [JDict e1;
                  JDict [("match", JDict [("left", JDict [("meta", JDict [("key", JS "oifname")])]);
                                          ("op", JS "=="); ("right", JS "eth0")])];
                  JDict [("counter", JDict [("packets", JI 0); ("bytes", JI 0)])];
                  JDict [("accept", JNone)]]).
  pose (fields := [("family", JS "ip"); ("table", JS "filter"); ("chain", JS "FORWARD");
                   ("handle", JI 7); ("expr", JList exprs)]).
  pose (d := [("rule", JDict fields)]).
  apply (find_tap_interface_rules_complete [JDict d] "tap_abc12345"
           [JDict [("handle", JI 7); ("chain", JS "FORWARD"); ("interface", JS "tap_abc12345")]]
           d fields e1 m1 exprs (JI 7) (JS "FORWARD") "tap_abc12345");
    try reflexivity; left; reflexivity.
Defined.

(** *** Port forwards *)

Lemma port_forward_step_shape (host_ip host_port dest_ip dest_port : pyval)
    (rules rules' : gmap string json) (item : json) :
  Network.port_forward_step host_ip host_port dest_ip dest_port rules item = Ok rules' ->
  rules' = rules
  \/ (exists h, rules' = <["prerouting" := h]> rules)
  \/ (exists h, rules' = <["postrouting" := h]> rules).
Proof.
  unfold Network.port_forward_step. intros H.
  apply rbind_ok in H as (has_rule & _ & H).
  destruct has_rule; cbn [negb] in H; [|left; congruence].
  apply rbind_ok in H as (rule & _ & H). apply rbind_ok in H as (family & _ & H).
  apply rbind_ok in H as (table & _ & H). apply rbind_ok in H as (chain & _ & H).
  destruct (Json.eq_val family (PStr "ip") && Json.eq_val table (PStr "nat")
            && Json.eq_val chain (PStr "prerouting")).
  - apply rbind_ok in H as (expr & _ & H).
    apply rbind_ok in H as ([[da dp] dn] & _ & H).
    destruct (da && dp && dn); [|left; congruence].
    apply rbind_ok in H as (h & _ & [= <-]). right. left. eauto.
  - destruct (Json.eq_val family (PStr "ip") && Json.eq_val table (PStr "nat")
              && (Json.eq_val chain (PStr "postrouting")
                  || Json.eq_val chain (PStr "POSTROUTING"))); [|left; congruence].
    apply rbind_ok in H as (expr & _ & H).
    apply rbind_ok in H as ([sa mq] & _ & H).
    destruct (sa && mq); [|left; congruence].
    apply rbind_ok in H as (h & _ & [= <-]). right. right. eauto.
Qed.

(** X9. The handles [get_port_forward_handles] returns are filed under
    [prerouting] and [postrouting] and under no other key: the key
    [postrouting_chain], which [delete_port_forward] consults to choose
    between the chains [POSTROUTING] and [postrouting], is never set. *)
Theorem port_forward_handles_keys {W : Type} {host : Host W}
    (host_ip host_port dest_ip dest_port : pyval) (w w' : W) (rules : gmap string json) :
  Network.get_port_forward_handles host_ip host_port dest_ip dest_port w = (Ok rules, w') ->
  (forall k, is_Some (rules !! k) -> k = "prerouting" \/ k = "postrouting")
  /\ rules !! "postrouting_chain" = None.
Proof.
  intros H.
  assert (Hkeys : forall k, is_Some (rules !! k) -> k = "prerouting" \/ k = "postrouting").
  { unfold Network.get_port_forward_handles, try_except in H.
    unfold bind at 1 in H.
    destruct (nft_json_cmd (Network.list_table_cmd "nat") w) as [[[[rc output] error]|e] w1];
      [|discriminate].
    unfold lift in H.
    destruct (let? result := rbind (Json.getitem output "nftables") Json.iter in
              rfold (Network.port_forward_step host_ip host_port dest_ip dest_port) result ∅)
      as [r|e] eqn:Hr; [|discriminate].
    injection H as -> <-.
    apply rbind_ok in Hr as (items & _ & Hr).
    refine (rfold_inv (fun m : gmap string json =>
              forall k, is_Some (m !! k) -> k = "prerouting" \/ k = "postrouting")
              _ items ∅ rules _ _ Hr).
    - intros k [x Hx]. rewrite lookup_empty in Hx. discriminate.
    - intros m item m' _ Hm Hstep k Hk.
      apply port_forward_step_shape in Hstep as [->|[[h ->]|[h ->]]]; [auto| |].
      + destruct (decide (k = "prerouting")) as [->|Hne]; [auto|].
        rewrite lookup_insert_ne in Hk by congruence. auto.
      + destruct (decide (k = "postrouting")) as [->|Hne]; [auto|].
        rewrite lookup_insert_ne in Hk by congruence. auto. }
  split; [exact Hkeys|].
  destruct (rules !! "postrouting_chain") eqn:E; [|reflexivity].
  destruct (Hkeys "postrouting_chain") as [Hk|Hk]; [eauto|discriminate Hk|discriminate Hk].
Qed.

Lemma port_forward_handles_keys_witness :
  (<["prerouting" := JI 13]> (<["postrouting" := JI 14]> ∅) : gmap string json)
    !! "postrouting_chain" = None.
Proof.
  refine (proj2 (port_forward_handles_keys (PStr "203.0.113.5") (PInt 2222)
                   (PStr "172.16.9.2") (PInt 22) Sim.w1 Sim.w1 _ _)).
  vm_compute. reflexivity.
Defined.

Lemma Py_eqb_refl (v : pyval) : Py.eqb v v = true.
Proof.
  destruct v as [|b|z|s]; cbn [Py.eqb].
  - reflexivity.
  - destruct b; reflexivity.
  - apply Z.eqb_refl.
  - apply String.eqb_refl.
Qed.

Lemma rfold_app {A S : Type} (f : S -> A -> result S) (l1 l2 : list A) (s : S) :
  rfold f (l1 ++ l2) s = rbind (rfold f l1 s) (rfold f l2).
Proof.
  revert s. induction l1 as [|x l1 IH]; intros s; [reflexivity|].
  cbn [app rfold]. destruct (f s x) as [s'|e]; cbn [rbind]; [apply IH|reflexivity].
Qed.

Lemma port_forward_step_skips (host_ip host_port dest_ip dest_port : pyval)
    (l : list json) (rules : gmap string json) :
  Forall (fun item => Json.has "rule" item = Ok false) l ->
  rfold (Network.port_forward_step host_ip host_port dest_ip dest_port) l rules = Ok rules.
Proof.
  intros H. revert rules. induction H as [|item l Hi _ IH]; intros rules; [reflexivity|].
  cbn [rfold]. rewrite (port_forward_step_not_rule _ _ _ _ _ _ Hi). cbn [rbind]. apply IH.
Qed.

(** The two rules [add_port_forward] writes are the two
    [get_port_forward_handles] looks for. *)
Lemma port_forward_step_postrouting (host_ip host_port dest_ip dest_port : pyval)
    (rules : gmap string json) :
  Network.port_forward_step host_ip host_port dest_ip dest_port rules
    (Network.port_forward_postrouting_rule dest_ip)
  = Ok (<["postrouting" := JI 14]> rules).
Proof.
  unfold Network.port_forward_step, Network.port_forward_postrouting_rule.
  cbn. rewrite Py_eqb_refl. reflexivity.
Qed.

Lemma port_forward_step_prerouting (host_ip host_port dest_ip dest_port protocol : pyval)
    (rules : gmap string json) :
  Network.port_forward_step host_ip host_port dest_ip dest_port rules
    (Network.port_forward_prerouting_rule host_ip host_port dest_ip dest_port protocol)
  = Ok (<["prerouting" := JI 13]> rules).
Proof.
  unfold Network.port_forward_step, Network.port_forward_prerouting_rule.
  cbn. rewrite !Py_eqb_refl. cbn. rewrite ?Py_eqb_refl. cbn. reflexivity.
Qed.

(** X10. A forward is found again, and removed, through the rules that
    [add_port_forward] writes for it: when the nat table lists the two
    rules, among items that are no rules, [get_port_forward_handles] returns
    their handles 13 and 14, and [delete_port_forward] deletes handle 13 from
    chain [prerouting], then handle 14 from chain [postrouting]. *)
Theorem port_forward_found_again {W : Type} {host : Host W}
    (host_ip host_port dest_ip dest_port protocol : pyval)
    (pre mid post : list json) (rc : Z) (error : string) (w w1 : W) :
  Forall (fun item => Json.has "rule" item = Ok false) (pre ++ mid ++ post) ->
  nft_json_cmd (Network.list_table_cmd "nat") w
  = (Ok (rc,
         JDict [("nftables",
                 JList (pre ++ Network.port_forward_postrouting_rule dest_ip
                            :: mid ++ Network.port_forward_prerouting_rule
                                        host_ip host_port dest_ip dest_port protocol
                            :: post))],
         error), w1) ->
  Network.get_port_forward_handles host_ip host_port dest_ip dest_port w
  = (Ok (<["prerouting" := JI 13]> (<["postrouting" := JI 14]> ∅)), w1)
  /\ Network.delete_port_forward host_ip host_port dest_ip dest_port w
     = match nft_cmd "delete rule nat prerouting handle 13" w1 with
       | (Ok _, w2) =>
           match nft_cmd "delete rule nat postrouting handle 14" w2 with
           | (Ok _, w3) => (Ok tt, w3)
           | (Raise e, w3) =>
               (Raise (Exn NetworkError
                         ("Failed to delete port forward rules: " +:+ exn_msg e)), w3)
           end
       | (Raise e, w2) =>
           (Raise (Exn NetworkError ("Failed to delete port forward rules: " +:+ exn_msg e)),
            w2)
       end.
Proof.
  intros Hrest Hlist.
  apply Forall_app in Hrest as [Hpre Hrest]. apply Forall_app in Hrest as [Hmid Hpost].
  assert (Hget : Network.get_port_forward_handles host_ip host_port dest_ip dest_port w
                 = (Ok (<["prerouting" := JI 13]> (<["postrouting" := JI 14]> ∅)), w1)).
  { unfold Network.get_port_forward_handles, try_except. unfold bind at 1. rewrite Hlist.
    unfold lift. cbn [Json.getitem Json.assoc String.eqb Ascii.eqb Bool.eqb rbind Json.iter].
    rewrite rfold_app, port_forward_step_skips by exact Hpre. cbn [rbind rfold].
    rewrite port_forward_step_postrouting. cbn [rbind].
    rewrite rfold_app, port_forward_step_skips by exact Hmid. cbn [rbind rfold].
    rewrite port_forward_step_prerouting. cbn [rbind].
    rewrite port_forward_step_skips by exact Hpost. reflexivity. }
  split; [exact Hget|].
  unfold Network.delete_port_forward. unfold bind at 1. rewrite Hget.
  rewrite bool_decide_eq_false_2 by (apply insert_non_empty).
  rewrite lookup_insert_eq.
  rewrite lookup_insert_ne, lookup_insert_eq by discriminate.
  rewrite !lookup_insert_ne, lookup_empty by discriminate.
  unfold try_except, bind, ret, throw, raise.
  change (Json.to_str (JI 13)) with "13". change (Json.to_str (JI 14)) with "14".
  cbn [default Json.eq_val JNone Py.eqb].
  change ("delete rule nat prerouting handle " +:+ "13")
    with "delete rule nat prerouting handle 13".
  change ("delete rule nat " +:+ "postrouting" +:+ " handle " +:+ "14")
    with "delete rule nat postrouting handle 14".
  destruct (nft_cmd "delete rule nat prerouting handle 13" w1) as [[r|e] w2]; [|reflexivity].
  destruct (nft_cmd "delete rule nat postrouting handle 14" w2) as [[r'|e] w3]; reflexivity.
Qed.

Lemma port_forward_found_again_witness :
  Network.get_port_forward_handles (PStr "203.0.113.5") (PInt 8080) (PStr "172.16.0.2")
    (PInt 80)
    (Sim.set_nat_table (Sim.forwarded (PStr "203.0.113.5") (PInt 8080) (PStr "172.16.0.2") (PInt 80))
       Sim.w0)
  = (Ok (<["prerouting" := JI 13]> (<["postrouting" := JI 14]> ∅)),
     Sim.set_nat_table (Sim.forwarded (PStr "203.0.113.5") (PInt 8080) (PStr "172.16.0.2") (PInt 80))
       Sim.w0).
Proof.
  refine (proj1 (port_forward_found_again (PStr "203.0.113.5") (PInt 8080) (PStr "172.16.0.2")
                   (PInt 80) (PStr "tcp")
                   [JDict [("table", JDict [("family", JS "ip"); ("name", JS "nat");
                                            ("handle", JI 91)])];
                    Network.nat_chain "PREROUTING" 2 "prerouting" (-100);
                    Network.nat_chain "OUTPUT" 4 "output" (-100);
                    Network.nat_chain "POSTROUTING" 6 "postrouting" 100;
                    Network.nat_chain "postrouting" 11 "postrouting" 100;
                    Network.nat_chain "prerouting" 12 "prerouting" (-100)]
                   [] [] 0 "" _ _ _ _)).
  - repeat constructor.
  - reflexivity.
Defined.

(** *** Masquerading *)

Lemma rfind_skips {A B : Type} (f : A -> result (option B)) (pre l : list A) :
  Forall (fun x => f x = Ok None) pre -> rfind f (pre ++ l) = rfind f l.
Proof.
  induction 1 as [|x pre Hx _ IH]; [reflexivity|].
  cbn [app rfind]. rewrite Hx. cbn [rbind]. exact IH.
Qed.

(** The rule [ensure_masquerade] adds is the one [get_masquerade_handle]
    looks for. *)
Lemma masquerade_rule_recognised (iface_name : pyval) (h item : json) :
  Spec.listed_rule (Network.masquerade_cmd iface_name) h = Some item ->
  Network.masquerade_handle_of iface_name item = Ok (Some h).
Proof.
  intros H. cbn in H. injection H as <-.
  unfold Network.masquerade_handle_of. cbn. rewrite Py_eqb_refl. reflexivity.
Qed.

(** X11. [ensure_masquerade] adds nothing when the rule is there: if the nat
    table lists the rule that [ensure_masquerade] adds for the interface,
    under a handle, and no such rule before it, the only request made is the
    listing, and the answer is that handle. *)
Theorem ensure_masquerade_existing {W : Type} {host : Host W}
    (iface_name : pyval) (h item : json) (pre post : list json) (error : string) (w w1 : W) :
  Spec.listed_rule (Network.masquerade_cmd iface_name) h = Some item ->
  Json.eq_val h PNone = false ->
  Forall (fun x => Network.masquerade_handle_of iface_name x = Ok None) pre ->
  nft_json_cmd (Network.list_table_cmd "nat") w
  = (Ok (0, JDict [("nftables", JList (pre ++ item :: post))], error), w1) ->
  Network.get_masquerade_handle iface_name w = (Ok h, w1)
  /\ Network.ensure_masquerade iface_name w = (Ok h, w1).
Proof.
  intros Hitem Hh Hpre Hlist.
  assert (Hget : Network.get_masquerade_handle iface_name w = (Ok h, w1)).
  { unfold Network.get_masquerade_handle. unfold bind at 1. rewrite Hlist.
    cbn [Z.eqb]. unfold lift.
    cbn [Json.getitem Json.assoc String.eqb Ascii.eqb Bool.eqb rbind Json.iter].
    rewrite rfind_skips by exact Hpre. cbn [rfind].
    rewrite (masquerade_rule_recognised _ _ _ Hitem). reflexivity. }
  split; [exact Hget|].
  unfold Network.ensure_masquerade. unfold bind at 1. rewrite Hget, Hh. reflexivity.
Qed.

Lemma ensure_masquerade_existing_witness :
  Network.ensure_masquerade (PStr "eth0")
    (Sim.set_nat_table
       (Some [Network.nat_chain "POSTROUTING" 6 "postrouting" 100;
              default JNone (Spec.listed_rule (Network.masquerade_cmd (PStr "eth0")) (JI 5))])
       Sim.w0)
  = (Ok (JI 5),
     Sim.set_nat_table
       (Some [Network.nat_chain "POSTROUTING" 6 "postrouting" 100;
              default JNone (Spec.listed_rule (Network.masquerade_cmd (PStr "eth0")) (JI 5))])
       Sim.w0).
Proof.
  refine (proj2 (ensure_masquerade_existing (PStr "eth0") (JI 5) _
                   [Network.nat_chain "POSTROUTING" 6 "postrouting" 100] [] "" _ _ _ _ _ _)).
  - reflexivity.
  - reflexivity.
  - repeat constructor.
  - reflexivity.
Defined.

(** *** Tap devices and the manager's own configuration *)

Lemma check_tap_device_reads {W : Type} {host : Host W} (name : pyval) (w : W) :
  Network.check_tap_device name w
  = (Ok (match link_lookup name w with [] => false | _ :: _ => true end), w).
Proof.
  unfold Network.check_tap_device, try_except, bind, read.
  destruct (link_lookup name w); reflexivity.
Qed.

(** X12. [create_tap] does nothing at all for a device that already
    exists: no rule is added and no address assigned, whatever gateway
    address and bridge setting are passed. *)
Theorem create_tap_existing_device {W : Type} {host : Host W}
    (nm : Network.NetworkManager) (name iface_name gateway_ip bridge : pyval) (w : W) :
  Py.truthy name = true ->
  (Py.truthy iface_name = false
   \/ exists s, iface_name = PStr s /\ (String.length s <= 16)%nat) ->
  link_lookup name w <> [] ->
  Network.create_tap nm name iface_name gateway_ip bridge w = (Ok tt, w).
Proof.
  intros Hname Hiface Hlink. unfold Network.create_tap.
  unfold bind at 1. unfold lift, or_else. rewrite Hname. cbn [negb rbind].
  assert (Hguard : (if Py.truthy iface_name
                    then let? n := Py.len iface_name in Ok (16 <? n)
                    else Ok false) = Ok false).
  { destruct Hiface as [->|(s & -> & Hlen)]; [reflexivity|].
    destruct (Py.truthy (PStr s)); [|reflexivity]. cbn [Py.len rbind].
    f_equal. apply Z.ltb_ge. lia. }
  rewrite Hguard. unfold try_except. unfold bind at 1.
  rewrite check_tap_device_reads.
  destruct (link_lookup name w) as [|idx rest]; [congruence|]. reflexivity.
Qed.

Lemma create_tap_existing_device_witness :
  Network.create_tap {| Network.nm_config := Config.MicroVMConfig |}
    (PStr "tap_abc12345") (PStr "eth0") (PStr "172.16.0.1") (PBool false)
    (Sim.set_links [("tap_abc12345", 7)] Sim.w1)
  = (Ok tt, Sim.set_links [("tap_abc12345", 7)] Sim.w1).
Proof.
  apply create_tap_existing_device.
  - reflexivity.
  - right. exists "eth0". split; [reflexivity|cbn; lia].
  - discriminate.
Defined.

(** X13. A [NetworkManager] keeps a configuration of its own, made of the
    defaults and of [verbose]: whatever the VM is configured with, for the
    manager [bridge] is [False] and [bridge_name] is ["docker0"], so that
    [cleanup] always removes the filter rules of the tap before the tap. *)
Theorem network_manager_own_config {W : Type} {host : Host W}
    (verbose : pyval) (w w' : W) (nm : Network.NetworkManager) :
  Network.NetworkManager_new verbose w = (Ok nm, w') ->
  Config.getattr (Network.nm_config nm) "verbose" = Ok verbose
  /\ Config.getattr (Network.nm_config nm) "bridge" = Ok (PBool false)
  /\ Config.getattr (Network.nm_config nm) "bridge_name" = Ok (PStr "docker0")
  /\ forall tap_device w0,
       Network.cleanup nm tap_device w0
       = (do! Network.delete_nat_rules tap_device in Network.delete_tap tap_device) w0.
Proof.
  unfold Network.NetworkManager_new.
  change (Config.setattr Config.MicroVMConfig "verbose" verbose)
    with (@Ok (gmap string pyval) (<["verbose" := verbose]> Config.MicroVMConfig)).
  unfold bind at 1. unfold lift at 1. unfold bind at 1.
  destruct (Nftables_new w) as [[[]|e] w1]; [|discriminate].
  intros H.
  apply (f_equal (fun p => match fst p with
                           | Ok n => Network.nm_config n
                           | Raise _ => Config.MicroVMConfig
                           end)) in H.
  unfold ret in H. cbn [fst Network.nm_config] in H. rewrite <- H.
  assert (Hv : Config.getattr (<["verbose" := verbose]> Config.MicroVMConfig) "verbose"
               = Ok verbose).
  { unfold Config.getattr. rewrite lookup_insert_eq. reflexivity. }
  assert (Hb : Config.getattr (<["verbose" := verbose]> Config.MicroVMConfig) "bridge"
               = Ok (PBool false)).
  { unfold Config.getattr. rewrite lookup_insert_ne by discriminate.
    vm_compute. reflexivity. }
  assert (Hn : Config.getattr (<["verbose" := verbose]> Config.MicroVMConfig)
                 "bridge_name" = Ok (PStr "docker0")).
  { unfold Config.getattr. rewrite lookup_insert_ne by discriminate.
    vm_compute. reflexivity. }
  repeat split; try assumption.
  intros tap_device w0. unfold Network.cleanup.
  unfold bind at 1. unfold lift. rewrite <- H, Hb. reflexivity.
Qed.

Lemma network_manager_own_config_witness :
  Config.getattr (<["verbose" := PBool true]> Config.MicroVMConfig) "bridge_name"
  = Ok (PStr "docker0").
Proof.
  refine (proj1 (proj2 (proj2 (network_manager_own_config (PBool true) Sim.w0 Sim.w0
            {| Network.nm_config := <["verbose" := PBool true]> Config.MicroVMConfig |}
            _)))).
  reflexivity.
Defined.

(** *** Errors *)

Lemma try_except_throws {W A : Type} (m : M W A) (c : exn_class) (msg : exn -> string)
    (w w' : W) (e : exn) :
  try_except m (fun e0 => throw c (msg e0)) w = (Raise e, w') -> exn_cls e = c.
Proof.
  unfold try_except, throw, raise. destruct (m w) as [[a|e0] w1]; [discriminate|].
  intros [= <- _]. reflexivity.
Qed.

(** X14. What the lookups and the teardown of a forward raise is a network
    error: [check_bridge_device], [attach_tap_to_bridge],
    [get_port_forward_handles] and [delete_port_forward] raise nothing
    else, and the first of them never changes the host. *)
Theorem network_errors {W : Type} {host : Host W} (w w' : W) (e : exn) :
  (forall bridge_name r, Network.check_bridge_device bridge_name w = (r, w') ->
     w' = w /\ (r = Raise e -> exn_cls e = NetworkError))
  /\ (forall iface_name bridge_name,
        Network.attach_tap_to_bridge iface_name bridge_name w = (Raise e, w') ->
        exn_cls e = NetworkError)
  /\ (forall host_ip host_port dest_ip dest_port,
        Network.get_port_forward_handles host_ip host_port dest_ip dest_port w = (Raise e, w') ->
        exn_cls e = NetworkError)
  /\ (forall host_ip host_port dest_ip dest_port,
        Network.delete_port_forward host_ip host_port dest_ip dest_port w = (Raise e, w') ->
        exn_cls e = NetworkError).
Proof.
  split; [|split; [|split]].
  - intros bridge_name r H. split.
    + unfold Network.check_bridge_device, try_except in H. unfold bind at 1 in H.
      unfold read in H. destruct (link_lookup bridge_name w) as [|l0 ls].
      * cbn in H. exact (eq_sym (f_equal snd H)).
      * unfold bind at 1 in H. destruct (get_links l0 w) as [|link_info infos].
        -- cbn in H. exact (eq_sym (f_equal snd H)).
        -- unfold lift in H.
           match type of H with
           | context [let? attrs := ?a in @?k attrs] =>
               destruct (rbind a k) as [v|e0]
           end; cbn in H; exact (eq_sym (f_equal snd H)).
    + intros ->. apply (try_except_throws _ _ _ _ _ _ H).
  - intros iface_name bridge_name H. apply (try_except_throws _ _ _ _ _ _ H).
  - intros host_ip host_port dest_ip dest_port H. apply (try_except_throws _ _ _ _ _ _ H).
  - intros host_ip host_port dest_ip dest_port H.
    unfold Network.delete_port_forward in H. unfold bind at 1 in H.
    destruct (Network.get_port_forward_handles host_ip host_port dest_ip dest_port w)
      as [[rules|e0] w1] eqn:Hg.
    + destruct (bool_decide (rules = ∅)); [discriminate|].
      apply (try_except_throws _ _ _ _ _ _ H).
    + injection H as <- <-. apply (try_except_throws _ _ _ _ _ _ Hg).
Qed.

Lemma network_errors_witness :
  exn_cls (Exn NetworkError "Failed to check bridge device docker0: list index out of range")
  = NetworkError.
Proof.
  refine (proj2 (proj1 (network_errors (Sim.set_links [("docker0", 3)] Sim.w0)
                          (Sim.set_links [("docker0", 3)] Sim.w0)
                          (Exn NetworkError
                             "Failed to check bridge device docker0: list index out of range"))
                   (PStr "docker0") (Raise _) _) eq_refl).
  vm_compute. reflexivity.
Defined.

(** *** The gateway of a gateway *)

Lemma octet_reads_table : forallb Spec.octet_reads (map Z.of_nat (seq 0 256)) = true.
Proof. vm_compute. reflexivity. Qed.

(** A byte, printed, reads back as itself and holds no dot and no slash. *)
Lemma parse_pretty_octet (v : Z) :
  0 <= v < 256 ->
  IpAddress._parse_octet (pretty v) = Ok v
  /\ PyStr.mem_char "." (pretty v) = false
  /\ PyStr.mem_char "/" (pretty v) = false.
Proof.
  intros Hv. pose proof octet_reads_table as Ht. rewrite forallb_forall in Ht.
  assert (Hin : In v (map Z.of_nat (seq 0 256))).
  { apply in_map_iff. exists (Z.to_nat v). split; [lia|]. apply in_seq. lia. }
  specialize (Ht v Hin). unfold Spec.octet_reads in Ht.
  destruct (IpAddress._parse_octet (pretty v)) as [v'|e]; [|discriminate].
  apply andb_prop in Ht as [Ht H2]. apply andb_prop in Ht as [H0 H1].
  apply Z.eqb_eq in H0. subst v'.
  repeat split; [apply negb_true_iff, H1|apply negb_true_iff, H2].
Qed.

Lemma to_bytes4_range (m : Z) : Forall (fun b => 0 <= b < 256) (IpAddress.to_bytes4 m).
Proof. unfold IpAddress.to_bytes4. repeat constructor; apply Z.mod_pos_bound; lia. Qed.

Lemma to_bytes4_value (m : Z) :
  0 <= m < 2 ^ 32 ->
  fold_left (fun acc b => 256 * acc + b) (IpAddress.to_bytes4 m) 0 = m.
Proof.
  intros Hm. unfold IpAddress.to_bytes4. cbn [fold_left].
  change (2 ^ 8) with 256. change (2 ^ 16) with (256 * 256).
  change (2 ^ 24) with (256 * (256 * 256)).
  rewrite <- !Z.div_div by lia.
  pose proof (Z.div_mod m 256 ltac:(lia)) as H0.
  pose proof (Z.div_mod (m / 256) 256 ltac:(lia)) as H1.
  pose proof (Z.div_mod (m / 256 / 256) 256 ltac:(lia)) as H2.
  assert (H3 : m / 256 / 256 / 256 < 256).
  { rewrite !Z.div_div by lia. apply Z.div_lt_upper_bound; [lia|].
    change (256 * 256 * 256 * 256) with (2 ^ 32). lia. }
  assert (H4 : 0 <= m / 256 / 256 / 256) by (repeat apply Z.div_pos; lia).
  rewrite (Z.mod_small (m / 256 / 256 / 256)) by lia. lia.
Qed.

Lemma from_bytes_pretty (l : list Z) (acc : Z) :
  Forall (fun b => 0 <= b < 256) l ->
  IpAddress.from_bytes_map IpAddress._parse_octet acc (map pretty l)
  = Ok (fold_left (fun a b => 256 * a + b) l acc).
Proof.
  intros H. revert acc. induction H as [|b l Hb _ IH]; intros acc; [reflexivity|].
  cbn [map IpAddress.from_bytes_map fold_left].
  rewrite (proj1 (parse_pretty_octet b Hb)). cbn [rbind]. apply IH.
Qed.

(** An IPv4 address, printed, reads back as itself. *)
Lemma v4_print_parse (m : Z) :
  0 <= m < 2 ^ 32 ->
  IpAddress.ip_address (PStr (IpAddress.v4_string_from_ip_int m))
  = Ok (IpAddress.IPv4Address m).
Proof.
  intros Hm. pose proof (to_bytes4_range m) as Hb.
  assert (Hdot : Forall (fun p => PyStr.mem_char "." p = false)
                   (map pretty (IpAddress.to_bytes4 m))).
  { apply Forall_map. eapply List.Forall_impl; [|exact Hb].
    intros b Hr. apply (parse_pretty_octet b Hr). }
  assert (Hslash : Forall (fun p => PyStr.mem_char "/" p = false)
                     (map pretty (IpAddress.to_bytes4 m))).
  { apply Forall_map. eapply List.Forall_impl; [|exact Hb].
    intros b Hr. apply (parse_pretty_octet b Hr). }
  unfold IpAddress.ip_address, IpAddress.IPv4Address_new.
  change (Py.str (PStr (IpAddress.v4_string_from_ip_int m)))
    with (IpAddress.v4_string_from_ip_int m).
  change (IpAddress.v4_string_from_ip_int m)
    with (PyStr.join "." (map pretty (IpAddress.to_bytes4 m))).
  unfold IpAddress.IPv4Address_of_str.
  rewrite (mem_char_join "/" "." _ eq_refl Hslash).
  unfold IpAddress.v4_ip_int_from_string.
  rewrite (proj2 (String.eqb_neq _ _)) by (apply (join_two_not_empty ".")).
  rewrite (split_join "." (map pretty (IpAddress.to_bytes4 m)));
    [|unfold IpAddress.to_bytes4; discriminate|exact Hdot].
  change (length (map pretty (IpAddress.to_bytes4 m)) =? 4)%nat with true. cbn [negb].
  rewrite from_bytes_pretty by exact Hb. rewrite to_bytes4_value by exact Hm.
  reflexivity.
Qed.

Lemma compressed_free (c : ascii) (G : list Z) :
  IpAddress.is_hex c = false ->
  Forall (fun p => PyStr.mem_char c p = false)
    (IpAddress._compress_hextets (map IpAddress.format_x G)).
Proof.
  intros Hc.
  assert (HH : Forall (fun p => PyStr.mem_char c p = false) (map IpAddress.format_x G)).
  { apply Forall_map, Forall_forall. intros g _. apply mem_char_hex; [exact Hc|].
    apply hex_fixed_plain. }
  destruct (compress_cases (map IpAddress.format_x G))
    as [->|(s & len & _ & _ & _ & ->)]; [exact HH|].
  unfold Spec.with_skip. apply Forall_app. split.
  - destruct (firstn s _) eqn:E; [repeat constructor|].
    rewrite <- E. apply Forall_firstn_skipn, HH.
  - constructor; [reflexivity|].
    destruct (skipn (s + len) _) eqn:E; [repeat constructor|].
    rewrite <- E. apply Forall_firstn_skipn, HH.
Qed.

(** An IPv6 address without zone, printed, reads back as itself. *)
Lemma v6_print_parse (m : Z) (r : string) :
  0 <= m < 2 ^ 128 ->
  IpAddress.v6_string_from_ip_int m = Ok r ->
  IpAddress.ip_address (PStr r) = Ok (IpAddress.IPv6Address m None).
Proof.
  intros Hm Hr. pose proof (v6_roundtrip m r Hm Hr) as Hback.
  rewrite v6_string_hextets in Hr by exact Hm.
  apply (f_equal (fun x => match x with Ok v => v | Raise _ => "" end)) in Hr.
  cbv beta iota in Hr.
  assert (Hfree : forall c, IpAddress.is_hex c = false -> Ascii.eqb c ":" = false ->
                    PyStr.mem_char c r = false).
  { intros c Hc Hcolon. rewrite <- Hr. apply mem_char_join; [|apply compressed_free, Hc].
    cbn [PyStr.mem_char]. rewrite Hcolon. reflexivity. }
  pose proof (Hfree "."%char eq_refl eq_refl) as Hdot.
  pose proof (Hfree "/"%char eq_refl eq_refl) as Hslash.
  pose proof (Hfree "%"%char eq_refl eq_refl) as Hpct.
  unfold IpAddress.ip_address, IpAddress.IPv4Address_new, IpAddress.IPv6Address_new.
  change (Py.str (PStr r)) with r.
  assert (H4 : exists msg, IpAddress.IPv4Address_of_str r = Raise (Exn AddressValueError msg)).
  { unfold IpAddress.IPv4Address_of_str. rewrite Hslash.
    unfold IpAddress.v4_ip_int_from_string.
    destruct (String.eqb r ""); [eexists; reflexivity|].
    rewrite (split_no_sep "." r Hdot). eexists. reflexivity. }
  destruct H4 as [msg ->]. cbn [rcatch isinstance exn_cls exn_class_eqb orb].
  unfold IpAddress.IPv6Address_of_str. rewrite Hslash.
  unfold IpAddress._split_scope_id. rewrite (partition_none "%" r Hpct). cbn [rbind].
  rewrite Hback. reflexivity.
Qed.

(** X15. Taking the gateway twice is taking it once: for an IPv4 address
    and for an IPv6 address without zone, the gateway is an address that is
    its own gateway. *)
Theorem gateway_idempotent (s : string) (n : Z) :
  IpAddress.ip_address (PStr s) = Ok (IpAddress.IPv4Address n)
  \/ IpAddress.ip_address (PStr s) = Ok (IpAddress.IPv6Address n None) ->
  exists g,
    Network.get_gateway_ip (PStr s) = Ok g
    /\ Network.get_gateway_ip (PStr g) = Ok g.
Proof.
  intros [Hip|Hip]; pose proof (ip_address_range s _ Hip) as Hn; cbv beta iota in Hn.
  - pose proof (Z.div_mod n 256 ltac:(lia)) as Hd.
    pose proof (Z.mod_pos_bound n 256 ltac:(lia)) as Hr.
    set (m := n - n mod 256 + 1).
    assert (Hm : 0 <= m < 2 ^ 32).
    { unfold m. change (2 ^ 32) with (256 * 2 ^ 24) in *.
      assert (n / 256 < 2 ^ 24) by (apply Z.div_lt_upper_bound; lia). lia. }
    assert (Hm1 : m - m mod 256 + 1 = m).
    { unfold m. replace (n - n mod 256 + 1) with (1 + (n / 256) * 256) by lia.
      rewrite Z.mod_add by lia. rewrite (Z.mod_small 1 256) by lia. lia. }
    exists (IpAddress.v4_string_from_ip_int m).
    assert (Hg : forall k, 0 <= k < 2 ^ 32 ->
              PyStr.join "." (map pretty (firstn 3 (IpAddress.to_bytes4 k) ++ [1]))
              = IpAddress.v4_string_from_ip_int (k - k mod 256 + 1)).
    { intros k Hk.
      change (IpAddress.v4_string_from_ip_int (k - k mod 256 + 1))
        with (PyStr.join "." (map pretty (IpAddress.to_bytes4 (k - k mod 256 + 1)))).
      rewrite gateway_octets by exact Hk. reflexivity. }
    split.
    + rewrite (gateway_of_v4 (PStr s) n Hn Hip). f_equal. apply Hg, Hn.
    + rewrite (gateway_of_v4 _ m Hm (v4_print_parse m Hm)). rewrite Hg by exact Hm.
      rewrite Hm1. reflexivity.
  - destruct (gateway_of_v6 (PStr s) n Hn Hip) as (r & Hg & Hr & _).
    pose proof (gateway_in_range n Hn) as Hm.
    set (m := n - n mod 65536 + 1) in *.
    assert (Hm1 : m - m mod 65536 + 1 = m).
    { unfold m. pose proof (Z.div_mod n 65536 ltac:(lia)) as Hd.
      replace (n - n mod 65536 + 1) with (1 + (n / 65536) * 65536) by lia.
      rewrite Z.mod_add by lia. rewrite (Z.mod_small 1 65536) by lia. lia. }
    exists r. split; [exact Hg|].
    destruct (gateway_of_v6 (PStr r) m Hm (v6_print_parse m r Hm Hr)) as (r' & Hg' & Hr' & _).
    rewrite Hm1, Hr in Hr'. injection Hr' as <-. exact Hg'.
Qed.

Lemma gateway_idempotent_witness :
  exists g,
    Network.get_gateway_ip (PStr "10.5.3.77") = Ok g
    /\ Network.get_gateway_ip (PStr g) = Ok g.
Proof.
  apply (gateway_idempotent "10.5.3.77" 168100685). left. vm_compute. reflexivity.
Defined.

(** ** microvm.py *)

(** *** The configuration merge *)

(** X16. With no keyword repeated and none that refuses the assignment, the
    merge goes through. An argument whose name is an attribute of the
    configuration object is stored under that name, with the value passed;
    every name that is not passed, or is no attribute, is left as it was: an
    argument that names no attribute leaves no trace. *)
Theorem merge_stores_passed_values (c : gmap string pyval) (kwargs : list (string * pyval)) :
  NoDup (map fst kwargs) ->
  Forall (fun kv => Config.assignable (fst kv) = true) kwargs ->
  exists c',
    MicroVM.apply_kwargs c kwargs = Ok c'
    /\ (forall k v, In (k, v) kwargs -> Config.hasattr c k = true -> c' !! k = Some v)
    /\ (forall k, ~ In k (map fst kwargs) \/ Config.hasattr c k = false -> c' !! k = c !! k).
Proof.
  intros Hnodup Hkeys. revert c Hnodup.
  induction Hkeys as [|[k0 v0] kwargs Hk0 _ IH]; intros c Hnodup.
  - exists c. split; [reflexivity|]. split; [intros k v []|reflexivity].
  - cbn [map fst] in Hnodup. apply NoDup_cons in Hnodup as [Hfresh Hnodup].
    rewrite list_elem_of_In in Hfresh.
    cbn [fst] in Hk0. rewrite apply_kwargs_cons.
    destruct (Config.hasattr c k0) eqn:Hc.
    + rewrite (setattr_assignable c k0 v0 Hk0). cbn [rbind].
      destruct (IH (<[k0 := v0]> c) Hnodup) as (c' & Hmerge & Hset & Hkeep).
      exists c'. split; [exact Hmerge|]. split.
      * intros k v [Heq|Hin] Hk.
        -- injection Heq as <- <-. rewrite (Hkeep k0) by (left; exact Hfresh).
           apply lookup_insert_eq.
        -- apply (Hset k v Hin). rewrite hasattr_insert; assumption.
      * intros k Hk.
        assert (Hne : k0 <> k).
        { intros <-. destruct Hk as [Hk|Hk]; [apply Hk; left; reflexivity|congruence]. }
        rewrite (Hkeep k).
        -- apply lookup_insert_ne, Hne.
        -- destruct Hk as [Hk|Hk]; [left; intros Hin; apply Hk; right; exact Hin|].
           right. rewrite hasattr_insert; assumption.
    + cbn [rbind].
      destruct (IH c Hnodup) as (c' & Hmerge & Hset & Hkeep).
      exists c'. split; [exact Hmerge|]. split.
      * intros k v [Heq|Hin] Hk.
        -- injection Heq as <- <-. congruence.
        -- apply (Hset k v Hin Hk).
      * intros k [Hk|Hk]; apply Hkeep; [left; intros Hin; apply Hk; right; exact Hin|].
        right. exact Hk.
Qed.

Lemma merge_stores_passed_values_witness :
  exists c',
    MicroVM.apply_kwargs Config.MicroVMConfig
      [("vcpu", PInt 4); ("mem_size_mib", PInt 1024); ("hostname", PStr "web")] = Ok c'
    /\ c' !! "vcpu" = Some (PInt 4)
    /\ c' !! "hostname" = Some (PStr "web")
    /\ c' !! "mem_size_mib" = None
    /\ c' !! "memory" = Some (PInt 512).
Proof.
  destruct (merge_stores_passed_values Config.MicroVMConfig
              [("vcpu", PInt 4); ("mem_size_mib", PInt 1024); ("hostname", PStr "web")])
    as (c' & Hmerge & Hset & Hkeep).
  - cbn [map fst]. repeat constructor; rewrite ?list_elem_of_In; simpl; intuition discriminate.
  - repeat constructor.
  - exists c'. split; [exact Hmerge|]. split; [|split; [|split]].
    + apply Hset; [simpl; tauto|vm_compute; reflexivity].
    + apply Hset; [simpl; tauto|vm_compute; reflexivity].
    + rewrite Hkeep by (right; vm_compute; reflexivity). vm_compute. reflexivity.
    + rewrite Hkeep by (left; simpl; intuition discriminate). vm_compute. reflexivity.
Defined.

(** *** What the operations answer and raise *)

Lemma wrap_VMMError_raises {W : Type} {host : Host W} {A : Type} (m : M W A)
    (w w' : W) (e : exn) :
  MicroVM.wrap_VMMError m w = (Raise e, w') -> exn_cls e = VMMError.
Proof. unfold MicroVM.wrap_VMMError. apply try_except_throws. Qed.

(** X17. Whatever goes wrong in [list], [config], [status], [pause],
    [resume], [delete] or [port_forward], what the caller sees is a
    [VMMError]. *)
Theorem operations_raise_VMMError {W : Type} {host : Host W} (self : MicroVM.MicroVM)
    (id : option string) (kwargs : list (string * pyval))
    (all host_port dest_port remove : pyval) (w w' : W) (e : exn) :
  (MicroVM.list_ w = (Raise e, w') -> exn_cls e = VMMError)
  /\ (MicroVM.config self id kwargs w = (Raise e, w') -> exn_cls e = VMMError)
  /\ (MicroVM.status self id kwargs w = (Raise e, w') -> exn_cls e = VMMError)
  /\ (MicroVM.pause self id kwargs w = (Raise e, w') -> exn_cls e = VMMError)
  /\ (MicroVM.resume self id kwargs w = (Raise e, w') -> exn_cls e = VMMError)
  /\ (MicroVM.delete self id all kwargs w = (Raise e, w') -> exn_cls e = VMMError)
  /\ (MicroVM.port_forward self id host_port dest_port remove kwargs w = (Raise e, w') ->
      exn_cls e = VMMError).
Proof.
  repeat split; try apply wrap_VMMError_raises;
    destruct kwargs as [|[k v] rest]; try discriminate; apply wrap_VMMError_raises.
Qed.

Lemma operations_raise_VMMError_witness :
  exn_cls (Exn VMMError "VMM zzz00000 does not exist") = VMMError.
Proof.
  refine (proj1 (proj2 (proj2 (proj2
            (operations_raise_VMMError (Sim.instance "abc12345" false) (Some "zzz00000") []
               PNone PNone PNone PNone Sim.w0 Sim.w0
               (Exn VMMError "VMM zzz00000 does not exist"))))) _).
  reflexivity.
Defined.

(** X18. With [all] set, [delete] does not look at the id: whichever id is
    passed, or none, the outcome is the same. *)
Theorem delete_all_ignores_id {W : Type} {host : Host W} (self : MicroVM.MicroVM)
    (id1 id2 : option string) (all : pyval) (kwargs : list (string * pyval)) (w : W) :
  Py.truthy all = true ->
  MicroVM.delete self id1 all kwargs w = MicroVM.delete self id2 all kwargs w.
Proof.
  intros Hall. unfold MicroVM.delete. destruct kwargs as [|[k v] rest]; [|reflexivity].
  cbv zeta. rewrite Hall. cbn [negb]. rewrite !andb_false_r. reflexivity.
Qed.

Lemma delete_all_ignores_id_witness :
  MicroVM.delete (Sim.instance "abc12345" false) (Some "abc12345") (PBool true) [] Sim.w0
  = MicroVM.delete (Sim.instance "abc12345" false) None (PBool true) [] Sim.w0.
Proof. apply delete_all_ignores_id. reflexivity. Defined.

(** *** Configuration of the hypervisor *)

(** X19. A failure while the hypervisor is configured reaches the caller of
    [_basic_config] as a [ConfigurationError], whichever step failed; the
    same holds of each step on its own. *)
Theorem basic_config_raises_ConfigurationError {W : Type} {host : Host W}
    (self : MicroVM.MicroVM) (w w' : W) (e : exn) :
  (MicroVM._basic_config self w = (Raise e, w') -> exn_cls e = ConfigurationError)
  /\ (MicroVM._configure_vmm_boot_source self w = (Raise e, w') ->
      exn_cls e = ConfigurationError)
  /\ (MicroVM._configure_vmm_root_drive self w = (Raise e, w') ->
      exn_cls e = ConfigurationError)
  /\ (MicroVM._configure_vmm_resources self w = (Raise e, w') ->
      exn_cls e = ConfigurationError)
  /\ (MicroVM._configure_vmm_network self w = (Raise e, w') ->
      exn_cls e = ConfigurationError)
  /\ (MicroVM._configure_vmm_mmds self w = (Raise e, w') ->
      exn_cls e = ConfigurationError).
Proof. repeat split; apply try_except_throws. Qed.

Lemma basic_config_raises_ConfigurationError_witness :
  exn_cls (Exn ConfigurationError "Failed to configure boot source: Request to /boot failed")
  = ConfigurationError.
Proof.
  refine (proj1 (basic_config_raises_ConfigurationError (host := Sim.offline_host)
                   (Sim.instance "abc12345" false) Sim.w0 _ _) _).
  vm_compute. reflexivity.
Defined.

(** *** Creation *)

Lemma bind_ok_inv {W A B : Type} (m : M W A) (k : A -> M W B) (w w' : W) (b : B) :
  bind m k w = (Ok b, w') -> exists a w1, m w = (Ok a, w1) /\ k a w1 = (Ok b, w').
Proof.
  unfold bind. destruct (m w) as [[a|e] w1]; [eauto|discriminate].
Qed.

Lemma attempt_outcome {W A : Type} (m : M W A) (msg : exn -> string) (close : M W unit)
    (w w' : W) (r : result A) :
  (forall w2, exists w3, close w2 = (Ok tt, w3)) ->
  try_finally (try_except m (fun e => throw VMMError (msg e))) close w = (r, w') ->
  (exists v w2, m w = (Ok v, w2) /\ r = Ok v)
  \/ (exists e w2, m w = (Raise e, w2) /\ r = Raise (Exn VMMError (msg e))).
Proof.
  intros Hclose. unfold try_finally, try_except, throw, raise.
  destruct (m w) as [[v|e] w2]; destruct (Hclose w2) as [w3 ->]; intros [= <- _]; eauto 6.
Qed.

Lemma attempt_ok {W A : Type} (m : M W A) (h : exn -> M W A) (close : M W unit)
    (w w' : W) (v : A) :
  (forall e w1, exists e' w2, h e w1 = (Raise e', w2)) ->
  try_finally (try_except m h) close w = (Ok v, w') ->
  exists w2, m w = (Ok v, w2).
Proof.
  intros Hh. unfold try_finally, try_except.
  destruct (m w) as [[v0|e] w2].
  - destruct (close w2) as [[[]|e'] w3]; [|discriminate]. intros [= <- _]. eauto.
  - destruct (Hh e w2) as (e' & w3 & ->). destruct (close w3) as [[[]|e''] w4]; discriminate.
Qed.

Section Create.
Context {W : Type} {host : Host W}.
Variable self : MicroVM.MicroVM.

(** What [create] attempts once it has found the VM to be new. *)
Lemma create_attempt_ok (w w' : W) (v : pyval) :
  (do! MicroVM._spawn self in
   do! MicroVM._basic_config self in
   do! api_put "actions" [("action_type", JS "InstanceStart")] in
   do! (if Py.truthy (MicroVM._port_forwarding self) then
          throw AttributeError "'MicroVM' object has no attribute '_port_forward'"
        else ret tt) in
   ret (PStr ("VMM " +:+ MicroVM._microvm_id self +:+ " is created successfully"))) w
  = (Ok v, w') ->
  Py.truthy (MicroVM._port_forwarding self) = false
  /\ v = PStr ("VMM " +:+ MicroVM._microvm_id self +:+ " is created successfully").
Proof.
  intros H.
  apply bind_ok_inv in H as (? & w1 & _ & H). apply bind_ok_inv in H as (? & w2 & _ & H).
  apply bind_ok_inv in H as (? & w3 & _ & H). apply bind_ok_inv in H as (? & w4 & Hpf & H).
  destruct (Py.truthy (MicroVM._port_forwarding self)); [discriminate Hpf|].
  injection H as <- _. split; reflexivity.
Qed.

End Create.

(** X20. [create] ends in one of four ways, provided closing the API handle
    does not fail: the answer that the VM already exists; the answer that it
    is created; a [VMMError] whose message starts with
    ["Failed to create VMM <id>: "]; or the error of the registry listing
    that the check for an existing VM consults, which is outside the
    [try]. *)
Theorem create_outcome {W : Type} {host : Host W} (self : MicroVM.MicroVM)
    (w w' : W) (r : result pyval) :
  (forall w2, exists w3, api_close w2 = (Ok tt, w3)) ->
  MicroVM.create self [] w = (r, w') ->
  r = Ok (PStr ("VMM with ID " +:+ MicroVM._microvm_id self +:+ " already exists"))
  \/ r = Ok (PStr ("VMM " +:+ MicroVM._microvm_id self +:+ " is created successfully"))
  \/ (exists m, r = Raise (Exn VMMError
                             ("Failed to create VMM " +:+ MicroVM._microvm_id self +:+ ": "
                                +:+ m)))
  \/ (exists e, r = Raise e
                /\ ((exists w1, vmm_list_vmms w = (Raise e, w1))
                    \/ exists vmms w1, vmm_list_vmms w = (Ok vmms, w1)
                                       /\ MicroVM.vmm_ids vmms = Raise e)).
Proof.
  intros Hclose H. unfold MicroVM.create in H. cbv zeta in H.
  unfold bind at 1 in H. unfold read in H.
  destruct (path_exists (PStr (MicroVM._socket_file self)) w).
  - unfold bind, ret in H. injection H as <- _. left. reflexivity.
  - unfold bind at 1 in H. unfold bind at 1 in H.
    destruct (vmm_list_vmms w) as [[vmms|e] w1] eqn:Hlist.
    2:{ injection H as <- _. right. right. right. exists e. split; [reflexivity|]. eauto. }
    unfold bind at 1 in H. unfold lift in H.
    destruct (MicroVM.vmm_ids vmms) as [ids|e] eqn:Hids.
    2:{ injection H as <- _. right. right. right. exists e. split; [reflexivity|].
        right. eauto. }
    unfold ret at 1 in H.
    destruct (MicroVM.id_in (MicroVM._microvm_id self) ids).
    + unfold ret in H. injection H as <- _. left. reflexivity.
    + apply (attempt_outcome _ (fun e => "Failed to create VMM " +:+ MicroVM._microvm_id self
                                            +:+ ": " +:+ exn_msg e) _ _ _ _ Hclose) in H
        as [(v & w2 & Hbody & ->)|(e & w2 & _ & ->)].
      * apply create_attempt_ok in Hbody as [_ ->]. right. left. reflexivity.
      * right. right. left. eauto.
Qed.

Lemma create_outcome_witness :
  exists m,
    Raise (Exn VMMError
             "Failed to create VMM new00001: Failed to connect to the API socket after 3 attempts")
    = Raise (A := pyval) (Exn VMMError ("Failed to create VMM new00001: " +:+ m)).
Proof.
  destruct (create_outcome (Sim.instance "new00001" false) Sim.w1
              (snd (MicroVM.create (Sim.instance "new00001" false) [] Sim.w1))
              (Raise (Exn VMMError
                 "Failed to create VMM new00001: Failed to connect to the API socket after 3 attempts")))
    as [H|[H|[H|H]]].
  - intros w2. eexists. reflexivity.
  - vm_compute. reflexivity.
  - discriminate H.
  - discriminate H.
  - exact H.
  - destruct H as (e & _ & [[w1 H]|(vmms & w1 & Hl & H)]).
    + vm_compute in H. discriminate H.
    + vm_compute in Hl. injection Hl as <- _. vm_compute in H. discriminate H.
Defined.

(** X21. With port forwarding requested, [create] cannot complete: it calls
    a method [_port_forward] that the class does not have, so the only
    answer it can give is that the VM already exists. *)
Theorem create_with_port_forwarding {W : Type} {host : Host W} (self : MicroVM.MicroVM)
    (w w' : W) (v : pyval) :
  Py.truthy (MicroVM._port_forwarding self) = true ->
  MicroVM.create self [] w = (Ok v, w') ->
  v = PStr ("VMM with ID " +:+ MicroVM._microvm_id self +:+ " already exists").
Proof.
  intros Hpf H. unfold MicroVM.create in H. cbv zeta in H.
  apply bind_ok_inv in H as (present & w1 & _ & H).
  apply bind_ok_inv in H as (known & w2 & _ & H).
  destruct known; [unfold ret in H; injection H as <- _; reflexivity|].
  exfalso. apply attempt_ok in H as [w3 Hbody].
  - apply create_attempt_ok in Hbody as [Hf _]. congruence.
  - intros e w3. do 2 eexists. reflexivity.
Qed.

(** The VM is started before the missing method is called. *)
Lemma create_with_port_forwarding_witness :
  PStr "VMM with ID abc12345 already exists"
  = PStr ("VMM with ID " +:+ MicroVM._microvm_id (Sim.forwarding_instance "abc12345")
            +:+ " already exists").
Proof.
  apply (create_with_port_forwarding (Sim.forwarding_instance "abc12345") Sim.w0 Sim.w0).
  - reflexivity.
  - vm_compute. reflexivity.
Defined.

Example create_with_port_forwarding_starts_vm :
  exists w',
    MicroVM.create (Sim.forwarding_instance "new00001") []
      (Sim.set_socket_appears
         (Some ("/var/lib/firecracker/new00001/firecracker.socket", 1%nat)) Sim.w1)
    = (Raise (Exn VMMError
         "Failed to create VMM new00001: 'MicroVM' object has no attribute '_port_forward'"),
       w')
    /\ In (Sim.ApiPut "actions" [("action_type", JS "InstanceStart")]) (Sim.trace w')
    /\ List.last (Sim.trace w') Sim.ApiClose = Sim.ApiClose.
Proof.
  eexists. split; [vm_compute; reflexivity|]. split; [|vm_compute; reflexivity].
  vm_compute. repeat (first [left; reflexivity | right]).
Qed.

(** ** cli.py *)

(** X22. The [create] command passes every option to the constructor, given
    or not. One left out arrives as [None] and replaces the default of the
    same name, the kernel path and the guest address among them;
    [mem_size_mib], [name], [rootfs_url] and [working_dir] name no
    configuration option and are dropped, so the memory stays at its default
    of 512 MiB whatever is asked for. *)
Theorem cli_create_options
    (name kernel_file base_rootfs rootfs_url vcpu mem_size_mib ip_addr bridge bridge_name
     mmds_enabled mmds_ip working_dir expose_ports host_port dest_port verbose : pyval) :
  exists config,
    MicroVM.apply_kwargs Config.MicroVMConfig
      (Cli.create_kwargs name kernel_file base_rootfs rootfs_url vcpu mem_size_mib ip_addr
         bridge bridge_name mmds_enabled mmds_ip working_dir expose_ports host_port dest_port
         verbose) = Ok config
  /\ Config.getattr config "kernel_file" = Ok kernel_file
  /\ Config.getattr config "base_rootfs" = Ok base_rootfs
  /\ Config.getattr config "vcpu" = Ok vcpu
  /\ Config.getattr config "ip_addr" = Ok ip_addr
  /\ Config.getattr config "bridge" = Ok bridge
  /\ Config.getattr config "bridge_name" = Ok bridge_name
  /\ Config.getattr config "mmds_enabled" = Ok mmds_enabled
  /\ Config.getattr config "mmds_ip" = Ok mmds_ip
  /\ Config.getattr config "expose_ports" = Ok expose_ports
  /\ Config.getattr config "host_port" = Ok host_port
  /\ Config.getattr config "dest_port" = Ok dest_port
  /\ Config.getattr config "verbose" = Ok verbose
  /\ Config.getattr config "memory" = Ok (PInt 512)
  /\ Config.getattr config "hostname" = Ok (PStr "fc-vm")
  /\ Config.hasattr config "mem_size_mib" = false
  /\ Config.hasattr config "name" = false
  /\ Config.hasattr config "rootfs_url" = false
  /\ Config.hasattr config "working_dir" = false.
Proof.
  eexists. split.
  - unfold Cli.create_kwargs, MicroVM.apply_kwargs. cbn [rfold fst snd].
    repeat (match goal with
            | |- context [Config.hasattr ?c ?k] =>
                let b := eval vm_compute in (Config.hasattr c k) in
                replace (Config.hasattr c k) with b by (vm_compute; reflexivity)
            end;
            rewrite ?setattr_assignable by reflexivity; cbn [rbind]).
    reflexivity.
  - repeat split; vm_compute; reflexivity.
Qed.

Section Commands.
Context {W : Type} {host : Host W}.

Lemma init_never_returns (id : option string) (kwargs : list (string * pyval))
    (w w' : W) (vm : MicroVM.MicroVM) :
  MicroVM.__init__ id kwargs w <> (Ok vm, w').
Proof.
  destruct (MicroVM.apply_kwargs Config.MicroVMConfig kwargs) as [config|e] eqn:Hmerge.
  - exact (init_stops id kwargs w config Hmerge vm w').
  - exact (init_merge_fails id kwargs w e Hmerge vm w').
Qed.

Lemma after_init {A : Type} (id : option string) (kwargs : list (string * pyval))
    (k : MicroVM.MicroVM -> M W A) (w w' : W) (r : result A) :
  bind (MicroVM.__init__ id kwargs) k w = (r, w') ->
  exists e, r = Raise e /\ MicroVM.__init__ id kwargs w = (Raise e, w').
Proof.
  unfold bind. destruct (MicroVM.__init__ id kwargs w) as [[vm|e] w1] eqn:Hi.
  - destruct (init_never_returns _ _ _ _ _ Hi).
  - intros [= <- <-]. eauto.
Qed.

End Commands.

(** X23. No command that builds a [MicroVM] gets to do its work: [create],
    [rm], [resume], [pause] and [inspect] all end in the error the
    constructor raises, in the state the constructor left. *)
Theorem cli_commands_fail {W : Type} {host : Host W} (id : string)
    (kwargs : list (string * pyval)) (w w' : W) (r : result unit) :
  (Cli.create kwargs w = (r, w') ->
   exists e, r = Raise e /\ MicroVM.__init__ None kwargs w = (Raise e, w'))
  /\ (Cli.rm id w = (r, w') \/ Cli.resume id w = (r, w') \/ Cli.pause id w = (r, w')
      \/ Cli.inspect id w = (r, w') ->
      exists e, r = Raise e /\ MicroVM.__init__ None [] w = (Raise e, w')).
Proof.
  split; [apply after_init|]. intros [H|[H|[H|H]]]; apply after_init in H; exact H.
Qed.

Lemma cli_commands_fail_witness :
  exists e,
    Raise (A := unit)
      (Exn AttributeError "'NoneType' object has no attribute 'replace'") = Raise e
    /\ MicroVM.__init__ None Cli.default_kwargs Sim.w0 = (Raise e, Sim.w0).
Proof.
  apply (proj1 (cli_commands_fail "abc12345" Cli.default_kwargs Sim.w0 Sim.w0 _)).
  vm_compute. reflexivity.
Defined.
